(** * The Local Guide: resilience wrapper, provider adapters and orchestrator

    A shallow embedding of the orchestration core of the repository
    (src/utils/base_service.py, tastedive_api.py, algolia_api.py and
    local_guide_system.py) together with the properties its specification
    states about it.

    Conventions of the embedding.
    - A Python [dict] with string keys is a [gmap string pyval]; a missing
      key is [None] of the lookup, which is different from the value
      [VNone] (Python's [None]) stored under a key.
    - Python numbers ([int] and [float]) are exact rationals [Q].  All
      constants of the scoring code are decimal fractions, and every
      property below is about order, bounds and caps, which rounding to
      the nearest double preserves (addition and [min] are monotone).
    - Python [str] is [string], a sequence of bytes; [lower] maps the
      ASCII capitals only, which is what [str.lower] does on ASCII text.
    - An f-string sent to a logger is kept as its template together with
      the list of interpolated values.
    - Exceptions are values of [exn]; they stand for instances of
      Python's [Exception] (what [except Exception] catches).  A
      computation is a function from the state before to an outcome and
      the state after; a raised exception keeps the state changes made
      before it, as in Python.
    - Recommendation records are handled by value.  Where the source
      puts one dict object several times in a list, the steps modelled
      here write to it values that do not depend on how often it was
      visited ([source], [recommendation_type], the scores). *)

From Stdlib Require Import Ascii String QArith Lqa Lia.
From stdpp Require Import gmap strings list pretty.

Set Warnings "-register-all".
Open Scope string_scope.

(** ** Python values *)

Inductive pyval :=
| VNone
| VBool (b : bool)
| VNum (q : Q)
| VStr (s : string)
| VList (l : list pyval)
| VDict (d : gmap string pyval).

Abbreviation pydict := (gmap string pyval).

(** [str(v)] on a value that is neither a string nor handled by the caller
    before ([None]): numbers, lists and dicts.  Its output (the shortest
    round-trip rendering of a double, the [repr] of nested values) is not
    reproduced here; the development is parametric in it. *)
Class PyRuntime := { py_repr : pyval -> string }.

Module Py.

Definition lower_ascii (c : ascii) : ascii :=
  let n := N_of_ascii c in
  if ((65 <=? n) && (n <=? 90))%N then ascii_of_N (n + 32) else c.

Definition upper_ascii (c : ascii) : ascii :=
  let n := N_of_ascii c in
  if ((97 <=? n) && (n <=? 122))%N then ascii_of_N (n - 32) else c.

Definition is_alpha_ascii (c : ascii) : bool :=
  let n := N_of_ascii c in
  (((65 <=? n) && (n <=? 90)) || ((97 <=? n) && (n <=? 122)))%N.

(** [s.lower()] *)
Fixpoint lower (s : string) : string :=
  match s with
  | EmptyString => EmptyString
  | String c s' => String (lower_ascii c) (lower s')
  end.

(** [sub in s] for two strings *)
Fixpoint isin (sub s : string) : bool :=
  String.prefix sub s ||
  match s with
  | EmptyString => false
  | String _ s' => isin sub s'
  end.

(** [any(k in s for k in keywords)] *)
Definition any_in (keywords : list string) (s : string) : bool :=
  existsb (fun k => isin k s) keywords.

(** [sep.join(l)] *)
Fixpoint join (sep : string) (l : list string) : string :=
  match l with
  | [] => EmptyString
  | [x] => x
  | x :: l' => x +:+ sep +:+ join sep l'
  end.

(** [s.endswith(suffix)], for a one-character suffix *)
Fixpoint endswith_char (s : string) (c : ascii) : bool :=
  match s with
  | EmptyString => false
  | String a EmptyString => bool_decide (a = c)
  | String _ s' => endswith_char s' c
  end.

(** [s.title()]: a letter that follows a letter is lowered, any other
    letter is raised *)
Fixpoint title_from (prev_alpha : bool) (s : string) : string :=
  match s with
  | EmptyString => EmptyString
  | String c s' =>
      String (if prev_alpha then lower_ascii c else upper_ascii c)
             (title_from (is_alpha_ascii c) s')
  end.
Definition title (s : string) : string := title_from false s.

(** Truth value of an object *)
Definition truthy (v : pyval) : bool :=
  match v with
  | VNone => false
  | VBool b => b
  | VNum q => negb (Qeq_bool q 0)
  | VStr s => negb (bool_decide (s = EmptyString))
  | VList l => negb (bool_decide (length l = 0%nat))
  | VDict d => negb (bool_decide (size d = 0%nat))
  end.

(** [d.get(k, default)] *)
Definition get (d : pydict) (k : string) (default : pyval) : pyval :=
  match d !! k with
  | Some v => v
  | None => default
  end.

(** [str(v)] *)
Definition str `{PyRuntime} (v : pyval) : string :=
  match v with
  | VStr s => s
  | _ => py_repr v
  end.

(** [str(x) if x is not None else ''], the guard used around every text
    field of a record *)
Definition text `{PyRuntime} (v : pyval) : string :=
  match v with
  | VNone => EmptyString
  | _ => str v
  end.

(** [k in [..]] for a list of strings *)
Definition str_elem (k : string) (l : list string) : bool :=
  existsb (String.eqb k) l.

(** [a < b] and [a <= b] on numbers *)
Definition leb (a b : Q) : bool := Qle_bool a b.
Definition ltb (a b : Q) : bool := negb (Qle_bool b a).

(** [min(a, b)]: the first argument unless the second is smaller *)
Definition min (a b : Q) : Q := if ltb b a then b else a.

(** [l[:n]] *)
Definition slice_to {A} (l : list A) (n : Z) : list A :=
  if (n <? 0)%Z then take (Z.to_nat (Z.of_nat (length l) + n)) l
  else take (Z.to_nat n) l.

(** Lookup in a dict literal whose order of keys matters. *)
Fixpoint assoc {A} (k : string) (l : list (string * A)) : option A :=
  match l with
  | [] => None
  | (k', v) :: l' => if String.eqb k k' then Some v else assoc k l'
  end.

(** Whitespace as [str.split()] and [str.strip()] see it, on bytes. *)
Definition is_space (c : ascii) : bool :=
  let n := N_of_ascii c in
  (((9 <=? n) && (n <=? 13)) || ((28 <=? n) && (n <=? 32)))%N.

Fixpoint split_from (cur : string) (s : string) : list string :=
  match s with
  | EmptyString =>
      match cur with EmptyString => [] | _ => [cur] end
  | String c s' =>
      if is_space c then
        match cur with
        | EmptyString => split_from EmptyString s'
        | _ => cur :: split_from EmptyString s'
        end
      else split_from (cur +:+ String c EmptyString) s'
  end.

(** [s.split()] *)
Definition split (s : string) : list string := split_from EmptyString s.

Fixpoint lstrip (s : string) : string :=
  match s with
  | EmptyString => EmptyString
  | String c s' => if is_space c then lstrip s' else s
  end.

Fixpoint rev_onto (s acc : string) : string :=
  match s with
  | EmptyString => acc
  | String c s' => rev_onto s' (String c acc)
  end.

(** [s.strip()] *)
Definition strip (s : string) : string :=
  let r := lstrip (rev_onto (lstrip s) EmptyString) in
  rev_onto r EmptyString.

(** The double quote, for the text of templates. *)
Definition dq : string := String (ascii_of_N 34) EmptyString.

(** The number a value stands for in arithmetic and comparisons. *)
Definition num (v : pyval) : option Q :=
  match v with
  | VNum q => Some q
  | VBool b => Some (if b then 1 else 0)%Q
  | _ => None
  end.

(** [a == b] where one side is [None], a number or a string. *)
Definition scalar_eqb (a b : pyval) : bool :=
  match a, b with
  | VNone, VNone => true
  | VStr s, VStr t => String.eqb s t
  | _, _ =>
      match num a, num b with
      | Some x, Some y => Qeq_bool x y
      | _, _ => false
      end
  end.

(** [v == 'literal'] *)
Definition eq_str (v : pyval) (s : string) : bool := scalar_eqb v (VStr s).

(** [hash(v)] succeeds *)
Definition hashable (v : pyval) : bool :=
  match v with
  | VList _ | VDict _ => false
  | _ => true
  end.

(** [x in s] for a set or the keys of a dict, given as a list *)
Definition elem (x : pyval) (s : list pyval) : bool :=
  existsb (scalar_eqb x) s.

Fixpoint dedup (l : list pyval) : list pyval :=
  match l with
  | [] => []
  | x :: l' => x :: filter (fun y => scalar_eqb x y = false) (dedup l')
  end.

Fixpoint chars (s : string) : list pyval :=
  match s with
  | EmptyString => []
  | String c s' => VStr (String c EmptyString) :: chars s'
  end.

(** Two values can be ordered by [sort]: they are equal, or both are
    numbers, or both are strings.  (Python also orders two lists; the
    embedding does not, and treats them like a [TypeError].) *)
Definition comparable (a b : pyval) : bool :=
  scalar_eqb a b ||
  match num a, num b with
  | Some _, Some _ => true
  | _, _ => match a, b with VStr _, VStr _ => true | _, _ => false end
  end.

(** [a < b] on comparable values *)
Definition lt_val (a b : pyval) : bool :=
  match num a, num b with
  | Some x, Some y => ltb x y
  | _, _ => match a, b with VStr s, VStr t => String.ltb s t | _, _ => false end
  end.

Fixpoint pairwise {A} (R : A -> A -> bool) (l : list A) : bool :=
  match l with
  | [] => true
  | x :: l' => forallb (R x) l' && pairwise R l'
  end.

(** [l.sort(key=..., reverse=True)]: descending, and stable (elements
    with equal keys keep their order).  [lt x y] is [key(x) < key(y)]. *)
Section Sort.
Context {A : Type} (lt : A -> A -> bool).

Fixpoint insert_desc (x : A) (l : list A) : list A :=
  match l with
  | [] => [x]
  | y :: l' => if lt x y then y :: insert_desc x l' else x :: y :: l'
  end.

Fixpoint sort_desc (l : list A) : list A :=
  match l with
  | [] => []
  | x :: l' => insert_desc x (sort_desc l')
  end.
End Sort.

End Py.

(** ** Outcomes and computations *)

(** An exception: its class name and its message. *)
Record exn := Exn { exn_class : string; exn_msg : string }.

Inductive result (A : Type) :=
| Ok (a : A)
| Raise (e : exn).
Arguments Ok {A} a.
Arguments Raise {A} e.

Inductive level := INFO | WARNING | ERROR.

Record log_record := Log {
  log_level : level;
  log_template : string;
  log_args : list pyval
}.

(** What the code can observe of its surroundings: the wall clock read by
    [time.time()], the records handed to the loggers, and the state [E] of
    everything outside the repository (network, providers). *)
Record World (E : Type) := MkWorld {
  clock : Q;
  logs : list log_record;
  ext : E
}.
Arguments MkWorld {E} clock logs ext.
Arguments clock {E} w.
Arguments logs {E} w.
Arguments ext {E} w.

(** A computation over a state [S]: outcome and state after. *)
Definition MS (S A : Type) : Type := S -> result A * S.

Module Comp.
Section Comp.
Context {S : Type}.

Definition ret {A} (a : A) : MS S A := fun s => (Ok a, s).

Definition raise {A} (e : exn) : MS S A := fun s => (Raise e, s).

Definition bind {A B} (m : MS S A) (k : A -> MS S B) : MS S B :=
fun s =>
  match m s with
  | (Ok a, s') => k a s'
  | (Raise e, s') => (Raise e, s')
  end.

(** [try: body  except Exception as e: handler(e)] *)
Definition try_except {A} (body : MS S A) (handler : exn -> MS S A) : MS S A :=
fun s =>
  match body s with
  | (Ok a, s') => (Ok a, s')
  | (Raise e, s') => handler e s'
  end.

Definition get_state : MS S S := fun s => (Ok s, s).
Definition modify (f : S -> S) : MS S unit := fun s => (Ok tt, f s).

(** A pure step that may raise. *)
Definition lift_result {A} (r : result A) : MS S A := fun s => (r, s).

End Comp.
End Comp.
Import Comp.

Notation "'let*' x ':=' m 'in' k" := (bind m (fun x => k))
  (at level 10, x name, m at level 200, k at level 200).
Notation "'let*' ' p ':=' m 'in' k" := (bind m (fun x => match x with p => k end))
  (at level 10, p pattern, m at level 200, k at level 200).
Notation "'do' m 'in' k" := (bind m (fun _ => k))
  (at level 10, m at level 200, k at level 200).

(** ** Operations of Python that can raise *)

Module PyOps.

Definition bindr {A B} (r : result A) (k : A -> result B) : result B :=
  match r with
  | Ok a => k a
  | Raise e => Raise e
  end.

Fixpoint mapr {A B} (f : A -> result B) (l : list A) : result (list B) :=
  match l with
  | [] => Ok []
  | x :: l' =>
      bindr (f x) (fun y => bindr (mapr f l') (fun ys => Ok (y :: ys)))
  end.

Definition AttributeError (attr : string) : exn :=
  Exn "AttributeError" ("object has no attribute '" +:+ attr +:+ "'").
Definition TypeError (msg : string) : exn := Exn "TypeError" msg.
Definition KeyError (k : string) : exn := Exn "KeyError" ("'" +:+ k +:+ "'").

(** [v.get(k, default)] *)
Definition method_get (v : pyval) (k : string) (default : pyval) : result pyval :=
  match v with
  | VDict d => Ok (Py.get d k default)
  | _ => Raise (AttributeError "get")
  end.

(** [v[k]] for a string [k] *)
Definition getitem (v : pyval) (k : string) : result pyval :=
  match v with
  | VDict d =>
      match d !! k with
      | Some x => Ok x
      | None => Raise (KeyError k)
      end
  | VStr _ => Raise (TypeError "string indices must be integers")
  | VList _ => Raise (TypeError "list indices must be integers or slices, not str")
  | _ => Raise (TypeError "object is not subscriptable")
  end.

(** [v.lower()] *)
Definition method_lower (v : pyval) : result string :=
  match v with
  | VStr s => Ok (Py.lower s)
  | _ => Raise (AttributeError "lower")
  end.

(** The elements [for x in v] visits.  The keys of a dict come in an
    order the embedding does not fix. *)
Definition iter (v : pyval) : result (list pyval) :=
  match v with
  | VList l => Ok l
  | VStr s => Ok (Py.chars s)
  | VDict d => Ok (map (fun kv => VStr (fst kv)) (map_to_list d))
  | _ => Raise (TypeError "object is not iterable")
  end.

(** [set(v)], as the list of its distinct elements *)
Definition set_of (v : pyval) : result (list pyval) :=
  bindr (iter v) (fun l =>
    if forallb Py.hashable l then Ok (Py.dedup l)
    else Raise (TypeError "unhashable type")).

(** [x in s] for a set [s] *)
Definition in_set (x : pyval) (s : list pyval) : result bool :=
  if Py.hashable x then Ok (Py.elem x s)
  else Raise (TypeError "unhashable type").

(** [x in d] for a dict literal with string keys *)
Definition in_keys {A} (x : pyval) (d : list (string * A)) : result bool :=
  if Py.hashable x then
    Ok (match x with
        | VStr s => match Py.assoc s d with Some _ => true | None => false end
        | _ => false
        end)
  else Raise (TypeError "unhashable type").

(** ['literal' in v] *)
Definition contains_str (v : pyval) (s : string) : result bool :=
  match v with
  | VList l => Ok (Py.elem (VStr s) l)
  | VStr t => Ok (Py.isin s t)
  | VDict d => Ok (match d !! s with Some _ => true | None => false end)
  | _ => Raise (TypeError "argument is not iterable")
  end.

(** A value used as a number *)
Definition as_num (v : pyval) : result Q :=
  match Py.num v with
  | Some q => Ok q
  | None => Raise (TypeError "unsupported operand type(s)")
  end.

(** [float(s)] on a string: the number it reads, or [None] where
    Python raises [ValueError].  The grammar of float literals is not
    reproduced here; the development is parametric in it. *)
Class PyFloat := { py_float_of_string : string -> option Q }.

(** [float(v)] *)
Definition float_of `{PyFloat} (v : pyval) : result Q :=
  match v with
  | VNum q => Ok q
  | VBool b => Ok (if b then 1 else 0)%Q
  | VStr s =>
      match py_float_of_string s with
      | Some q => Ok q
      | None => Raise (Exn "ValueError" "could not convert string to float")
      end
  | _ => Raise (TypeError "float() argument must be a string or a real number")
  end.

End PyOps.

Abbreviation M E := (MS (World E)).

Section WorldOps.
Context {E : Type}.

(** [time.time()] *)
Definition time_time : M E Q := fun w => (Ok (clock w), w).

(** [time.sleep(d)] *)
Definition time_sleep (d : Q) : M E unit :=
  fun w => (Ok tt, MkWorld (clock w + d) (logs w) (ext w)).

(** [logger.<level>(f"...")] *)
Definition log (l : level) (template : string) (args : list pyval) : M E unit :=
  fun w => (Ok tt, MkWorld (clock w) (logs w ++ [Log l template args]) (ext w)).

(** The world [w'] has the log of [w], and possibly more after it. *)
Definition logs_extend (w w' : World E) : Prop :=
  exists l, logs w' = (logs w ++ l)%list.

End WorldOps.

(** ** base_service.py: circuit breaker, retry, base service *)

Module BaseService.

Inductive CircuitState := CLOSED | OPEN | HALF_OPEN.

(** [CircuitState.<member>.value] *)
Definition CircuitState_value (s : CircuitState) : string :=
  match s with
  | CLOSED => "closed"
  | OPEN => "open"
  | HALF_OPEN => "half_open"
  end.

Record CircuitBreaker := MkCircuitBreaker {
  failure_threshold : Z;
  recovery_timeout : Q;
  failure_count : Z;
  last_failure_time : option Q;
  state : CircuitState
}.

(** [CircuitBreaker.__init__] *)
Definition CircuitBreaker_init (failure_threshold : Z) (recovery_timeout : Q)
  : CircuitBreaker :=
  MkCircuitBreaker failure_threshold recovery_timeout 0 None CLOSED.

(** The breaker a service gets: [CircuitBreaker()] with the defaults. *)
Definition CircuitBreaker_default : CircuitBreaker := CircuitBreaker_init 5 60.

Definition set_state (s : CircuitState) (cb : CircuitBreaker) : CircuitBreaker :=
  MkCircuitBreaker (failure_threshold cb) (recovery_timeout cb)
                   (failure_count cb) (last_failure_time cb) s.

Definition set_failure_count (n : Z) (cb : CircuitBreaker) : CircuitBreaker :=
  MkCircuitBreaker (failure_threshold cb) (recovery_timeout cb)
                   n (last_failure_time cb) (state cb).

Definition set_last_failure_time (t : Q) (cb : CircuitBreaker) : CircuitBreaker :=
  MkCircuitBreaker (failure_threshold cb) (recovery_timeout cb)
                   (failure_count cb) (Some t) (state cb).

Definition unavailable : exn :=
  Exn "Exception" "Circuit breaker is OPEN - service unavailable".

(** A method of the breaker runs on the breaker and the world. *)
Abbreviation MB E := (MS (CircuitBreaker * World E)).

Section Breaker.
Context {E : Type}.

(** Running a computation that does not touch the breaker. *)
Definition on_world {A} (m : M E A) : MB E A :=
  fun s => let (r, w') := m (snd s) in (r, (fst s, w')).

Definition self : MB E CircuitBreaker := fun s => (Ok (fst s), s).

Definition update (f : CircuitBreaker -> CircuitBreaker) : MB E unit :=
  fun s => (Ok tt, (f (fst s), snd s)).

(** [self.last_failure_time and
     time.time() - self.last_failure_time >= self.recovery_timeout],
    as the truth value the caller tests. *)
Definition _should_attempt_reset : MB E bool :=
  let* cb := self in
  match last_failure_time cb with
  | None => ret false
  | Some t =>
      if Qeq_bool t 0 then ret false
      else
        let* now := on_world time_time in
        ret (Qle_bool (recovery_timeout cb) (now - t))
  end.

Definition _on_success : MB E unit :=
  do update (set_failure_count 0) in
  update (set_state CLOSED).

Definition _on_failure : MB E unit :=
  do update (fun cb => set_failure_count (failure_count cb + 1) cb) in
  let* now := on_world time_time in
  do update (set_last_failure_time now) in
  let* cb := self in
  if (failure_threshold cb <=? failure_count cb)%Z
  then update (set_state OPEN)
  else ret tt.

(** [CircuitBreaker.call(func)] *)
Definition call {A} (func : M E A) : MB E A :=
  let* cb := self in
  do (match state cb with
      | OPEN =>
          let* reset := _should_attempt_reset in
          if reset then update (set_state HALF_OPEN)
          else raise unavailable
      | _ => ret tt
      end) in
  try_except
    (let* result := on_world func in
     do _on_success in
     ret result)
    (fun e =>
       do _on_failure in
       raise e).

(** [retry_with_backoff(max_retries, base_delay, backoff_factor)(func)]:
    the loop over [range(max_retries + 1)].  [fname] is
    [func.__name__], used in the log lines only. *)
Fixpoint retry_attempts {A} (fname : string) (func : M E A)
    (max_retries : nat) (base_delay backoff_factor : Q)
    (attempts : list nat) (last_exception : option exn) : M E A :=
  match attempts with
  | [] =>
      match last_exception with
      | Some e => raise e
      | None => raise (Exn "TypeError" "exceptions must derive from BaseException")
      end
  | attempt :: rest =>
      try_except func (fun e =>
        if (attempt =? max_retries)%nat then
          do log ERROR "Function {func.__name__} failed after {max_retries + 1} attempts: {e}"
               [VStr fname; VNum (inject_Z (Z.of_nat max_retries + 1)); VStr (exn_msg e)] in
          raise e
        else
          let delay := (base_delay * backoff_factor ^ Z.of_nat attempt)%Q in
          do log WARNING "Attempt {attempt + 1} failed for {func.__name__}: {e}. Retrying in {delay}s..."
               [VNum (inject_Z (Z.of_nat attempt + 1)); VStr fname; VStr (exn_msg e); VNum delay] in
          do time_sleep delay in
          retry_attempts fname func max_retries base_delay backoff_factor rest (Some e))
  end.

Definition retry_with_backoff {A} (max_retries : nat) (base_delay backoff_factor : Q)
    (fname : string) (func : M E A) : M E A :=
  retry_attempts fname func max_retries base_delay backoff_factor
                 (seq 0 (max_retries + 1)) None.

(** [BaseService._make_request(func)].  [_handle_fallback] is the
    method a subclass overrides; the base class returns [None]. *)
Definition _make_request (service_name : string)
    (_handle_fallback : exn -> M E pyval) (func : M E pyval) : MB E pyval :=
  try_except (call func) (fun e =>
    do on_world (log ERROR "{self.service_name} API call failed: {e}"
                     [VStr service_name; VStr (exn_msg e)]) in
    on_world (_handle_fallback e)).

Definition _handle_fallback (service_name : string) (error : exn) : M E pyval :=
  do log WARNING "{self.service_name} falling back to default behavior due to: {error}"
       [VStr service_name; VStr (exn_msg error)] in
  ret VNone.

(** A call through the breaker that ends in an exception: the breaker
    rejected it, or the wrapped function raised. *)
Definition failing_call (cb cb' : CircuitBreaker) : Prop :=
  exists (A : Type) (func : M E A) (w w' : World E) (e : exn),
    call func (cb, w) = (Raise e, (cb', w')).

(** [n] failing calls in a row; the world may change between them. *)
Inductive failing_calls : nat -> CircuitBreaker -> CircuitBreaker -> Prop :=
| failing_calls_O cb : failing_calls 0 cb cb
| failing_calls_S n cb cb1 cb2 :
    failing_call cb cb1 -> failing_calls n cb1 cb2 -> failing_calls (S n) cb cb2.

End Breaker.

(** The time a retry loop sleeps when [n] attempts in a row fail,
    starting with attempt number [first]: the sum of the delays
    [base_delay * (backoff_factor ** attempt)]. *)
Fixpoint backoff_total (base_delay backoff_factor : Q) (first n : nat) : Q :=
  match n with
  | O => 0
  | S n' =>
      (base_delay * backoff_factor ^ Z.of_nat first
       + backoff_total base_delay backoff_factor (S first) n')%Q
  end.

(** What holds of a breaker between two calls: the counter is not
    negative, the state is not the transient [HALF_OPEN], and the
    breaker is open exactly when the counter has reached the
    threshold. *)
Definition breaker_inv (cb : CircuitBreaker) : Prop :=
  (0 <= failure_count cb)%Z /\
  state cb <> HALF_OPEN /\
  (state cb = OPEN <-> (failure_threshold cb <= failure_count cb)%Z).

(** [BaseService.is_available] *)
Definition is_available (cb : CircuitBreaker) : bool :=
  match state cb with
  | OPEN => false
  | _ => true
  end.

(** [BaseService.get_status] *)
Definition get_status (service_name : string) (cb : CircuitBreaker) : pydict :=
  list_to_map
    [("service", VStr service_name);
     ("state", VStr (CircuitState_value (state cb)));
     ("failure_count", VNum (inject_Z (failure_count cb)));
     ("available", VBool (is_available cb))].

End BaseService.

(** ** tastedive_api.py: the cultural-similarity adapter *)

Module CulturalDiscoveryEngine.

(** [self.korean_cultural_keywords] *)
Definition korean_cultural_keywords : list string :=
  ["korean"; "korea"; "k-pop"; "kpop"; "kdrama"; "seoul"; "busan";
   "korean food"; "korean culture"; "korean music"; "korean film";
   "hallyu"; "korean wave"; "korean traditional"; "korean modern";
   "korean entertainment"; "korean art"; "korean history"].

(** [for k in keywords: if k in text: score += weight(k)] *)
Definition add_hits (weight : string -> Q) (keywords : list string)
    (text : string) (score : Q) : Q :=
  fold_left
    (fun score keyword =>
       if Py.isin keyword text then (score + weight keyword)%Q else score)
    keywords score.

Definition keyword_weight (keyword : string) : Q :=
  if Py.str_elem keyword ["korean"; "korea"] then 4#10
  else if Py.str_elem keyword ["k-pop"; "kpop"; "kdrama"] then 3#10
  else if Py.str_elem keyword ["seoul"; "busan"] then 2#10
  else 1#10.

Definition cultural_indicators : list string :=
  ["traditional"; "modern"; "contemporary"; "authentic"; "cultural";
   "heritage"; "history"; "art"; "music"; "film"; "literature"].

Definition korean_elements : list string :=
  ["hanbok"; "kimchi"; "bulgogi"; "bibimbap"; "taekwondo"; "hallyu";
   "chaebol"; "soju"; "makgeolli"; "temple"; "palace"; "hanok"].

Definition asian_indicators : list string :=
  ["asian"; "asia"; "east asian"; "oriental"; "confucian"; "buddhist"].

Definition _calculate_cultural_relevance_score
    (name description item_type : string) : Q :=
  let score := 0%Q in
  let text_content := Py.lower (name +:+ " " +:+ description) in
  let score := add_hits keyword_weight korean_cultural_keywords text_content score in
  let score := add_hits (fun _ => 5#100) cultural_indicators text_content score in
  let score := add_hits (fun _ => 15#100) korean_elements text_content score in
  let score := add_hits (fun _ => 1#10) asian_indicators text_content score in
  let score :=
    if Qeq_bool score 0 &&
       Py.any_in ["culture"; "traditional"; "modern"; "art"; "music"; "film"] text_content
    then 15#100 else score in
  Py.min score 1.

Definition authentic_elements : list string :=
  ["traditional"; "heritage"; "historical"; "authentic"; "original";
   "classical"; "folk"; "indigenous"; "ancestral"; "ceremonial"].

Definition modern_elements : list string :=
  ["contemporary"; "modern"; "current"; "trendy"; "popular"; "mainstream"].

Definition _calculate_authenticity_score (name description : string) : Q :=
  let score := 5#10 in
  let text_content := Py.lower (name +:+ " " +:+ description) in
  let score := add_hits (fun _ => 1#10) authentic_elements text_content score in
  let score := add_hits (fun _ => 5#100) modern_elements text_content score in
  Py.min score 1.

Section Engine.
Context `{PyRuntime}.

(** [str(raw).lower() if raw else ''] *)
Definition lowered (raw : pyval) : string :=
  if Py.truthy raw then Py.lower (Py.str raw) else EmptyString.

(** [if 'k' in item and 'K' not in item: item['K'] = item['k']] *)
Definition normalize_field (k K : string) (item : pydict) : pydict :=
  match item !! k, item !! K with
  | Some v, None => <[K := v]> item
  | _, _ => item
  end.

(** [name], [description] and [item_type] as the loop of
    [_filter_and_score_korean_relevance] reads them from an item *)
Definition item_name (item : pydict) : string :=
  lowered (Py.get item "Name" (Py.get item "name" (VStr EmptyString))).
Definition item_description (item : pydict) : string :=
  lowered (Py.get item "wTeaser" (Py.get item "description" (VStr EmptyString))).
Definition item_type (item : pydict) : string :=
  lowered (Py.get item "Type" (Py.get item "type" (VStr EmptyString))).

(** [relevance_score] after
    [if query_is_korean and relevance_score < 0.2: relevance_score = 0.2] *)
Definition item_relevance (query_is_korean : bool) (item : pydict) : Q :=
  let relevance_score :=
    _calculate_cultural_relevance_score (item_name item) (item_description item)
                                        (item_type item) in
  if query_is_korean && Py.ltb relevance_score (2#10) then 2#10 else relevance_score.

(** The body of the loop of [_filter_and_score_korean_relevance] for
    an item that is a dict: the scored item, if it is kept. *)
Definition score_item (query_is_korean : bool) (item : pydict) : option pydict :=
  let name := item_name item in
  let description := item_description item in
  let relevance_score := item_relevance query_is_korean item in
  if Py.ltb (1#10) relevance_score then
    let item := <["cultural_relevance" := VNum relevance_score]> item in
    let item :=
      <["authenticity_score" := VNum (_calculate_authenticity_score name description)]> item in
    let item := normalize_field "name" "Name" item in
    let item := normalize_field "description" "wTeaser" item in
    let item := normalize_field "type" "Type" item in
    Some item
  else None.

Fixpoint _filter_and_score_korean_relevance (items : list pyval)
    (query_is_korean : bool) : list pydict :=
  match items with
  | [] => []
  | VDict item :: rest =>
      match score_item query_is_korean item with
      | Some scored => scored :: _filter_and_score_korean_relevance rest query_is_korean
      | None => _filter_and_score_korean_relevance rest query_is_korean
      end
  | _ :: rest => _filter_and_score_korean_relevance rest query_is_korean
  end.

(** A record whose two scores are what the scoring functions give
    on its own name and description. *)
Definition scored_by_shared_function (r : pydict) : Prop :=
  exists c a : Q,
    r !! "cultural_relevance" = Some (VNum c) /\
    (c == _calculate_cultural_relevance_score (item_name r) (item_description r)
                                              (item_type r))%Q /\
    r !! "authenticity_score" = Some (VNum a) /\
    (a == _calculate_authenticity_score (item_name r) (item_description r))%Q.

End Engine.

(** [_initialize_local_knowledge]: the dict literal, in its order. *)
Definition _initialize_local_knowledge : list (string * list pydict) :=
[("movies",
    [list_to_map
       [("Name", VStr "Parasite");
        ("Type", VStr "movie");
        ("wTeaser", VStr "Oscar-winning Korean thriller exploring class dynamics");
        ("cultural_context", VStr "Reflects modern Korean social issues and architecture");
        ("cultural_relevance", VNum (95#100))];
     list_to_map
       [("Name", VStr "Oldboy");
        ("Type", VStr "movie");
        ("wTeaser", VStr "Iconic Korean revenge thriller");
        ("cultural_context", VStr "Showcases Korean cinema's psychological depth");
        ("cultural_relevance", VNum (9#10))];
     list_to_map
       [("Name", VStr "Train to Busan");
        ("Type", VStr "movie");
        ("wTeaser", VStr "Korean zombie film with emotional depth");
        ("cultural_context", VStr "Demonstrates Korean storytelling and family values");
        ("cultural_relevance", VNum (85#100))];
     list_to_map
       [("Name", VStr "Burning");
        ("Type", VStr "movie");
        ("wTeaser", VStr "Psychological drama based on Haruki Murakami");
        ("cultural_context", VStr "Explores modern Korean youth and social tensions");
        ("cultural_relevance", VNum (88#100))]]);
   ("music",
    [list_to_map
       [("Name", VStr "BTS");
        ("Type", VStr "music");
        ("wTeaser", VStr "Global K-pop phenomenon");
        ("cultural_context", VStr "Represents Korean Wave and modern Korean identity");
        ("cultural_relevance", VNum (98#100))];
     list_to_map
       [("Name", VStr "BLACKPINK");
        ("Type", VStr "music");
        ("wTeaser", VStr "International K-pop girl group");
        ("cultural_context", VStr "Modern Korean pop culture and fashion influence");
        ("cultural_relevance", VNum (95#100))];
     list_to_map
       [("Name", VStr "IU");
        ("Type", VStr "music");
        ("wTeaser", VStr "Beloved Korean singer-songwriter");
        ("cultural_context", VStr "Represents Korean indie and mainstream music fusion");
        ("cultural_relevance", VNum (92#100))];
     list_to_map
       [("Name", VStr "Pansori");
        ("Type", VStr "music");
        ("wTeaser", VStr "Traditional Korean musical storytelling");
        ("cultural_context", VStr "UNESCO-recognized Korean traditional performing art");
        ("cultural_relevance", VNum (99#100))]]);
   ("shows",
    [list_to_map
       [("Name", VStr "Squid Game");
        ("Type", VStr "show");
        ("wTeaser", VStr "Global phenomenon Korean survival drama");
        ("cultural_context", VStr "Critiques Korean economic inequality and childhood games");
        ("cultural_relevance", VNum (96#100))];
     list_to_map
       [("Name", VStr "Kingdom");
        ("Type", VStr "show");
        ("wTeaser", VStr "Korean zombie historical drama");
        ("cultural_context", VStr "Blends Korean history with modern storytelling");
        ("cultural_relevance", VNum (9#10))];
     list_to_map
       [("Name", VStr "Crash Landing on You");
        ("Type", VStr "show");
        ("wTeaser", VStr "Korean romantic drama");
        ("cultural_context", VStr "Showcases Korean-North Korean cultural differences");
        ("cultural_relevance", VNum (87#100))];
     list_to_map
       [("Name", VStr "Reply 1988");
        ("Type", VStr "show");
        ("wTeaser", VStr "Nostalgic Korean family drama");
        ("cultural_context", VStr "Depicts 1980s Korean family life and neighborhood culture");
        ("cultural_relevance", VNum (94#100))]]);
   ("books",
    [list_to_map
       [("Name", VStr "Please Look After Mom");
        ("Type", VStr "book");
        ("wTeaser", VStr "Korean literary fiction about family");
        ("cultural_context", VStr "Explores Korean family dynamics and filial piety");
        ("cultural_relevance", VNum (93#100))];
     list_to_map
       [("Name", VStr "The Vegetarian");
        ("Type", VStr "book");
        ("wTeaser", VStr "Korean psychological fiction");
        ("cultural_context", VStr "Examines Korean patriarchal society and women's autonomy");
        ("cultural_relevance", VNum (91#100))];
     list_to_map
       [("Name", VStr "Pachinko");
        ("Type", VStr "book");
        ("wTeaser", VStr "Multi-generational Korean family saga");
        ("cultural_context", VStr "Korean diaspora experience and identity");
        ("cultural_relevance", VNum (89#100))]]);
   ("experiences",
    [list_to_map
       [("Name", VStr "Korean Temple Stay");
        ("Type", VStr "experience");
        ("wTeaser", VStr "Immersive Buddhist cultural experience");
        ("cultural_context", VStr "Traditional Korean Buddhist practices and meditation");
        ("cultural_relevance", VNum (97#100))];
     list_to_map
       [("Name", VStr "Korean Cooking Class");
        ("Type", VStr "experience");
        ("wTeaser", VStr "Learn authentic Korean cuisine");
        ("cultural_context", VStr "Korean food culture and communal dining traditions");
        ("cultural_relevance", VNum (95#100))];
     list_to_map
       [("Name", VStr "Hanbok Experience");
        ("Type", VStr "experience");
        ("wTeaser", VStr "Traditional Korean clothing experience");
        ("cultural_context", VStr "Korean traditional fashion and cultural ceremonies");
        ("cultural_relevance", VNum (93#100))];
     list_to_map
       [("Name", VStr "Korean Tea Ceremony");
        ("Type", VStr "experience");
        ("wTeaser", VStr "Traditional Korean tea culture");
        ("cultural_context", VStr "Korean mindfulness and hospitality traditions");
        ("cultural_relevance", VNum (9#10))]])].

Section Fallback.
Context {E : Type}.

(** [item['source'] = 'local_knowledge';
     item['fallback_reason'] = 'API unavailable'] *)
Definition mark_fallback (item : pydict) : pydict :=
  <["fallback_reason" := VStr "API unavailable"]>
    (<["source" := VStr "local_knowledge"]> item).

(** [_get_fallback_korean_experiences]; [local_cultural_knowledge] is
    the attribute of the engine. *)
Definition _get_fallback_korean_experiences
    (local_cultural_knowledge : list (string * list pydict))
    (query content_type : string) (limit : Z) : M E (list pydict) :=
  do log INFO "Providing fallback Korean experiences for '{query}' ({content_type})"
       [VStr query; VStr content_type] in
  let* fallback_items :=
    match Py.assoc content_type local_cultural_knowledge with
    | Some items => ret (Py.slice_to items limit)
    | None =>
        if String.eqb content_type "all" then
          ret (Py.slice_to
                 (flat_map (fun category => Py.slice_to (snd category) 2)
                           local_cultural_knowledge)
                 limit)
        else
          match Py.assoc "experiences" local_cultural_knowledge with
          | Some items => ret (Py.slice_to items limit)
          | None => raise (Exn "KeyError" "'experiences'")
          end
    end in
  ret (map mark_fallback fallback_items).

End Fallback.

(** [_enhance_query_with_korean_context] *)
Definition _enhance_query_with_korean_context (query : string) : string :=
  let query_lower := Py.lower query in
  let has_korean_context := Py.any_in korean_cultural_keywords query_lower in
  if negb has_korean_context then
    if Py.any_in ["music"; "song"; "artist"; "band"] query_lower then
      query +:+ " korean music"
    else if Py.any_in ["movie"; "film"; "cinema"] query_lower then
      query +:+ " korean film"
    else if Py.any_in ["show"; "drama"; "series"; "tv"] query_lower then
      query +:+ " korean drama"
    else if Py.any_in ["book"; "novel"; "literature"] query_lower then
      query +:+ " korean literature"
    else if Py.any_in ["food"; "cuisine"; "restaurant"; "cooking"] query_lower then
      query +:+ " korean food"
    else query +:+ " korean culture"
  else query.

End CulturalDiscoveryEngine.

(** ** algolia_api.py: the place-search adapter *)

Module SearchService.
Import BaseService.

Definition service_name : string := "SearchService".

(** [self.max_results_per_request] *)
Definition max_results_per_request : Q := 20.

Definition attributesToRetrieve : pyval :=
  VList (map VStr
    ["name"; "category"; "location"; "rating"; "price_level";
     "cultural_context"; "neighborhood"; "description"; "objectID";
     "opening_hours"; "contact"; "cultural_tags"; "amenities"]).

(** [_normalize_place_type] *)
Definition _normalize_place_type (place_type : string) : string :=
  let type_mapping :=
    [("restaurants", "restaurant"); ("food", "restaurant"); ("dining", "restaurant");
     ("attractions", "attraction"); ("sights", "attraction");
     ("sightseeing", "attraction"); ("hotels", "hotel");
     ("accommodation", "hotel"); ("lodging", "hotel");
     ("transport", "transport"); ("transportation", "transport");
     ("transit", "transport")] in
  let normalized := Py.strip (Py.lower place_type) in
  match Py.assoc normalized type_mapping with
  | Some t => t
  | None => normalized
  end.

(** The records of the literal in [_get_fallback_search_results]. *)
Definition fallback_places : list pydict :=
  [list_to_map
       [("id", VStr "fallback_myeongdong_market");
        ("name", VStr "Myeongdong Street Food Market");
        ("category", VStr "restaurant");
        ("location", VDict (list_to_map [("lat", VNum (375636#10000)); ("lng", VNum (1269822#10000))]));
        ("rating", VNum (45#10));
        ("price_level", VNum 2);
        ("cultural_context", VStr "Traditional Korean street food experience with authentic flavors and local atmosphere");
        ("neighborhood", VStr "myeongdong");
        ("description", VStr "Bustling street food market offering authentic Korean snacks and meals");
        ("opening_hours", VList [VStr "10:00-22:00"]);
        ("contact", VDict (list_to_map [("phone", VStr "+82-2-1234-5678")]));
        ("cultural_tags", VList [VStr "street-food"; VStr "traditional"; VStr "authentic"; VStr "korean-food"]);
        ("amenities", VList [VStr "cash-only"; VStr "outdoor-seating"]);
        ("cultural_relevance", VNum 5)];
     list_to_map
       [("id", VStr "fallback_korean_bbq");
        ("name", VStr "Authentic Korean BBQ House");
        ("category", VStr "restaurant");
        ("location", VDict (list_to_map [("lat", VNum (375563#10000)); ("lng", VNum (1269236#10000))]));
        ("rating", VNum (46#10));
        ("price_level", VNum 3);
        ("cultural_context", VStr "Traditional Korean barbecue experience with premium meat and banchan");
        ("neighborhood", VStr "hongdae");
        ("description", VStr "Authentic Korean BBQ restaurant serving galbi, bulgogi, and traditional side dishes");
        ("opening_hours", VList [VStr "17:00-02:00"]);
        ("contact", VDict (list_to_map [("phone", VStr "+82-2-5678-1234")]));
        ("cultural_tags", VList [VStr "bbq"; VStr "korean-food"; VStr "traditional"; VStr "meat"]);
        ("amenities", VList [VStr "group-dining"; VStr "late-night"]);
        ("cultural_relevance", VNum 5)];
     list_to_map
       [("id", VStr "fallback_kimchi_house");
        ("name", VStr "Traditional Kimchi House");
        ("category", VStr "restaurant");
        ("location", VDict (list_to_map [("lat", VNum (375759#10000)); ("lng", VNum (1269852#10000))]));
        ("rating", VNum (44#10));
        ("price_level", VNum 2);
        ("cultural_context", VStr "Family-run restaurant specializing in homemade kimchi and traditional Korean comfort food");
        ("neighborhood", VStr "insadong");
        ("description", VStr "Traditional Korean restaurant famous for homemade kimchi and authentic Korean dishes");
        ("opening_hours", VList [VStr "11:00-21:00"]);
        ("contact", VDict (list_to_map [("phone", VStr "+82-2-9876-5432")]));
        ("cultural_tags", VList [VStr "kimchi"; VStr "korean-food"; VStr "traditional"; VStr "homemade"]);
        ("amenities", VList [VStr "family-friendly"; VStr "traditional-atmosphere"]);
        ("cultural_relevance", VNum 5)];
     list_to_map
       [("id", VStr "fallback_hongdae_playground");
        ("name", VStr "Hongdae Playground");
        ("category", VStr "attraction");
        ("location", VDict (list_to_map [("lat", VNum (375563#10000)); ("lng", VNum (1269236#10000))]));
        ("rating", VNum (43#10));
        ("price_level", VNum 1);
        ("cultural_context", VStr "Youth culture and nightlife hub showcasing modern Korean entertainment");
        ("neighborhood", VStr "hongdae");
        ("description", VStr "Vibrant area known for indie music, street performances, and youth culture");
        ("opening_hours", VList [VStr "24/7"]);
        ("contact", VDict ∅);
        ("cultural_tags", VList [VStr "youth-culture"; VStr "nightlife"; VStr "modern"]);
        ("amenities", VList [VStr "free-wifi"; VStr "street-performances"]);
        ("cultural_relevance", VNum 4)];
     list_to_map
       [("id", VStr "fallback_itaewon_global");
        ("name", VStr "Itaewon Global Village");
        ("category", VStr "attraction");
        ("location", VDict (list_to_map [("lat", VNum (375344#10000)); ("lng", VNum (1269944#10000))]));
        ("rating", VNum (42#10));
        ("price_level", VNum 2);
        ("cultural_context", VStr "International district showcasing Korea's multicultural side");
        ("neighborhood", VStr "itaewon");
        ("description", VStr "Diverse international area with global cuisine and cultural fusion");
        ("opening_hours", VList [VStr "09:00-23:00"]);
        ("contact", VDict (list_to_map [("website", VStr "http://itaewon.or.kr")]));
        ("cultural_tags", VList [VStr "international"; VStr "multicultural"; VStr "fusion"]);
        ("amenities", VList [VStr "english-friendly"; VStr "diverse-cuisine"]);
        ("cultural_relevance", VNum 3)];
     list_to_map
       [("id", VStr "fallback_gangnam_district");
        ("name", VStr "Gangnam Style District");
        ("category", VStr "attraction");
        ("location", VDict (list_to_map [("lat", VNum (375173#10000)); ("lng", VNum (1270473#10000))]));
        ("rating", VNum (41#10));
        ("price_level", VNum 3);
        ("cultural_context", VStr "Modern Korean lifestyle and K-pop culture epicenter");
        ("neighborhood", VStr "gangnam");
        ("description", VStr "Upscale district representing modern Seoul and K-pop culture");
        ("opening_hours", VList [VStr "24/7"]);
        ("contact", VDict ∅);
        ("cultural_tags", VList [VStr "k-pop"; VStr "modern"; VStr "upscale"]);
        ("amenities", VList [VStr "luxury-shopping"; VStr "high-end-dining"]);
        ("cultural_relevance", VNum 4)]].

(** [place[k]] and [place.get('cultural_tags', [])] on the records of the
    literals above, whose text fields are strings and whose tags are
    lists of strings. *)
Definition str_field (place : pydict) (k : string) : string :=
  match place !! k with
  | Some (VStr s) => s
  | _ => EmptyString
  end.

Definition tags_field (place : pydict) : list string :=
  match place !! "cultural_tags" with
  | Some (VList l) =>
      omap (fun v => match v with VStr s => Some s | _ => None end) l
  | _ => []
  end.

Definition searchable_text (place : pydict) : string :=
  Py.lower (str_field place "name") +:+ " " +:+
  Py.lower (str_field place "cultural_context") +:+ " " +:+
  Py.lower (str_field place "description") +:+ " " +:+
  Py.lower (Py.join " " (tags_field place)).

(** The records of the literal in [_get_fallback_neighborhood_results]. *)
Definition neighborhood_data : list (string * list pydict) :=
  [("hongdae",
      [list_to_map
         [("id", VStr "fallback_hongdae_club");
          ("name", VStr "Hongdae Club Street");
          ("category", VStr "attraction");
          ("location", VDict (list_to_map [("lat", VNum (375563#10000)); ("lng", VNum (1269236#10000))]));
          ("rating", VNum (44#10));
          ("cultural_context", VStr "Nightlife and youth culture epicenter with live music venues");
          ("cultural_tags", VList [VStr "nightlife"; VStr "youth-culture"; VStr "music"]);
          ("amenities", VList [VStr "live-music"; VStr "late-night"])];
       list_to_map
         [("id", VStr "fallback_hongik_uni");
          ("name", VStr "Hongik University Area");
          ("category", VStr "attraction");
          ("location", VDict (list_to_map [("lat", VNum (375511#10000)); ("lng", VNum (1269245#10000))]));
          ("rating", VNum (42#10));
          ("cultural_context", VStr "Art and indie culture hub with student atmosphere");
          ("cultural_tags", VList [VStr "art"; VStr "indie"; VStr "student-culture"]);
          ("amenities", VList [VStr "art-galleries"; VStr "indie-shops"])]]);
     ("myeongdong",
      [list_to_map
         [("id", VStr "fallback_myeongdong_cathedral");
          ("name", VStr "Myeongdong Cathedral");
          ("category", VStr "attraction");
          ("location", VDict (list_to_map [("lat", VNum (375633#10000)); ("lng", VNum (1269869#10000))]));
          ("rating", VNum (43#10));
          ("cultural_context", VStr "Historic Catholic cathedral with Korean architectural elements");
          ("cultural_tags", VList [VStr "historic"; VStr "religious"; VStr "architecture"]);
          ("amenities", VList [VStr "guided-tours"; VStr "peaceful-atmosphere"])];
       list_to_map
         [("id", VStr "fallback_myeongdong_shopping");
          ("name", VStr "Myeongdong Shopping Street");
          ("category", VStr "attraction");
          ("location", VDict (list_to_map [("lat", VNum (375636#10000)); ("lng", VNum (1269822#10000))]));
          ("rating", VNum (41#10));
          ("cultural_context", VStr "Major shopping district with Korean cosmetics and fashion");
          ("cultural_tags", VList [VStr "shopping"; VStr "cosmetics"; VStr "fashion"]);
          ("amenities", VList [VStr "duty-free"; VStr "korean-brands"])]]);
     ("itaewon",
      [list_to_map
         [("id", VStr "fallback_itaewon_market");
          ("name", VStr "Itaewon International Market");
          ("category", VStr "restaurant");
          ("location", VDict (list_to_map [("lat", VNum (375344#10000)); ("lng", VNum (1269944#10000))]));
          ("rating", VNum 4);
          ("cultural_context", VStr "Global cuisine hub showcasing international flavors in Korea");
          ("cultural_tags", VList [VStr "international"; VStr "diverse-cuisine"; VStr "multicultural"]);
          ("amenities", VList [VStr "halal-food"; VStr "english-menu"])];
       list_to_map
         [("id", VStr "fallback_war_memorial");
          ("name", VStr "War Memorial Area");
          ("category", VStr "attraction");
          ("location", VDict (list_to_map [("lat", VNum (375347#10000)); ("lng", VNum (1269777#10000))]));
          ("rating", VNum (45#10));
          ("cultural_context", VStr "Historical significance showcasing Korean modern history");
          ("cultural_tags", VList [VStr "historical"; VStr "memorial"; VStr "educational"]);
          ("amenities", VList [VStr "museum"; VStr "educational-tours"])]]);
     ("gangnam",
      [list_to_map
         [("id", VStr "fallback_gangnam_style");
          ("name", VStr "Gangnam Style District");
          ("category", VStr "attraction");
          ("location", VDict (list_to_map [("lat", VNum (375173#10000)); ("lng", VNum (1270473#10000))]));
          ("rating", VNum (42#10));
          ("cultural_context", VStr "Modern Korean lifestyle and K-pop culture representation");
          ("cultural_tags", VList [VStr "k-pop"; VStr "modern"; VStr "lifestyle"]);
          ("amenities", VList [VStr "photo-spots"; VStr "k-pop-stores"])];
       list_to_map
         [("id", VStr "fallback_coex_mall");
          ("name", VStr "COEX Mall");
          ("category", VStr "attraction");
          ("location", VDict (list_to_map [("lat", VNum (375115#10000)); ("lng", VNum (127059#1000))]));
          ("rating", VNum (43#10));
          ("cultural_context", VStr "Shopping and entertainment complex representing modern Seoul");
          ("cultural_tags", VList [VStr "shopping"; VStr "entertainment"; VStr "modern"]);
          ("amenities", VList [VStr "underground-mall"; VStr "aquarium"])]])].

Definition valid_neighborhoods : list string :=
  ["hongdae"; "myeongdong"; "itaewon"; "gangnam"; "jongno"; "insadong"].

(** The request of [search_places]: the dict built before the call, and
    whether the warning about the bounds is logged. *)
Definition outside_korea_bounds (lat lng : Q) : bool :=
  negb (Py.leb 33 lat && Py.leb lat 39 && Py.leb 124 lng && Py.leb lng 132).

Section Service.
Context `{PyRuntime} {E : Type}.

(** [_enrich_search_results], the normalisation of the hits of a live
    answer.  [__init__] leaves [self.client = None] on every path, so
    [_api_request] raises at its guard and no live answer exists; the
    normalisation is kept as a parameter and every result below holds
    for all its behaviours. *)
Variable _enrich_search_results : pyval -> M E (list pyval).

(** [_get_fallback_search_results] *)
Definition _get_fallback_search_results (query : string)
    (place_type : option string) : M E (list pydict) :=
  do log INFO "Providing fallback search results for '{query}' ({place_type})"
       [VStr query; from_option VStr VNone place_type] in
  let fallback_places :=
    match place_type with
    | Some t =>
        if Py.truthy (VStr t) then
          let normalized_type := _normalize_place_type t in
          filter (fun p => str_field p "category" = normalized_type) fallback_places
        else fallback_places
    | None => fallback_places
    end in
  let fallback_places :=
    if Py.truthy (VStr query) then
      let query_lower := Py.lower query in
      let query_terms := Py.split query_lower in
      filter (fun place => Py.any_in query_terms (searchable_text place) = true)
             fallback_places
    else fallback_places in
  ret fallback_places.

(** [_get_fallback_neighborhood_results]; the call of
    [_ensure_result_completeness] in its loop rebinds the loop
    variable only and is left out. *)
Definition _get_fallback_neighborhood_results (neighborhood : string)
    (place_type : option string) : M E (list pydict) :=
  let places :=
    match Py.assoc (Py.lower neighborhood) neighborhood_data with
    | Some l => l
    | None => []
    end in
  let places :=
    match place_type with
    | Some t =>
        if Py.truthy (VStr t) then
          let normalized_type := _normalize_place_type t in
          filter (fun p => str_field p "category" = normalized_type) places
        else places
    | None => places
    end in
  ret places.

(** [_handle_fallback] *)
Definition _handle_fallback (error : exn) : M E pyval :=
  do log WARNING "Algolia API unavailable, using local search fallback: {error}"
       [VStr (exn_msg error)] in
  let* places := _get_fallback_search_results "korean places" None in
  ret (VList (map VDict places)).

(** [_api_request]: the decorated method of a service whose client is
    [None]. *)
Definition _api_request (search_params : pydict) : M E pyval :=
  retry_with_backoff 2 (1#10) 2 "_api_request"
    (raise (Exn "ValueError" "Algolia client not available - using fallback")).

(** The dict [search_params] of [search_places]. *)
Definition search_params_of (query : string) (location : option (Q * Q))
    (place_type : option string) (radius : Q) : pydict :=
  let search_params : pydict :=
    list_to_map
      [("query", VStr query);
       ("hitsPerPage", VNum max_results_per_request);
       ("attributesToRetrieve", attributesToRetrieve);
       ("getRankingInfo", VBool true)] in
  let search_params :=
    match location with
    | Some (lat, lng) =>
        <["aroundPrecision" := VNum 100]>
          (<["aroundRadius" := VNum radius]>
             (<["aroundLatLng" := VStr (Py.str (VNum lat) +:+ "," +:+ Py.str (VNum lng))]>
                search_params))
    | None => search_params
    end in
  match place_type with
  | Some t =>
      if Py.truthy (VStr t) then
        <["filters" := VStr ("category:" +:+ _normalize_place_type t)]> search_params
      else search_params
  | None => search_params
  end.

(** What [search_places] and [search_by_neighborhood] do with the
    answer of [_make_request]. *)
Definition answer_of (data : pyval) (fallback : M E (list pydict))
    (done_template : string) (done_args : Q -> list pyval) (start_time : Q)
  : M E (list pyval) :=
  if negb (Py.truthy data) then
    let* places := fallback in ret (map VDict places)
  else
    match data with
    | VList l => ret l
    | VDict d =>
        let hits := Py.get d "hits" (VList []) in
        let* enriched_results := _enrich_search_results hits in
        let* now := time_time in
        do log INFO done_template (done_args ((now - start_time) * 1000)%Q) in
        ret enriched_results
    | _ => raise (Exn "AttributeError" "object has no attribute 'get'")
    end.

(** [search_places(query, location, place_type, radius)] *)
Definition search_places (query : string) (location : option (Q * Q))
    (place_type : option string) (radius : Q) : MB E (list pyval) :=
  do match location with
     | Some (lat, lng) =>
         if outside_korea_bounds lat lng then
           on_world (log WARNING "Location coordinates outside Korea bounds: {lat}, {lng}"
                         [VNum lat; VNum lng])
         else ret tt
     | None => ret tt
     end in
  let search_params := search_params_of query location place_type radius in
  try_except
    (let* start_time := on_world time_time in
     let* data := _make_request service_name _handle_fallback (_api_request search_params) in
     on_world
       (answer_of data (_get_fallback_search_results query place_type)
          "Search completed in {total_time:.1f}ms for query: '{query}'"
          (fun total_time => [VNum total_time; VStr query]) start_time))
    (fun e =>
       do on_world (log ERROR "Error searching places for '{query}': {e}"
                        [VStr query; VStr (exn_msg e)]) in
       let* places := on_world (_get_fallback_search_results query place_type) in
       ret (map VDict places)).

(** [search_by_neighborhood(neighborhood, place_type)] *)
Definition search_by_neighborhood (neighborhood : string)
    (place_type : option string) : MB E (list pyval) :=
  let normalized_neighborhood := Py.strip (Py.lower neighborhood) in
  let* normalized_neighborhood :=
    if Py.str_elem normalized_neighborhood valid_neighborhoods
    then ret normalized_neighborhood
    else
      do on_world (log WARNING "Unknown neighborhood: {neighborhood}" [VStr neighborhood]) in
      ret (match
             find (fun valid_name =>
                     Py.isin valid_name normalized_neighborhood ||
                     Py.isin normalized_neighborhood valid_name)
                  valid_neighborhoods
           with
           | Some valid_name => valid_name
           | None => normalized_neighborhood
           end) in
  let search_params : pydict :=
    list_to_map
      [("query", VStr EmptyString);
       ("filters", VStr ("neighborhood:" +:+ normalized_neighborhood));
       ("hitsPerPage", VNum 15);
       ("attributesToRetrieve", attributesToRetrieve)] in
  let search_params :=
    match place_type with
    | Some t =>
        if Py.truthy (VStr t) then
          <["filters" := VStr ("neighborhood:" +:+ normalized_neighborhood +:+
                               " AND category:" +:+ _normalize_place_type t)]>
            search_params
        else search_params
    | None => search_params
    end in
  try_except
    (let* start_time := on_world time_time in
     let* data := _make_request service_name _handle_fallback (_api_request search_params) in
     on_world
       (answer_of data (_get_fallback_neighborhood_results neighborhood place_type)
          "Neighborhood search completed in {total_time:.1f}ms"
          (fun total_time => [VNum total_time]) start_time))
    (fun e =>
       do on_world (log ERROR "Error searching {neighborhood} for {place_type}: {e}"
                        [VStr neighborhood; from_option VStr VNone place_type;
                         VStr (exn_msg e)]) in
       let* places :=
         on_world (_get_fallback_neighborhood_results neighborhood place_type) in
       ret (map VDict places)).

End Service.

(** The places [_handle_fallback] answers with, whatever the error:
    [self._get_fallback_search_results("korean places", None)]. *)
Definition handled_fallback_places : list pydict :=
  match _get_fallback_search_results (E := unit) "korean places" None (MkWorld 0 [] tt) with
  | (Ok places, _) => places
  | (Raise _, _) => []
  end.

Section Amenities.
Context `{PyRuntime} `{PyOps.PyFloat} {E : Type}.
Variable _enrich_search_results : pyval -> M E (list pyval).

(** [{'lat': 37.5665, 'lng': 126.9780}], the centre of Seoul *)
Definition seoul_center : pyval :=
  VDict (list_to_map [("lat", VNum (375665#10000)); ("lng", VNum (1269780#10000))]).

(** The dict literal that [_ensure_result_completeness] starts from,
    as the list of its items. *)
Definition complete_place_items (place : pydict) : list (string * pyval) :=
  [("id", Py.get place "id" (Py.get place "objectID" (VStr "unknown")));
   ("name", Py.get place "name" (VStr "Unknown Place"));
   ("category", Py.get place "category" (VStr "place"));
   ("location",
    Py.get place "location" (VDict (list_to_map [("lat", VNum 0); ("lng", VNum 0)])));
   ("rating", Py.get place "rating" (VNum 0));
   ("price_level", Py.get place "price_level" (VNum 1));
   ("cultural_context",
    Py.get place "cultural_context" (VStr "Korean cultural experience"));
   ("neighborhood", Py.get place "neighborhood" (VStr EmptyString));
   ("description", Py.get place "description" (VStr EmptyString));
   ("opening_hours", Py.get place "opening_hours" (VList []));
   ("contact", Py.get place "contact" (VDict ∅));
   ("cultural_tags", Py.get place "cultural_tags" (VList []));
   ("amenities", Py.get place "amenities" (VList []));
   ("search_score", Py.get place "search_score" (VNum 0));
   ("cultural_relevance", Py.get place "cultural_relevance" (VNum 0))].

(** [_ensure_result_completeness] *)
Definition _ensure_result_completeness (place : pydict) : pydict :=
  let complete_place : pydict := list_to_map (complete_place_items place) in
  let location := Py.get complete_place "location" VNone in
  let complete_place :=
    match location with
    | VDict d =>
        match d !! "lat", d !! "lng" with
        | Some _, Some _ => complete_place
        | _, _ => <["location" := seoul_center]> complete_place
        end
    | _ => <["location" := seoul_center]> complete_place
    end in
  let rating :=
    match PyOps.float_of (Py.get complete_place "rating" VNone) with
    | Ok rating => rating
    | Raise _ => 0%Q
    end in
  <["rating" := VNum rating]> complete_place.

(** [self._ensure_result_completeness(place)] on an element of the
    list of places. *)
Definition complete_result (place : pyval) : result pydict :=
  match place with
  | VDict d => Ok (_ensure_result_completeness d)
  | _ => Raise (PyOps.AttributeError "get")
  end.

(** The loop of [get_nearby_amenities] *)
Fixpoint amenities_loop (amenity_types : list string) (location : Q * Q)
    (radius : Q) (nearby_amenities : pydict) : MB E pydict :=
  match amenity_types with
  | [] => ret nearby_amenities
  | amenity_type :: rest =>
      let* places :=
        search_places _enrich_search_results EmptyString (Some location)
                      (Some amenity_type) radius in
      let* filtered_places :=
        lift_result (PyOps.mapr complete_result (Py.slice_to places 5)) in
      amenities_loop rest location radius
        (<[amenity_type := VList (map VDict filtered_places)]> nearby_amenities)
  end.

(** [get_nearby_amenities(location, radius)] *)
Definition get_nearby_amenities (location : Q * Q) (radius : Q) : MB E pydict :=
  let amenity_types := ["restaurant"; "hotel"; "transport"; "attraction"] in
  let* start_time := on_world time_time in
  let* nearby_amenities := amenities_loop amenity_types location radius ∅ in
  let* now := on_world time_time in
  do on_world (log INFO "Nearby amenities search completed in {total_time:.1f}ms"
                   [VNum ((now - start_time) * 1000)%Q]) in
  ret nearby_amenities.

End Amenities.

End SearchService.

(** ** local_guide_system.py: the orchestrator *)

Module LocalGuideSystem.
Import PyOps.

(** *** The services the orchestrator coordinates

    The orchestrator reaches its collaborators through their public
    methods only.  They are kept as interfaces: a method is any
    computation on the world, raising or not, so that what is proved of
    the orchestrator holds whatever the providers do. *)

Record GeminiService (E : Type) := {
  gs_is_available : World E -> bool;
  extract_entity_with_context : string -> M E pyval;
  generate_local_guide_response : string -> list pydict -> string -> M E pyval
}.
Arguments gs_is_available {E}.
Arguments extract_entity_with_context {E}.
Arguments generate_local_guide_response {E}.

Record ResponseGenerator (E : Type) := {
  rg_is_available : World E -> bool;
  rg_gemini_service : GeminiService E;
  generate_response : string -> list pydict -> string -> pydict -> M E pyval
}.
Arguments rg_is_available {E}.
Arguments rg_gemini_service {E}.
Arguments generate_response {E}.

Record CulturalDiscoveryEngine (E : Type) := {
  ce_is_available : World E -> bool;
  find_similar_korean_experiences : string -> string -> Z -> M E (list pyval)
}.
Arguments ce_is_available {E}.
Arguments find_similar_korean_experiences {E}.

Record SearchService (E : Type) := {
  ss_is_available : World E -> bool;
  search_places : string -> option (Q * Q) -> option string -> M E (list pyval);
  search_by_neighborhood : pyval -> option string -> M E (list pyval)
}.
Arguments ss_is_available {E}.
Arguments search_places {E}.
Arguments search_by_neighborhood {E}.

(** The attributes of a [LocalGuideSystem]; an attribute that is
    [None] is falsy in the guards [if self.x and ...]. *)
Record Services (E : Type) := {
  cultural_engine : option (CulturalDiscoveryEngine E);
  search_service : option (SearchService E);
  response_generator : option (ResponseGenerator E);
  gemini_service : option (GeminiService E)
}.
Arguments cultural_engine {E}.
Arguments search_service {E}.
Arguments response_generator {E}.
Arguments gemini_service {E}.

(** *** Tables *)

(** [self.authenticity_weights] *)
Definition authenticity_weights : list (string * Q) :=
  [("traditional", 1%Q); ("local", 9#10); ("cultural", 8#10); ("authentic", 8#10);
   ("heritage", 7#10); ("modern_korean", 6#10); ("tourist", 2#10); ("generic", 1#10)].

(** [self.korean_cultural_context['cultural_norms']] and
    [['food_culture']], the entries the orchestrator reads *)
Definition cultural_norms_tipping : string := "Tipping is not customary in South Korea".
Definition cultural_norms_punctuality : string :=
  "People value punctuality and personal space".
Definition food_culture_banchan : string :=
  "Korean meals often include shared side dishes (banchan)".
Definition food_culture_street_food_timing : string :=
  "Street food is best explored after sunset".

(** [_initialize_neighborhood_insights]: the dict literal, in its order *)
Definition neighborhood_insights : list (string * pydict) :=
  [("hongdae",
    list_to_map
      [("character", VStr "Youth culture, street food, nightlife");
       ("best_for", VList [VStr "nightlife"; VStr "indie music"; VStr "street performances"; VStr "young crowd"]);
       ("cultural_significance", VStr "University area representing Korean youth culture");
       ("authentic_experiences", VList [VStr "Live music venues"; VStr "Street food after 9 PM"; VStr "Indie shops"]);
       ("avoid_tourist_traps", VList [VStr "Overpriced themed cafes"; VStr "Chain restaurants in main area"])]);
   ("myeongdong",
    list_to_map
      [("character", VStr "Shopping and tourist street food");
       ("best_for", VList [VStr "shopping"; VStr "cosmetics"; VStr "street food"; VStr "first-time visitors"]);
       ("cultural_significance", VStr "Major commercial district showcasing Korean consumer culture");
       ("authentic_experiences", VList [VStr "Korean cosmetics shopping"; VStr "Street food stalls"; VStr "Department stores"]);
       ("avoid_tourist_traps", VList [VStr "Overpriced restaurants targeting tourists"; VStr "Generic souvenir shops"])]);
   ("itaewon",
    list_to_map
      [("character", VStr "International food and nightlife");
       ("best_for", VList [VStr "international cuisine"; VStr "nightlife"; VStr "multicultural experience"]);
       ("cultural_significance", VStr "International district showing Korea's global connections");
       ("authentic_experiences", VList [VStr "Halal Korean fusion"; VStr "International bars"; VStr "Multicultural events"]);
       ("avoid_tourist_traps", VList [VStr "Generic Western food"; VStr "Overpriced foreigner-targeted venues"])]);
   ("gangnam",
    list_to_map
      [("character", VStr "CafÃ©s, fine dining, upscale shopping");
       ("best_for", VList [VStr "luxury shopping"; VStr "high-end dining"; VStr "modern Korean lifestyle"]);
       ("cultural_significance", VStr "Represents modern Korean affluence and K-pop culture");
       ("authentic_experiences", VList [VStr "High-end Korean BBQ"; VStr "Designer shopping"; VStr "Trendy cafes"]);
       ("avoid_tourist_traps", VList [VStr "K-pop tourist shops"; VStr "Overpriced themed restaurants"])]);
   ("jongno",
    list_to_map
      [("character", VStr "Historic district with traditional culture");
       ("best_for", VList [VStr "history"; VStr "traditional culture"; VStr "palaces"; VStr "temples"]);
       ("cultural_significance", VStr "Historic heart of Seoul with traditional Korean culture");
       ("authentic_experiences", VList [VStr "Palace visits"; VStr "Traditional tea houses"; VStr "Hanbok rental"]);
       ("avoid_tourist_traps", VList [VStr "Tourist-focused traditional restaurants"; VStr "Overpriced hanbok rentals"])]);
   ("insadong",
    list_to_map
      [("character", VStr "Traditional arts and crafts with tea culture");
       ("best_for", VList [VStr "traditional arts"; VStr "crafts shopping"; VStr "tea culture"; VStr "cultural experiences"]);
       ("cultural_significance", VStr "Traditional arts district preserving Korean cultural heritage");
       ("authentic_experiences", VList [VStr "Traditional tea ceremonies"; VStr "Artisan workshops"; VStr "Antique shopping"]);
       ("avoid_tourist_traps", VList [VStr ("Mass-produced " +:+ Py.dq +:+ "traditional" +:+ Py.dq +:+ " items"); VStr "Tourist-focused tea houses"])])].

Definition theme_keywords : list (string * list string) :=
  [("food_culture", ["food"; "eat"; "restaurant"; "cuisine"; "dining"; "korean food"; "bbq"; "kimchi"]);
   ("traditional_culture", ["traditional"; "temple"; "palace"; "hanbok"; "heritage"; "history"]);
   ("modern_culture", ["k-pop"; "kpop"; "modern"; "trendy"; "fashion"; "technology"]);
   ("nightlife", ["nightlife"; "bar"; "club"; "night"; "party"; "drink"]);
   ("shopping", ["shopping"; "buy"; "store"; "market"; "cosmetics"; "fashion"]);
   ("nature", ["park"; "nature"; "hiking"; "mountain"; "river"; "outdoor"]);
   ("entertainment", ["music"; "movie"; "show"; "performance"; "concert"; "theater"])].

Definition neighborhood_aliases : list (string * string) :=
  [("hongik", "hongdae"); ("university", "hongdae"); ("shopping", "myeongdong");
   ("international", "itaewon"); ("foreigner", "itaewon"); ("rich", "gangnam");
   ("luxury", "gangnam"); ("palace", "jongno"); ("traditional", "insadong");
   ("art", "insadong")].

Definition restriction_keywords : list (string * list string) :=
  [("vegetarian", ["meat"; "beef"; "pork"; "chicken"; "fish"; "seafood"; "bbq"]);
   ("vegan", ["meat"; "beef"; "pork"; "chicken"; "fish"; "seafood"; "dairy"; "egg"; "bbq"]);
   ("no_spicy", ["spicy"; "hot"; "chili"; "gochujang"; "kimchi"]);
   ("halal", ["pork"; "alcohol"; "wine"; "beer"]);
   ("gluten_free", ["wheat"; "noodle"; "bread"; "flour"])].

(** The literal of [_handle_recommendation_fallback] *)
Definition fallback_recommendations : list pydict :=
  [list_to_map
       [("Name", VStr "Gyeongbokgung Palace");
        ("Type", VStr "attraction");
        ("cultural_context", VStr "Historic royal palace showcasing traditional Korean architecture");
        ("neighborhood", VStr "jongno");
        ("authenticity_score", VNum (9#10));
        ("source", VStr "fallback")];
     list_to_map
       [("Name", VStr "Hongdae Street Food");
        ("Type", VStr "food");
        ("cultural_context", VStr "Authentic Korean street food experience in youth culture district");
        ("neighborhood", VStr "hongdae");
        ("authenticity_score", VNum (8#10));
        ("source", VStr "fallback")];
     list_to_map
       [("Name", VStr "Insadong Traditional Tea House");
        ("Type", VStr "experience");
        ("cultural_context", VStr "Traditional Korean tea ceremony and cultural experience");
        ("neighborhood", VStr "insadong");
        ("authenticity_score", VNum (9#10));
        ("source", VStr "fallback")]].

(** *** Intent analysis *)

(** [_detect_cultural_themes] *)
Definition _detect_cultural_themes (query : string) : list string :=
  let query_lower := Py.lower query in
  let themes :=
    omap (fun entry =>
            if Py.any_in (snd entry) query_lower then Some (fst entry) else None)
         theme_keywords in
  match themes with
  | [] => ["general_culture"]
  | _ => themes
  end.

(** [_detect_neighborhood_focus] *)
Definition _detect_neighborhood_focus (query : string) : option string :=
  let query_lower := Py.lower query in
  match find (fun neighborhood => Py.isin neighborhood query_lower)
             (map fst neighborhood_insights) with
  | Some neighborhood => Some neighborhood
  | None =>
      match find (fun entry => Py.isin (fst entry) query_lower) neighborhood_aliases with
      | Some entry => Some (snd entry)
      | None => None
      end
  end.

(** [word.isalpha()], on ASCII letters *)
Fixpoint all_alpha (s : string) : bool :=
  match s with
  | EmptyString => true
  | String c s' => Py.is_alpha_ascii c && all_alpha s'
  end.
Definition isalpha (s : string) : bool :=
  match s with
  | EmptyString => false
  | _ => all_alpha s
  end.

(** [_fallback_intent_analysis] *)
Definition _fallback_intent_analysis (user_query : string) : pydict :=
  let query_lower := Py.lower user_query in
  let entity :=
    match find (fun word => (3 <? String.length word)%nat && isalpha word)
               (Py.split user_query) with
    | Some word => word
    | None => "korean culture"
    end in
  let intent_type :=
    if Py.any_in ["eat"; "food"; "restaurant"; "dining"] query_lower then "restaurant"
    else if Py.any_in ["visit"; "see"; "attraction"; "place"] query_lower then "attraction"
    else if Py.any_in ["music"; "movie"; "show"; "entertainment"] query_lower
         then "entertainment"
    else "place" in
  list_to_map
    [("entity", VStr entity);
     ("type", VStr intent_type);
     ("intent", VStr "seeking recommendations");
     ("korean_related", VBool true);
     ("cultural_themes", VList (map VStr (_detect_cultural_themes user_query)));
     ("neighborhood_focus", from_option VStr VNone (_detect_neighborhood_focus user_query))].

(** [intent_data['cultural_themes'] = ...;
     intent_data['neighborhood_focus'] = ...] on what the provider
    returned *)
Definition enhance_intent (intent_data : pyval) (user_query : string) : result pydict :=
  match intent_data with
  | VDict d =>
      Ok (<["neighborhood_focus" :=
              from_option VStr VNone (_detect_neighborhood_focus user_query)]>
            (<["cultural_themes" :=
                 VList (map VStr (_detect_cultural_themes user_query))]> d))
  | _ => Raise (TypeError "object does not support item assignment")
  end.

(** [_get_personalization_context] *)
Definition _get_personalization_context (user_profile : option pydict) : result pydict :=
  match user_profile with
  | None => Ok ∅
  | Some profile =>
      if negb (Py.truthy (VDict profile)) then Ok ∅
      else
        let section (name : string) := Py.get profile name (VDict ∅) in
        let names (v : pyval) :=
          bindr (iter v) (mapr (fun place => getitem place "name")) in
        bindr (method_get (section "preferences") "interests" (VList [])) (fun interests =>
        bindr (method_get (section "preferences") "food_restrictions" (VList []))
          (fun food_restrictions =>
        bindr (method_get (section "preferences") "cultural_preferences" (VList []))
          (fun cultural_preferences =>
        bindr (method_get (section "preferences") "budget_range" (VStr "mid-range"))
          (fun budget_range =>
        bindr (method_get (section "preferences") "travel_style" (VStr "solo"))
          (fun travel_style =>
        bindr (bindr (method_get (section "history") "visited_places" (VList [])) names)
          (fun visited_places =>
        bindr (bindr (method_get (section "history") "favorites" (VList [])) names)
          (fun favorite_places =>
        bindr (method_get (section "personalization") "preferred_neighborhoods" (VList []))
          (fun preferred_neighborhoods =>
        Ok (list_to_map
              [("interests", interests);
               ("food_restrictions", food_restrictions);
               ("cultural_preferences", cultural_preferences);
               ("budget_range", budget_range);
               ("travel_style", travel_style);
               ("visited_places", VList visited_places);
               ("favorite_places", VList favorite_places);
               ("preferred_neighborhoods", preferred_neighborhoods)])))))))))
  end.

Section Scoring.
Context `{PyRuntime}.

(** [' '.join(str(tag) for tag in cultural_tags if tag is not None)],
    after [if not isinstance(cultural_tags, list): cultural_tags = []] *)
Definition cultural_tags_str (recommendation : pydict) : string :=
  let cultural_tags :=
    match Py.get recommendation "cultural_tags" (VList []) with
    | VList l => l
    | _ => []
    end in
  Py.join " "
    (omap (fun tag => match tag with VNone => None | _ => Some (Py.str tag) end)
          cultural_tags).

(** [str(rec.get(k, '')) if rec.get(k) is not None else ''] *)
Definition text_field (recommendation : pydict) (k : string) : string :=
  Py.text (Py.get recommendation k VNone).

(** [rec_text] of [_violates_food_restrictions] and of
    [_calculate_personalization_score], before [.lower()] *)
Definition combined_text (recommendation : pydict) : string :=
  text_field recommendation "Name" +:+ " " +:+
  text_field recommendation "wTeaser" +:+ " " +:+
  text_field recommendation "description" +:+ " " +:+
  cultural_tags_str recommendation.

(** [_violates_food_restrictions] *)
Fixpoint violates_any (rec_text : string) (restrictions : list pyval) : result bool :=
  match restrictions with
  | [] => Ok false
  | restriction :: rest =>
      bindr (method_lower restriction) (fun r =>
        match Py.assoc r restriction_keywords with
        | Some keywords =>
            if Py.any_in keywords rec_text then Ok true
            else violates_any rec_text rest
        | None => violates_any rec_text rest
        end)
  end.

Definition _violates_food_restrictions (recommendation : pydict)
    (restrictions : pyval) : result bool :=
  if negb (Py.truthy restrictions) then Ok false
  else
    let rec_text := Py.lower (combined_text recommendation) in
    bindr (iter restrictions) (violates_any rec_text).

(** [for x in xs: if x.lower() in rec_text: score += w] *)
Fixpoint add_matches (w : Q) (rec_text : string) (xs : list pyval) (score : Q)
  : result Q :=
  match xs with
  | [] => Ok score
  | x :: rest =>
      bindr (method_lower x) (fun x_lower =>
        add_matches w rec_text rest
          (if Py.isin x_lower rec_text then (score + w)%Q else score))
  end.

(** [_calculate_personalization_score] *)
Definition _calculate_personalization_score (recommendation : pydict)
    (user_interests cultural_preferences : list pyval) : result Q :=
  let score := 0%Q in
  let rec_text := Py.lower (combined_text recommendation) in
  bindr (add_matches (3#10) rec_text user_interests score) (fun score =>
  bindr (add_matches (2#10) rec_text cultural_preferences score) (fun score =>
  bindr (as_num (Py.get recommendation "cultural_relevance" (VNum 0)))
    (fun cultural_relevance =>
  Ok (score + cultural_relevance * (1#10))%Q))).

(** [rec.get('category') == 'restaurant' or
     'restaurant' in rec.get('Type', '').lower()] *)
Definition is_restaurant (rec : pydict) : result bool :=
  if Py.eq_str (Py.get rec "category" VNone) "restaurant" then Ok true
  else
    bindr (method_lower (Py.get rec "Type" (VStr EmptyString))) (fun t =>
      Ok (Py.isin "restaurant" t)).

(** The loop of [_apply_personalization_filtering] *)
Fixpoint filter_loop (recommendations : list pydict)
    (user_interests visited_places : list pyval) (food_restrictions : pyval)
    (cultural_preferences : list pyval) : result (list pydict) :=
  match recommendations with
  | [] => Ok []
  | rec :: rest =>
      let continue :=
        filter_loop rest user_interests visited_places food_restrictions
                    cultural_preferences in
      let rec_name := Py.get rec "Name" (Py.get rec "name" (VStr EmptyString)) in
      bindr (in_set rec_name visited_places) (fun visited =>
        if visited then continue
        else
          bindr (is_restaurant rec) (fun restaurant =>
          bindr (if restaurant
                 then _violates_food_restrictions rec food_restrictions
                 else Ok false) (fun violates =>
            if violates then continue
            else
              bindr (_calculate_personalization_score rec user_interests
                                                      cultural_preferences)
                (fun score =>
              bindr continue (fun filtered =>
                Ok (<["personalization_score" := VNum score]> rec :: filtered))))))
  end.

(** [x.get('personalization_score', 0)] on a filtered record *)
Definition personalization_key (x : pydict) : pyval :=
  Py.get x "personalization_score" (VNum 0).

(** [_apply_personalization_filtering] *)
Definition _apply_personalization_filtering (recommendations : list pydict)
    (personalization_context : pydict) : result (list pydict) :=
  bindr (set_of (Py.get personalization_context "interests" (VList [])))
    (fun user_interests =>
  bindr (set_of (Py.get personalization_context "visited_places" (VList [])))
    (fun visited_places =>
  let food_restrictions :=
    Py.get personalization_context "food_restrictions" (VList []) in
  bindr (set_of (Py.get personalization_context "cultural_preferences" (VList [])))
    (fun cultural_preferences =>
  bindr (filter_loop recommendations user_interests visited_places
                     food_restrictions cultural_preferences)
    (fun filtered_recommendations =>
  Ok (Py.sort_desc
        (fun x y => Py.lt_val (personalization_key x) (personalization_key y))
        filtered_recommendations))))).

(** [_calculate_authenticity_score] *)
Definition _calculate_authenticity_score (recommendation : pydict) : result Q :=
  let score := (5#10)%Q in
  let rec_text :=
    Py.lower (text_field recommendation "Name" +:+ " " +:+
              text_field recommendation "wTeaser" +:+ " " +:+
              text_field recommendation "description" +:+ " " +:+
              text_field recommendation "cultural_context" +:+ " " +:+
              cultural_tags_str recommendation) in
  let score :=
    fold_left
      (fun score entry =>
         if Py.isin (fst entry) rec_text then (score + snd entry * (1#10))%Q else score)
      authenticity_weights score in
  let score :=
    if Py.eq_str (Py.get recommendation "source" VNone) "local_knowledge"
    then (score + (2#10))%Q else score in
  bindr (in_keys (Py.get recommendation "neighborhood" VNone) neighborhood_insights)
    (fun known =>
  let score := if known then (score + (1#10))%Q else score in
  Ok (Py.min score 1)).

(** The loop of [_prioritize_authentic_experiences]:
    [rec['authenticity_score'] = self._calculate_authenticity_score(rec)] *)
Definition assign_authenticity (rec : pydict) : result pydict :=
  bindr (_calculate_authenticity_score rec) (fun authenticity_score =>
    Ok (<["authenticity_score" := VNum authenticity_score]> rec)).

(** The key of the sort:
    [(x.get('authenticity_score', 0), x.get('cultural_relevance', 0))] *)
Definition authenticity_key (x : pydict) : pyval * pyval :=
  (Py.get x "authenticity_score" (VNum 0), Py.get x "cultural_relevance" (VNum 0)).

(** Order of two keys, as tuples: by the first component where they
    differ. *)
Definition key_lt (a b : pyval * pyval) : bool :=
  if Py.scalar_eqb (fst a) (fst b) then
    if Py.scalar_eqb (snd a) (snd b) then false else Py.lt_val (snd a) (snd b)
  else Py.lt_val (fst a) (fst b).

Definition key_comparable (a b : pyval * pyval) : bool :=
  Py.comparable (fst a) (fst b) && Py.comparable (snd a) (snd b).

(** [_prioritize_authentic_experiences].  The sort raises [TypeError]
    when it meets two keys it cannot order; it is embedded for lists
    whose keys can all be ordered, and raises otherwise. *)
Definition _prioritize_authentic_experiences (recommendations : list pydict)
  : result (list pydict) :=
  bindr (mapr assign_authenticity recommendations) (fun recommendations =>
    if Py.pairwise key_comparable (map authenticity_key recommendations) then
      Ok (Py.sort_desc
            (fun x y => key_lt (authenticity_key x) (authenticity_key y))
            recommendations)
    else Raise (TypeError "'<' not supported between instances")).

(** [str(neighborhood).lower()] after [None] became [''] *)
Definition neighborhood_of (rec : pydict) : string :=
  Py.lower (Py.text (Py.get rec "neighborhood" (VStr EmptyString))).

(** The body of the loop of [_add_neighborhood_insights] *)
Definition add_insights (rec : pydict) : pydict :=
  let neighborhood := neighborhood_of rec in
  match Py.assoc neighborhood neighborhood_insights with
  | None => rec
  | Some insights =>
      let existing_context := Py.text (Py.get rec "cultural_context" (VStr EmptyString)) in
      let existing_context :=
        if Py.truthy (VStr existing_context)
           && negb (Py.endswith_char existing_context ".")
        then existing_context +:+ ". "
        else if Py.truthy (VStr existing_context) then existing_context +:+ " "
        else existing_context in
      let character := Py.get insights "character" (VStr EmptyString) in
      let rec :=
        if Py.truthy character then
          <["cultural_context" :=
              VStr (existing_context +:+ "Located in " +:+ Py.title neighborhood
                    +:+ ": " +:+ Py.str character)]> rec
        else rec in
      <["neighborhood_insights" :=
          VDict (list_to_map
            [("best_for", Py.get insights "best_for" (VList []));
             ("cultural_significance",
              Py.get insights "cultural_significance" (VStr EmptyString));
             ("authentic_experiences", Py.get insights "authentic_experiences" (VList []));
             ("avoid_tourist_traps", Py.get insights "avoid_tourist_traps" (VList []))])]>
        rec
  end.

(** [_add_neighborhood_insights] *)
Definition _add_neighborhood_insights (recommendations : list pydict) : list pydict :=
  map add_insights recommendations.

(** [_extract_relevant_neighborhood_insights] *)
Definition _extract_relevant_neighborhood_insights (recommendations : list pydict)
  : pydict :=
  fold_left
    (fun (found : pydict) rec =>
       let neighborhood := neighborhood_of rec in
       match Py.assoc neighborhood neighborhood_insights, found !! neighborhood with
       | Some insights, None => <[neighborhood := VDict insights]> found
       | _, _ => found
       end)
    recommendations ∅.

(** [_calculate_overall_authenticity_score] *)
Definition _calculate_overall_authenticity_score (recommendations : list pydict)
  : result Q :=
  match recommendations with
  | [] => Ok 0%Q
  | _ =>
      bindr (mapr (fun rec => as_num (Py.get rec "authenticity_score" (VNum 0)))
                  recommendations)
        (fun scores =>
      let total_score := fold_left Qplus scores 0%Q in
      Ok (total_score / inject_Z (Z.of_nat (length recommendations)))%Q)
  end.

(** [str(x) if x is not None else default] *)
Definition text_or (default : string) (v : pyval) : string :=
  match v with
  | VNone => default
  | _ => Py.str v
  end.

(** [_generate_fallback_response] *)
Definition _generate_fallback_response (user_query : string)
    (recommendations : list pydict) (cultural_context : list string) : string :=
  match recommendations with
  | [] =>
      let cultural_tip :=
        match cultural_context with
        | tip :: _ => tip
        | [] => "Tipping is not customary in South Korea."
        end in
      ("
            <div class=" +:+ Py.dq +:+ "local-guide-response" +:+ Py.dq +:+ ">
                <p>ì•ˆë…•í•˜ì„¸ìš”! (Hello!) As your Korean local guide, I'd love to help you explore authentic Korean culture.</p>
                <p>For your question about Korean experiences, I recommend exploring these neighborhoods:</p>
                <ul>
                    <li><strong>Hongdae</strong> - Youth culture and nightlife</li>
                    <li><strong>Myeongdong</strong> - Shopping and street food</li>
                    <li><strong>Itaewon</strong> - International district</li>
                    <li><strong>Insadong</strong> - Traditional arts and tea culture</li>
                </ul>
                <p><em>Cultural tip: ")
+:+ cultural_tip +:+
("</em></p>
            </div>
            ")
  | _ =>
      let places :=
        filter (fun r => Py.eq_str (Py.get r "recommendation_type" VNone) "place" = true)
               recommendations in
      let experiences :=
        filter (fun r => Py.eq_str (Py.get r "recommendation_type" VNone)
                                   "cultural_experience" = true)
               recommendations in
      let response_parts := ["<div class=" +:+ Py.dq +:+ "local-guide-response" +:+ Py.dq +:+ ">"] in
      let response_parts := (response_parts ++ ["<p>ì•ˆë…•í•˜ì„¸ìš”! (Hello!) Here are my authentic Korean recommendations:</p>"])%list in
      let response_parts :=
        match places with
        | [] => response_parts
        | _ =>
            (response_parts ++ ["<h4>ğŸ® Places to Visit:</h4>"; "<ul>"] ++
            map (fun place =>
                   let name :=
                     text_or "Korean Place"
                       (Py.get place "Name" (Py.get place "name" (VStr "Korean Place"))) in
                   let context :=
                     text_or "Authentic Korean experience"
                       (Py.get place "cultural_context"
                               (VStr "Authentic Korean experience")) in
                   "<li><strong>" +:+ name +:+ "</strong> - " +:+ context +:+ "</li>")
                (Py.slice_to places 3) ++
            ["</ul>"])%list
        end in
      let response_parts :=
        match experiences with
        | [] => response_parts
        | _ =>
            (response_parts ++ ["<h4>ğŸ­ Cultural Experiences:</h4>"; "<ul>"] ++
            map (fun exp =>
                   let name :=
                     text_or "Korean Cultural Experience"
                       (Py.get exp "Name" (VStr "Korean Cultural Experience")) in
                   let teaser :=
                     text_or "Authentic Korean cultural activity"
                       (Py.get exp "wTeaser" (VStr "Authentic Korean cultural activity")) in
                   "<li><strong>" +:+ name +:+ "</strong> - " +:+ teaser +:+ "</li>")
                (Py.slice_to experiences 3) ++
            ["</ul>"])%list
        end in
      let response_parts :=
        match cultural_context with
        | tip :: _ =>
            (response_parts ++ ["<p><em>ğŸ’¡ Cultural tip: " +:+ tip +:+ "</em></p>"])%list
        | [] => response_parts
        end in
      let response_parts := (response_parts ++ ["</div>"])%list in
      Py.join EmptyString response_parts
  end.

(** [_handle_recommendation_fallback] *)
Definition _handle_recommendation_fallback (user_query : string)
    (user_profile : option pydict) : pydict :=
  let fallback_response :=
    _generate_fallback_response user_query fallback_recommendations
                                [cultural_norms_tipping] in
  list_to_map
    [("response", VStr fallback_response);
     ("recommendations", VList (map VDict fallback_recommendations));
     ("cultural_context", VList [VStr "general_culture"]);
     ("neighborhood_insights", VDict ∅);
     ("authenticity_score", VNum (8#10));
     ("personalization_applied", VBool false);
     ("fallback_used", VBool true)].

End Scoring.

(** A record that carries an authenticity score between 0.5 and 1.0. *)
Definition scored (r : pydict) : Prop :=
  exists s : Q, r !! "authenticity_score" = Some (VNum s) /\ (5#10 <= s <= 1)%Q.

(** Two records that differ at most in [personalization_score]. *)
Definition same_but_score (r r' : pydict) : Prop :=
  forall k, k <> "personalization_score" -> r !! k = r' !! k.

Section Orchestrator.
Context `{PyRuntime} {E : Type}.
Variable self : Services E.

(** [self.x and self.x.is_available()] *)
Definition available {S} (svc : option S) (is_available : S -> World E -> bool)
  : M E (option S) :=
  fun w =>
    (Ok match svc with
        | Some s => if is_available s w then Some s else None
        | None => None
        end, w).

(** [try: return body  except Exception as e: logger.warning(...)],
    after which the method goes on to its next statement *)
Definition attempt {A} (body : M E A) (warning : string) : M E (option A) :=
  try_except
    (let* a := body in ret (Some a))
    (fun e => do log WARNING warning [VStr (exn_msg e)] in ret None).

(** [_analyze_user_intent] *)
Definition _analyze_user_intent (user_query : string) : M E pydict :=
  let* rg := available (response_generator self) rg_is_available in
  let* first :=
    match rg with
    | Some rg =>
        attempt
          (let* intent_data :=
             extract_entity_with_context (rg_gemini_service rg) user_query in
           lift_result (enhance_intent intent_data user_query))
          "ResponseGenerator intent analysis failed: {e}"
    | None => ret None
    end in
  match first with
  | Some intent_data => ret intent_data
  | None =>
      let* gs := available (gemini_service self) gs_is_available in
      let* second :=
        match gs with
        | Some gs =>
            attempt
              (let* intent_data := extract_entity_with_context gs user_query in
               lift_result (enhance_intent intent_data user_query))
              "Gemini intent analysis failed: {e}"
        | None => ret None
        end in
      match second with
      | Some intent_data => ret intent_data
      | None => ret (_fallback_intent_analysis user_query)
      end
  end.

(** [rec['source'] = source; rec['recommendation_type'] = kind] *)
Definition tag (source kind : string) (rec : pyval) : result pydict :=
  match rec with
  | VDict d => Ok (<["recommendation_type" := VStr kind]> (<["source" := VStr source]> d))
  | _ => Raise (TypeError "object does not support item assignment")
  end.

(** One of the three blocks of [_coordinate_recommendation_services]:
    call the adapter, tag its records, extend the list; on an
    exception, log and keep the list as it was. *)
Definition gather (all_recommendations : list pydict) (recs : M E (list pyval))
    (source kind : string) (keep : list pydict -> list pydict) (warning : string)
  : M E (list pydict) :=
  try_except
    (let* recs := recs in
     let* recs := lift_result (mapr (tag source kind) recs) in
     ret (all_recommendations ++ keep recs)%list)
    (fun e =>
       do log WARNING warning [VStr (exn_msg e)] in
       ret all_recommendations).

(** [_coordinate_recommendation_services] *)
Definition _coordinate_recommendation_services (user_query : string)
    (intent_analysis personalization_context : pydict)
    (location : option (Q * Q)) : M E (list pydict) :=
  let all_recommendations : list pydict := [] in
  let* ce := available (cultural_engine self) ce_is_available in
  let* all_recommendations :=
    match ce with
    | Some ce =>
        gather all_recommendations
          (find_similar_korean_experiences ce user_query "all" 8)
          "cultural_discovery" "cultural_experience" (fun recs => recs)
          "Cultural discovery failed: {e}"
    | None => ret all_recommendations
    end in
  let* ss := available (search_service self) ss_is_available in
  let* all_recommendations :=
    match ss with
    | Some ss =>
        let search_location :=
          match location with
          | Some l => l
          | None => (375665#10000, 1269780#10000)%Q
          end in
        gather all_recommendations
          (search_places ss user_query (Some search_location) None)
          "search_service" "place" (fun recs => Py.slice_to recs 6)
          "Search service failed: {e}"
    | None => ret all_recommendations
    end in
  let neighborhood_focus := Py.get intent_analysis "neighborhood_focus" VNone in
  let* all_recommendations :=
    match search_service self with
    | Some ss =>
        if Py.truthy neighborhood_focus then
          gather all_recommendations
            (search_by_neighborhood ss neighborhood_focus None)
            "neighborhood_search" "neighborhood_place" (fun recs => Py.slice_to recs 4)
            "Neighborhood search failed: {e}"
        else ret all_recommendations
    | None => ret all_recommendations
    end in
  if Py.truthy (VDict personalization_context) then
    lift_result (_apply_personalization_filtering all_recommendations
                                                  personalization_context)
  else ret all_recommendations.

(** [_generate_cultural_response] *)
Definition _generate_cultural_response (user_query : string)
    (recommendations : list pydict)
    (intent_analysis personalization_context : pydict) : M E pyval :=
  let cultural_themes := Py.get intent_analysis "cultural_themes" (VList []) in
  let neighborhood_focus := Py.get intent_analysis "neighborhood_focus" VNone in
  let cultural_context_elements : list string := [] in
  let* food := lift_result (contains_str cultural_themes "food_culture") in
  let cultural_context_elements :=
    if food then
      (cultural_context_elements ++
       [food_culture_banchan; food_culture_street_food_timing])%list
    else cultural_context_elements in
  let* known :=
    if Py.truthy neighborhood_focus
    then lift_result (in_keys neighborhood_focus neighborhood_insights)
    else ret false in
  let cultural_context_elements :=
    match neighborhood_focus with
    | VStr focus =>
        match Py.assoc focus neighborhood_insights with
        | Some insights =>
            if known then
              (cultural_context_elements ++
               [Py.title focus +:+ ": " +:+
                Py.str (Py.get insights "character" (VStr EmptyString))])%list
            else cultural_context_elements
        | None => cultural_context_elements
        end
    | _ => cultural_context_elements
    end in
  let cultural_context_elements :=
    (cultural_context_elements ++
     [cultural_norms_tipping; cultural_norms_punctuality])%list in
  let cultural_context_text := Py.join ". " cultural_context_elements in
  let* rg := available (response_generator self) rg_is_available in
  let* first :=
    match rg with
    | Some rg =>
        attempt
          (generate_response rg user_query recommendations cultural_context_text
                             personalization_context)
          "ResponseGenerator failed: {e}"
    | None => ret None
    end in
  match first with
  | Some response => ret response
  | None =>
      let* gs := available (gemini_service self) gs_is_available in
      let* second :=
        match gs with
        | Some gs =>
            attempt
              (generate_local_guide_response gs user_query recommendations
                                             cultural_context_text)
              "Gemini response generation failed: {e}"
        | None => ret None
        end in
      match second with
      | Some response => ret response
      | None =>
          ret (VStr (_generate_fallback_response user_query recommendations
                                                 cultural_context_elements))
      end
  end.

(** The [try] block of [get_recommendation] *)
Definition recommend (user_query : string) (user_profile : option pydict)
    (location : option (Q * Q)) : M E pydict :=
  let* intent_analysis := _analyze_user_intent user_query in
  let* personalization_context :=
    lift_result (_get_personalization_context user_profile) in
  let* recommendations :=
    _coordinate_recommendation_services user_query intent_analysis
                                        personalization_context location in
  let* prioritized_recommendations :=
    lift_result (_prioritize_authentic_experiences recommendations) in
  let enriched_recommendations :=
    _add_neighborhood_insights prioritized_recommendations in
  let* response :=
    _generate_cultural_response user_query enriched_recommendations
                                intent_analysis personalization_context in
  let* authenticity_score :=
    lift_result (_calculate_overall_authenticity_score enriched_recommendations) in
  ret (list_to_map
         [("response", response);
          ("recommendations", VList (map VDict enriched_recommendations));
          ("cultural_context", Py.get intent_analysis "cultural_themes" (VList []));
          ("neighborhood_insights",
           VDict (_extract_relevant_neighborhood_insights enriched_recommendations));
          ("authenticity_score", VNum authenticity_score);
          ("personalization_applied",
           VBool (Py.truthy (VDict personalization_context)))]).

(** [get_recommendation] *)
Definition get_recommendation (user_query : string) (user_profile : option pydict)
    (location : option (Q * Q)) : M E pydict :=
  try_except
    (recommend user_query user_profile location)
    (fun e =>
       do log ERROR "Error generating recommendation for '{user_query}': {e}"
            [VStr user_query; VStr (exn_msg e)] in
       ret (_handle_recommendation_fallback user_query user_profile)).

End Orchestrator.

(** The entry of [service_statuses] for one coordinated service:
    [service.get_status() if service else {...}].  [service] is [None]
    for a service that is missing, and the dict its [get_status()]
    returned otherwise. *)
Definition status_entry (name : string) (service : option pydict) : pydict :=
  match service with
  | Some status => status
  | None =>
      list_to_map
        [("service", VStr name); ("state", VStr "unavailable");
         ("available", VBool false)]
  end.

(** [LocalGuideSystem.get_status], from the statuses of the five
    coordinated services. *)
Definition get_status
    (cultural_engine search_service map_service response_generator
       gemini_service : option pydict) : pydict :=
  let services :=
    [("cultural_engine", cultural_engine); ("search_service", search_service);
     ("map_service", map_service); ("response_generator", response_generator);
     ("gemini_service", gemini_service)] in
  let service_statuses : list (string * pydict) :=
    map (fun entry => (fst entry, status_entry (fst entry) (snd entry))) services in
  let available_services :=
    length (List.filter
              (fun status => Py.truthy (Py.get status "available" (VBool false)))
              (map snd service_statuses)) in
  let total_services := length service_statuses in
  let system_health : Q :=
    if (0 <? total_services)%nat
    then (inject_Z (Z.of_nat available_services) / inject_Z (Z.of_nat total_services))%Q
    else 0%Q in
  list_to_map
    [("service", VStr "LocalGuideSystem");
     ("state",
      VStr (if Py.ltb (5#10) system_health then "healthy"
            else if Py.ltb 0 system_health then "degraded" else "unavailable"));
     ("available", VBool (Py.ltb 0 system_health));
     ("system_health", VNum system_health);
     ("service_statuses",
      VDict (list_to_map (map (fun entry => (fst entry, VDict (snd entry)))
                              service_statuses)));
     ("korean_cultural_context_loaded", VBool true);
     ("neighborhood_insights_loaded",
      VBool (negb (bool_decide (length neighborhood_insights = 0%nat))))].

End LocalGuideSystem.

(** ** A deployment: the orchestrator over the embedded place-search adapter *)

Module Deployment.
Import BaseService LocalGuideSystem.

(** A runtime for the examples.  It shows a number as the fraction it
    is (Python shows a decimal); the records of the examples hold
    strings wherever text is scored. *)
Definition example_runtime : PyRuntime :=
  {| py_repr := fun v =>
       match v with
       | VNone => "None"
       | VBool true => "True"
       | VBool false => "False"
       | VNum q => pretty (Qnum q) +:+ "/" +:+ pretty (Qden q)
       | _ => "<object>"
       end |}.

(** A method of the search adapter, run on the breaker kept in the
    world. *)
Definition with_breaker {A} (m : MB CircuitBreaker A) : M CircuitBreaker A :=
  fun w =>
    match m (ext w, w) with
    | (r, (cb, w')) => (r, MkWorld (clock w') (logs w') cb)
    end.

Section Deployment.
Context `{PyRuntime}.

(** The normalisation of live hits, never reached (see
    [SearchService._api_request]). *)
Definition no_live_hits : pyval -> M CircuitBreaker (list pyval) := fun _ => ret [].

(** The embedded adapter behind the interface of the orchestrator;
    [radius] takes its default, 10000. *)
Definition search_adapter : LocalGuideSystem.SearchService CircuitBreaker :=
  {| ss_is_available := fun w => is_available (ext w);
     search_places := fun query location place_type =>
       with_breaker (SearchService.search_places no_live_hits query location
                                                 place_type 10000);
     search_by_neighborhood := fun neighborhood place_type =>
       match neighborhood with
       | VStr n =>
           with_breaker (SearchService.search_by_neighborhood no_live_hits n place_type)
       | _ => raise (PyOps.AttributeError "lower")
       end |}.

(** Collaborators that throw on every call. *)
Definition provider_down : exn := Exn "Exception" "provider down".

Definition failing_gemini : GeminiService CircuitBreaker :=
  {| gs_is_available := fun _ => true;
     extract_entity_with_context := fun _ => raise provider_down;
     generate_local_guide_response := fun _ _ _ => raise provider_down |}.

Definition failing_generator : ResponseGenerator CircuitBreaker :=
  {| rg_is_available := fun _ => true;
     rg_gemini_service := failing_gemini;
     generate_response := fun _ _ _ _ => raise provider_down |}.

Definition failing_engine : LocalGuideSystem.CulturalDiscoveryEngine CircuitBreaker :=
  {| ce_is_available := fun _ => true;
     find_similar_korean_experiences := fun _ _ _ => raise provider_down |}.

Definition failing_search : LocalGuideSystem.SearchService CircuitBreaker :=
  {| ss_is_available := fun _ => true;
     search_places := fun _ _ _ => raise provider_down;
     search_by_neighborhood := fun _ _ => raise provider_down |}.

(** A cultural engine that answers every request with the fallback
    set of the local knowledge base. *)
Definition knowledge_engine : LocalGuideSystem.CulturalDiscoveryEngine CircuitBreaker :=
  {| ce_is_available := fun _ => true;
     find_similar_korean_experiences := fun query content_type limit =>
       let* items :=
         CulturalDiscoveryEngine._get_fallback_korean_experiences
           CulturalDiscoveryEngine._initialize_local_knowledge query content_type limit in
       ret (map VDict items) |}.

(** The search adapter as embedded, the cultural engine answering from
    its knowledge base, the generative collaborators down. *)
Definition engine_and_search : Services CircuitBreaker :=
  {| cultural_engine := Some knowledge_engine;
     search_service := Some search_adapter;
     response_generator := Some failing_generator;
     gemini_service := Some failing_gemini |}.

(** The search adapter as embedded, every other collaborator down. *)
Definition search_only : Services CircuitBreaker :=
  {| cultural_engine := Some failing_engine;
     search_service := Some search_adapter;
     response_generator := Some failing_generator;
     gemini_service := Some failing_gemini |}.

(** All four collaborators down. *)
Definition all_down : Services CircuitBreaker :=
  {| cultural_engine := Some failing_engine;
     search_service := Some failing_search;
     response_generator := Some failing_generator;
     gemini_service := Some failing_gemini |}.

End Deployment.

(** Collaborators that answer with fixed lists and leave the world as
    it is: two records of the knowledge base, the fallback places, and
    the places of one neighborhood. *)
Definition canned_cultural : list pyval :=
  map VDict
    (Py.slice_to
       (from_option id []
          (Py.assoc "experiences" CulturalDiscoveryEngine._initialize_local_knowledge))
       2).

Definition canned_places : list pyval := map VDict SearchService.fallback_places.

Definition canned_neighborhood : list pyval :=
  map VDict (from_option id [] (Py.assoc "hongdae" SearchService.neighborhood_data)).

Definition canned_services : Services unit :=
  {| cultural_engine :=
       Some {| ce_is_available := fun _ => true;
               find_similar_korean_experiences := fun _ _ _ => ret canned_cultural |};
     search_service :=
       Some {| ss_is_available := fun _ => true;
               search_places := fun _ _ _ => ret canned_places;
               search_by_neighborhood := fun _ _ => ret canned_neighborhood |};
     response_generator := None;
     gemini_service := None |}.

(** A restaurant that serves pork, and one that does not. *)
Definition pork_house : pydict :=
  list_to_map
    [("name", VStr "Samgyeopsal Alley");
     ("category", VStr "restaurant");
     ("description", VStr "Grilled pork belly, eaten in groups");
     ("cultural_relevance", VNum 2)].

Definition tofu_house : pydict :=
  list_to_map
    [("name", VStr "Sundubu Corner");
     ("category", VStr "restaurant");
     ("description", VStr "Soft tofu stew with rice");
     ("cultural_relevance", VNum 2)].

(** A restaurant whose name alone, under the key [name] of the
    place-search records, mentions pork. *)
Definition pork_in_name_only : pydict :=
  list_to_map
    [("name", VStr "Pork Belly House");
     ("category", VStr "restaurant");
     ("description", VStr "Grill restaurant near the station");
     ("cultural_relevance", VNum 2)].

Definition vegetarian_context : pydict :=
  list_to_map [("food_restrictions", VList [VStr "vegetarian"])].

(** The context of a user who has been to Sundubu Corner. *)
Definition visited_context : pydict :=
  list_to_map [("visited_places", VList [VStr "Sundubu Corner"])].

(** The name of a record, as the orchestrator reads it:
    [rec.get('Name', rec.get('name', ''))]. *)
Definition rec_name (rec : pydict) : pyval :=
  Py.get rec "Name" (Py.get rec "name" (VStr EmptyString)).

(** The world at start-up: clock at [t0], nothing logged, the breaker
    of the search adapter as constructed. *)
Definition start (t0 : Q) : World CircuitBreaker := MkWorld t0 [] CircuitBreaker_default.

End Deployment.

(** * Properties *)

(** ** The circuit breaker *)

Module BreakerFacts.
Import BaseService.

Section Facts.
Context {E : Type}.

Lemma call_invokes {A} (func : M E A) cb w :
  state cb <> OPEN ->
  call func (cb, w) =
    match func w with
    | (Ok r, w') => (Ok r, (set_state CLOSED (set_failure_count 0 cb), w'))
    | (Raise e, w') =>
        let cb1 := set_last_failure_time (clock w')
                     (set_failure_count (failure_count cb + 1) cb) in
        (Raise e,
         (if (failure_threshold cb <=? failure_count cb + 1)%Z
          then set_state OPEN cb1 else cb1, w'))
    end.
Proof.
  intros Hstate.
  unfold call, _on_success, _on_failure, try_except, bind, self, update,
    on_world, ret, raise, time_time.
  destruct cb as [th rt n last st]; simpl in *.
  destruct st; try congruence; simpl;
    destruct (func w) as [[r|e] w']; simpl; try reflexivity;
    destruct (th <=? n + 1)%Z; reflexivity.
Qed.

Lemma call_rejects {A} (func : M E A) cb w t :
  state cb = OPEN ->
  last_failure_time cb = Some t ->
  (clock w - t < recovery_timeout cb)%Q ->
  call func (cb, w) = (Raise unavailable, (cb, w)).
Proof.
  intros Hstate Hlast Hearly.
  unfold call, _should_attempt_reset, try_except, bind, self, update,
    on_world, ret, raise, time_time.
  destruct cb as [th rt n last st]; simpl in *. subst st last. simpl.
  destruct (Qeq_bool t 0); [reflexivity |].
  simpl.
  destruct (Qle_bool rt (clock w - t)) eqn:Hle; [| reflexivity].
  apply Qle_bool_iff in Hle. exfalso. apply (Qlt_not_le _ _ Hearly Hle).
Qed.

(** The probe: an open breaker whose timeout has elapsed lets the call
    through in state [HALF_OPEN]. *)
Lemma call_probes {A} (func : M E A) cb w t :
  state cb = OPEN ->
  last_failure_time cb = Some t ->
  Qeq_bool t 0 = false ->
  (recovery_timeout cb <= clock w - t)%Q ->
  call func (cb, w) = call func (set_state HALF_OPEN cb, w).
Proof.
  intros Hstate Hlast Hnz Hlate.
  unfold call, _should_attempt_reset, try_except, bind, self, update,
    on_world, ret, raise, time_time.
  destruct cb as [th rt n last st]; simpl in *. subst st last. simpl.
  rewrite Hnz. simpl.
  apply Qle_bool_iff in Hlate. rewrite Hlate. reflexivity.
Qed.

Lemma failing_call_step cb cb' :
  breaker_inv cb ->
  failing_call (E := E) cb cb' ->
  breaker_inv cb' /\
  failure_threshold cb' = failure_threshold cb /\
  ((cb' = cb /\ state cb = OPEN) \/
   failure_count cb' = (failure_count cb + 1)%Z).
Proof.
  intros (Hnn & Hhalf & Hopen) (A & func & w & w' & e & Hcall).
  destruct (state cb) eqn:Hst; try congruence.
  - (* closed: the function ran and raised *)
    rewrite call_invokes in Hcall by congruence.
    destruct (func w) as [[r|e'] w1]; [discriminate |].
    simpl in Hcall.
    destruct (failure_threshold cb <=? failure_count cb + 1)%Z eqn:Hth;
      inversion Hcall; subst; clear Hcall; simpl;
      (split; [| split; [reflexivity | right; reflexivity]]);
      unfold breaker_inv; simpl; rewrite ?Hst.
    + apply Z.leb_le in Hth. repeat split; try lia; congruence.
    + apply Z.leb_gt in Hth. repeat split; try lia; try congruence.
  - (* open *)
    assert (Hge : (failure_threshold cb <= failure_count cb)%Z)
      by (apply Hopen; reflexivity).
    revert Hcall.
    unfold call, _should_attempt_reset, _on_success, _on_failure, try_except,
      bind, self, update, on_world, ret, raise, time_time.
    destruct cb as [th rt n last st]; simpl in *. subst st.
    assert (Hrej : (Raise unavailable,
                     (MkCircuitBreaker th rt n last OPEN, w)) =
                   (Raise (A := A) e, (cb', w')) ->
                   breaker_inv cb' /\ failure_threshold cb' = th /\
                   (cb' = MkCircuitBreaker th rt n last OPEN /\ OPEN = OPEN \/
                    failure_count cb' = (n + 1)%Z)).
    { intros Heq. inversion Heq; subst.
      split; [| split; [reflexivity | left; split; reflexivity]].
      unfold breaker_inv; simpl. repeat split; try lia; congruence. }
    destruct last as [t|]; simpl; [| exact Hrej].
    destruct (Qeq_bool t 0); simpl; [exact Hrej |].
    destruct (Qle_bool rt (clock w - t)); simpl; [| exact Hrej].
    destruct (func w) as [[r|e'] w1]; simpl; [discriminate |].
    assert (Hth : (th <=? n + 1)%Z = true) by (apply Z.leb_le; lia).
    rewrite Hth. simpl. intros Heq. inversion Heq; subst.
    split; [| split; [reflexivity | right; reflexivity]].
    unfold breaker_inv; simpl. repeat split; try lia; congruence.
Qed.

Lemma failing_calls_open n cb cb' :
  breaker_inv cb ->
  failing_calls (E := E) n cb cb' ->
  breaker_inv cb' /\
  failure_threshold cb' = failure_threshold cb /\
  (state cb' = OPEN \/ failure_count cb' = (failure_count cb + Z.of_nat n)%Z).
Proof.
  intros Hinv Hcalls. induction Hcalls as [cb | n cb cb1 cb2 Hcall Hcalls IH].
  - split; [exact Hinv | split; [reflexivity | right; lia]].
  - destruct (failing_call_step _ _ Hinv Hcall) as (Hinv1 & Hth1 & Hstep).
    destruct (IH Hinv1) as (Hinv2 & Hth2 & Hend).
    split; [exact Hinv2 | split; [congruence |]].
    destruct Hend as [Hopen | Hcount]; [left; exact Hopen |].
    destruct Hstep as [[-> Hst] | Hone].
    + left. destruct Hinv as (_ & _ & Hiff). destruct Hinv2 as (_ & _ & Hiff2).
      apply Hiff2. apply Hiff in Hst. lia.
    + right. lia.
Qed.

End Facts.

(** C2.  A breaker with [failure_threshold = 5] is OPEN after five
    consecutive failing calls, and while it is OPEN a call made before
    [recovery_timeout] has elapsed since the last failure raises the
    "unavailable" error and leaves the world as it was: the wrapped
    function, whatever it is, is not run. *)
Theorem breaker_opens_after_five_failures {E : Type} (cb cb5 : CircuitBreaker) :
  breaker_inv cb ->
  failure_threshold cb = 5%Z ->
  failing_calls (E := E) 5 cb cb5 ->
  state cb5 = OPEN /\
  forall (A : Type) (func : M E A) (w : World E) (t : Q),
    last_failure_time cb5 = Some t ->
    (clock w - t < recovery_timeout cb5)%Q ->
    call func (cb5, w) = (Raise unavailable, (cb5, w)).
Proof.
  intros Hinv Hth Hcalls.
  destruct (failing_calls_open _ _ _ Hinv Hcalls) as (Hinv5 & Hth5 & Hend).
  assert (Hopen : state cb5 = OPEN).
  { destruct Hend as [Hopen | Hcount]; [exact Hopen |].
    destruct Hinv as (Hnn & _). destruct Hinv5 as (_ & _ & Hiff).
    apply Hiff. rewrite Hth5, Hth, Hcount. simpl. lia. }
  split; [exact Hopen |].
  intros A func w t Hlast Hearly. eapply call_rejects; eassumption.
Qed.

Lemma breaker_opens_after_five_failures_witness :
  let boom : M unit nat := raise (Exn "Exception" "boom") in
  let cb := CircuitBreaker_init 5 60 in
  let cb5 := MkCircuitBreaker 5 60 5 (Some 100%Q) OPEN in
  breaker_inv cb /\
  failure_threshold cb = 5%Z /\
  failing_calls (E := unit) 5 cb cb5 /\
  state cb5 = OPEN /\
  forall (A : Type) (func : M unit A) (w : World unit) (t : Q),
    last_failure_time cb5 = Some t ->
    (clock w - t < recovery_timeout cb5)%Q ->
    call func (cb5, w) = (Raise unavailable, (cb5, w)).
Proof.
  intros boom cb cb5.
  assert (Hinv : breaker_inv cb).
  { unfold breaker_inv, cb; simpl. split; [lia |]. split; [discriminate |].
    split; [discriminate | lia]. }
  assert (Hth : failure_threshold cb = 5%Z) by reflexivity.
  assert (Hcalls : failing_calls (E := unit) 5 cb cb5).
  { assert (Hstep : forall n st',
               (if (5 <=? n + 1)%Z then OPEN else CLOSED) = st' ->
               forall last,
                 failing_call (E := unit) (MkCircuitBreaker 5 60 n last CLOSED)
                              (MkCircuitBreaker 5 60 (n + 1) (Some 100%Q) st')).
    { intros n st' Hst last.
      exists nat, boom, (MkWorld 100 [] tt), (MkWorld 100 [] tt), (Exn "Exception" "boom").
      rewrite call_invokes by discriminate. subst st'. simpl.
      destruct (5 <=? n + 1)%Z; reflexivity. }
    unfold cb, cb5, CircuitBreaker_init.
    apply (failing_calls_S 4 _ _ _ (Hstep 0%Z CLOSED eq_refl None)).
    apply (failing_calls_S 3 _ _ _ (Hstep 1%Z CLOSED eq_refl _)).
    apply (failing_calls_S 2 _ _ _ (Hstep 2%Z CLOSED eq_refl _)).
    apply (failing_calls_S 1 _ _ _ (Hstep 3%Z CLOSED eq_refl _)).
    apply (failing_calls_S 0 _ _ _ (Hstep 4%Z OPEN eq_refl _)).
    apply failing_calls_O. }
  split; [exact Hinv |]. split; [exact Hth |]. split; [exact Hcalls |].
  exact (breaker_opens_after_five_failures cb cb5 Hinv Hth Hcalls).
Defined.

(** C7.  Whatever the failure count, a successful call through a breaker
    that is CLOSED or HALF_OPEN returns the result of the function,
    resets the failure counter to 0 and leaves the breaker CLOSED. *)
Theorem success_resets_breaker {E A : Type} (func : M E A)
    (cb : CircuitBreaker) (w w' : World E) (r : A) :
  state cb = CLOSED \/ state cb = HALF_OPEN ->
  func w = (Ok r, w') ->
  exists cb',
    call func (cb, w) = (Ok r, (cb', w')) /\
    failure_count cb' = 0%Z /\ state cb' = CLOSED.
Proof.
  intros Hstate Hfunc.
  exists (set_state CLOSED (set_failure_count 0 cb)).
  split; [| split; reflexivity].
  rewrite call_invokes by (destruct Hstate as [-> | ->]; discriminate).
  rewrite Hfunc. reflexivity.
Qed.

Lemma success_resets_breaker_witness :
  let cb := MkCircuitBreaker 5 60 4 (Some 100%Q) CLOSED in
  let w : World unit := MkWorld 130 [] tt in
  (state cb = CLOSED \/ state cb = HALF_OPEN) /\
  ret (VStr "payload") w = (Ok (VStr "payload"), w) /\
  exists cb',
    call (ret (VStr "payload")) (cb, w) = (Ok (VStr "payload"), (cb', w)) /\
    failure_count cb' = 0%Z /\ state cb' = CLOSED.
Proof.
  intros cb w.
  split; [left; reflexivity |]. split; [reflexivity |].
  apply (success_resets_breaker (ret (VStr "payload")) cb w w (VStr "payload")).
  - left; reflexivity.
  - reflexivity.
Defined.

(** The probe after the timeout: an open breaker whose last failure is
    60 seconds old lets a call through, and its success closes it. *)
Example probe_closes_breaker :
  call (E := unit) (ret (VStr "payload"))
       (MkCircuitBreaker 5 60 5 (Some 100%Q) OPEN, MkWorld 160 [] tt) =
    (Ok (VStr "payload"), (MkCircuitBreaker 5 60 0 (Some 100%Q) CLOSED, MkWorld 160 [] tt)).
Proof. reflexivity. Qed.

End BreakerFacts.

(** ** The scoring functions of the cultural adapter *)

Module ScoringFacts.
Import CulturalDiscoveryEngine.

Lemma min_le_cap (a : Q) : (Py.min a 1 <= 1)%Q.
Proof.
  unfold Py.min, Py.ltb.
  destruct (Qle_bool a 1) eqn:Hle; simpl.
  - apply Qle_bool_iff. exact Hle.
  - apply Qle_refl.
Qed.

Lemma min_ge (lo a : Q) : (lo <= 1)%Q -> (lo <= a)%Q -> (lo <= Py.min a 1)%Q.
Proof.
  intros Hlo Ha. unfold Py.min, Py.ltb.
  destruct (Qle_bool a 1); simpl; assumption.
Qed.

Lemma add_hits_ge (weight : string -> Q) keywords text (score : Q) :
  (forall k, 0 <= weight k)%Q ->
  (score <= add_hits weight keywords text score)%Q.
Proof.
  intros Hw. unfold add_hits. revert score.
  induction keywords as [| k ks IH]; intros score; simpl.
  - apply Qle_refl.
  - eapply Qle_trans; [| apply IH].
    destruct (Py.isin k text); [| apply Qle_refl].
    specialize (Hw k). lra.
Qed.

Lemma keyword_weight_nonneg k : (0 <= keyword_weight k)%Q.
Proof.
  unfold keyword_weight.
  repeat match goal with |- context [if ?b then _ else _] => destruct b end;
    unfold Qle; simpl; lia.
Qed.

Lemma cultural_relevance_bounds name description item_type :
  (0 <= _calculate_cultural_relevance_score name description item_type <= 1)%Q.
Proof.
  unfold _calculate_cultural_relevance_score. split; [| apply min_le_cap].
  apply min_ge; [unfold Qle; simpl; lia |].
  match goal with |- context [if ?b then _ else _] => destruct b end;
    [unfold Qle; simpl; lia |].
  eapply Qle_trans; [| apply add_hits_ge; intros; unfold Qle; simpl; lia].
  eapply Qle_trans; [| apply add_hits_ge; intros; unfold Qle; simpl; lia].
  eapply Qle_trans; [| apply add_hits_ge; intros; unfold Qle; simpl; lia].
  apply add_hits_ge. apply keyword_weight_nonneg.
Qed.

Lemma authenticity_bounds name description :
  (5#10 <= _calculate_authenticity_score name description <= 1)%Q.
Proof.
  unfold _calculate_authenticity_score. split; [| apply min_le_cap].
  apply min_ge; [unfold Qle; simpl; lia |].
  eapply Qle_trans; [| apply add_hits_ge; intros; unfold Qle; simpl; lia].
  apply add_hits_ge. intros; unfold Qle; simpl; lia.
Qed.

(** C5.  Both scoring functions of the cultural adapter are functions of
    the text they build from their arguments ([name], a space,
    [description]) and of nothing else: calls whose arguments give the
    same text return the same scores, whatever the item type, and no
    state enters the result.  Both scores lie in [0, 1]. *)
Theorem scoring_is_pure_and_bounded
    (name description item_type name' description' item_type' : string) :
  name +:+ " " +:+ description = name' +:+ " " +:+ description' ->
  _calculate_cultural_relevance_score name description item_type =
    _calculate_cultural_relevance_score name' description' item_type' /\
  _calculate_authenticity_score name description =
    _calculate_authenticity_score name' description' /\
  (0 <= _calculate_cultural_relevance_score name description item_type <= 1)%Q /\
  (0 <= _calculate_authenticity_score name description <= 1)%Q.
Proof.
  intros Htext. split; [| split; [| split]].
  - unfold _calculate_cultural_relevance_score. rewrite Htext. reflexivity.
  - unfold _calculate_authenticity_score. rewrite Htext. reflexivity.
  - apply cultural_relevance_bounds.
  - destruct (authenticity_bounds name description) as [Hlo Hhi].
    split; [| exact Hhi]. eapply Qle_trans; [| exact Hlo]. unfold Qle; simpl; lia.
Qed.

Lemma scoring_is_pure_and_bounded_witness :
  "korean temple" +:+ " " +:+ "stay" = "korean" +:+ " " +:+ "temple stay" /\
  _calculate_cultural_relevance_score "korean temple" "stay" "experience" =
    _calculate_cultural_relevance_score "korean" "temple stay" "place" /\
  _calculate_authenticity_score "korean temple" "stay" =
    _calculate_authenticity_score "korean" "temple stay" /\
  (0 <= _calculate_cultural_relevance_score "korean temple" "stay" "experience" <= 1)%Q /\
  (0 <= _calculate_authenticity_score "korean temple" "stay" <= 1)%Q.
Proof.
  split; [reflexivity |].
  apply (scoring_is_pure_and_bounded "korean temple" "stay" "experience"
                                     "korean" "temple stay" "place").
  reflexivity.
Defined.

(** The example of the specification: the text
    "traditional korean temple stay" scores at least 0.4 for relevance
    and at least 0.6 for authenticity. *)
Example temple_stay_scores :
  (4#10 <= _calculate_cultural_relevance_score "traditional korean temple stay"
                                               EmptyString EmptyString)%Q /\
  (6#10 <= _calculate_authenticity_score "traditional korean temple stay"
                                         EmptyString)%Q.
Proof. split; vm_compute; discriminate. Qed.

End ScoringFacts.

(** ** Where the scores of a record come from *)

Module ProvenanceFacts.
Import CulturalDiscoveryEngine.

Lemma slice_to_incl {A} (l : list A) (n : Z) (x : A) :
  In x (Py.slice_to l n) -> In x l.
Proof.
  assert (Htake : forall (k : nat) (l : list A), In x (take k l) -> In x l).
  { induction k as [| k IH]; intros [| y l']; simpl; try tauto.
    intros [-> | Hin]; [left; reflexivity | right; apply IH; exact Hin]. }
  unfold Py.slice_to. destruct (n <? 0)%Z; apply Htake.
Qed.

Lemma assoc_In {A} (k : string) (l : list (string * A)) (v : A) :
  Py.assoc k l = Some v -> In v (map snd l).
Proof.
  induction l as [| [k' v'] l IH]; simpl; [discriminate |].
  destruct (String.eqb k k'); intros Heq.
  - inversion Heq; subst. left; reflexivity.
  - right. apply IH. exact Heq.
Qed.

Section Live.
Context `{PyRuntime}.

Lemma normalize_field_lookup (k K k' : string) (item : pydict) :
  k' <> K -> normalize_field k K item !! k' = item !! k'.
Proof.
  intros Hne. unfold normalize_field.
  destruct (item !! k); [| reflexivity].
  destruct (item !! K); [reflexivity |].
  apply lookup_insert_ne. congruence.
Qed.

Lemma score_item_scores (query_is_korean : bool) (item r : pydict) :
  score_item query_is_korean item = Some r ->
  r !! "cultural_relevance" = Some (VNum (item_relevance query_is_korean item)) /\
  r !! "authenticity_score" =
    Some (VNum (_calculate_authenticity_score (item_name item) (item_description item))).
Proof.
  unfold score_item.
  destruct (Py.ltb (1#10) (item_relevance query_is_korean item)); [| discriminate].
  intros Heq. inversion Heq; subst; clear Heq.
  rewrite !normalize_field_lookup by discriminate.
  split.
  - rewrite lookup_insert_ne by discriminate. apply lookup_insert_eq.
  - apply lookup_insert_eq.
Qed.

Lemma filter_and_score_scores (items : list pyval) (query_is_korean : bool) :
  Forall
    (fun r =>
       exists item,
         In (VDict item) items /\
         r !! "cultural_relevance" =
           Some (VNum (item_relevance query_is_korean item)) /\
         r !! "authenticity_score" =
           Some (VNum (_calculate_authenticity_score (item_name item)
                                                     (item_description item))))
    (_filter_and_score_korean_relevance items query_is_korean).
Proof.
  induction items as [| v items IH]; simpl; [constructor |].
  assert (Hweak :
    Forall
      (fun r =>
         exists item,
           (v = VDict item \/ In (VDict item) items) /\
           r !! "cultural_relevance" =
             Some (VNum (item_relevance query_is_korean item)) /\
           r !! "authenticity_score" =
             Some (VNum (_calculate_authenticity_score (item_name item)
                                                       (item_description item))))
      (_filter_and_score_korean_relevance items query_is_korean)).
  { eapply Forall_impl; [exact IH |].
    intros r (item & Hin & Hscores). exists item. split; [right; exact Hin | exact Hscores]. }
  destruct v; try exact Hweak.
  destruct (score_item query_is_korean d) as [scored |] eqn:Hscore; [| exact Hweak].
  constructor; [| exact Hweak].
  exists d. split; [left; reflexivity |]. apply score_item_scores. exact Hscore.
Qed.

End Live.

Section Fallbacks.
Context `{PyRuntime} {E : Type}.

Lemma fallback_experiences_are_literals (query content_type : string) (limit : Z)
    (w : World E) :
  exists out w',
    _get_fallback_korean_experiences _initialize_local_knowledge
                                     query content_type limit w = (Ok out, w') /\
    Forall
      (fun r =>
         exists item,
           In item (flat_map snd _initialize_local_knowledge) /\
           r = mark_fallback item)
      out.
Proof.
  unfold _get_fallback_korean_experiences, bind, log, ret, raise.
  assert (Hmark : forall items : list pydict,
             (forall item, In item items ->
                In item (flat_map snd _initialize_local_knowledge)) ->
             Forall
               (fun r => exists item,
                    In item (flat_map snd _initialize_local_knowledge) /\
                    r = mark_fallback item)
               (map mark_fallback items)).
  { intros items Hsub. apply Forall_forall. intros r Hr.
    apply list_elem_of_In in Hr. apply in_map_iff in Hr.
    destruct Hr as (item & <- & Hin). exists item. split; [apply Hsub; exact Hin | reflexivity]. }
  assert (Hrow : forall items : list pydict,
             In items (map snd _initialize_local_knowledge) ->
             forall item, In item items ->
               In item (flat_map snd _initialize_local_knowledge)).
  { intros items Hrow item Hin. apply in_flat_map.
    apply in_map_iff in Hrow. destruct Hrow as (row & <- & Hrow).
    exists row. split; assumption. }
  destruct (Py.assoc content_type _initialize_local_knowledge) as [items |] eqn:Hassoc.
  - eexists _, _. split; [reflexivity |].
    apply Hmark. intros item Hin. apply slice_to_incl in Hin.
    eapply Hrow; [eapply assoc_In; exact Hassoc | exact Hin].
  - destruct (String.eqb content_type "all").
    + eexists _, _. split; [reflexivity |].
      apply Hmark. intros item Hin. apply slice_to_incl in Hin.
      apply in_flat_map in Hin. destruct Hin as (row & Hrow' & Hin).
      apply slice_to_incl in Hin. apply in_flat_map. exists row. split; assumption.
    + assert (Hexp : exists items,
                 Py.assoc "experiences" _initialize_local_knowledge = Some items)
        by (eexists; reflexivity).
      destruct Hexp as [items Hexp]. rewrite Hexp.
      eexists _, _. split; [reflexivity |].
      apply Hmark. intros item Hin. apply slice_to_incl in Hin.
      eapply Hrow; [eapply assoc_In; exact Hexp | exact Hin].
Qed.

Lemma fallback_places_are_literals (query : string)
    (place_type : option string) (w : World E) :
  exists out w',
    SearchService._get_fallback_search_results query place_type w = (Ok out, w') /\
    Forall (fun r => In r SearchService.fallback_places) out.
Proof.
  unfold SearchService._get_fallback_search_results, bind, log, ret.
  eexists _, _. split; [reflexivity |].
  apply Forall_forall. intros r Hr.
  assert (Hsub : forall P `{forall x, Decision (P x)} (l : list pydict),
             r ∈ filter P l -> r ∈ l).
  { intros P Hdec l Hin. apply list_elem_of_filter in Hin. tauto. }
  apply list_elem_of_In.
  repeat match type of Hr with
         | _ ∈ (if ?b then _ else _) => destruct b
         | _ ∈ (match ?o with Some _ => _ | None => _ end) => destruct o
         | _ ∈ filter _ _ => apply Hsub in Hr
         end; exact Hr.
Qed.

End Fallbacks.



End ProvenanceFacts.

(** ** The place-search adapter *)

Module SearchFacts.
Import BaseService SearchService.

Section Facts.
Context `{PyRuntime} {E : Type}.
Variable enrich : pyval -> M E (list pyval).

Lemma logs_extend_refl (w : World E) : logs_extend w w.
Proof. exists []. symmetry. apply app_nil_r. Qed.

Lemma logs_extend_trans (w1 w2 w3 : World E) :
  logs_extend w1 w2 -> logs_extend w2 w3 -> logs_extend w1 w3.
Proof.
  intros [l1 H1] [l2 H2]. exists (l1 ++ l2)%list.
  rewrite H2, H1. symmetry. apply app_assoc.
Qed.

Lemma api_request_raises (search_params : pydict) (w : World E) :
  exists e w1, _api_request search_params w = (Raise e, w1) /\ logs_extend w w1.
Proof.
  unfold _api_request, retry_with_backoff.
  change (seq 0 (2 + 1)) with [0; 1; 2]%nat.
  cbn [retry_attempts Nat.eqb].
  unfold try_except, raise, bind, log, time_sleep.
  cbn [logs clock ext].
  eexists _, _. split; [reflexivity |].
  eexists. cbn [logs]. rewrite <- !app_assoc. reflexivity.
Qed.

Lemma call_of_failing {A} (func : M E A) cb w e w1 :
  func w = (Raise e, w1) ->
  exists e' cb' w',
    call func (cb, w) = (Raise e', (cb', w')) /\ (w' = w \/ w' = w1).
Proof.
  intros Hfunc.
  unfold call, _should_attempt_reset, _on_success, _on_failure, try_except,
    bind, self, update, on_world, ret, raise, time_time.
  destruct cb as [th rt n last st]; simpl.
  destruct st; simpl.
  - rewrite Hfunc; simpl. destruct (th <=? n + 1)%Z; simpl; eauto 10.
  - destruct last as [t |]; simpl; [| eauto 10].
    destruct (Qeq_bool t 0); simpl; [eauto 10 |].
    destruct (Qle_bool rt (clock w - t)); simpl; [| eauto 10].
    rewrite Hfunc; simpl. destruct (th <=? n + 1)%Z; simpl; eauto 10.
  - rewrite Hfunc; simpl. destruct (th <=? n + 1)%Z; simpl; eauto 10.
Qed.

Lemma fallback_results_run (query : string) (place_type : option string) (w : World E) :
  exists out w',
    _get_fallback_search_results query place_type w = (Ok out, w') /\ logs_extend w w'.
Proof.
  unfold _get_fallback_search_results, bind, log, ret.
  eexists _, _. split; [reflexivity |]. eexists. cbn [logs]. reflexivity.
Qed.

(** With no client, [_make_request] always ends in the fallback list. *)
Lemma make_request_falls_back (search_params : pydict) cb (w : World E) :
  exists places cb' w',
    _make_request service_name _handle_fallback (_api_request search_params) (cb, w)
      = (Ok (VList (map VDict places)), (cb', w')) /\
    logs_extend w w'.
Proof.
  destruct (api_request_raises search_params w) as (e & w1 & Hreq & Hext1).
  destruct (call_of_failing (_api_request search_params) cb w e w1 Hreq)
    as (e' & cb' & w2 & Hcall & Hw2).
  assert (Hext2 : logs_extend w w2).
  { destruct Hw2 as [-> | ->]; [apply logs_extend_refl | exact Hext1]. }
  unfold _make_request, try_except. rewrite Hcall.
  unfold bind, on_world, _handle_fallback, log. cbn [fst snd clock logs ext].
  unfold bind. cbn [clock logs ext].
  match goal with
  | |- context [_get_fallback_search_results ?q ?p ?w0] =>
      destruct (fallback_results_run q p w0) as (out & w3 & Hrun & Hext3);
      rewrite Hrun
  end.
  unfold ret.
  eexists _, _, _. split; [reflexivity |].
  eapply logs_extend_trans; [exact Hext2 |].
  eapply logs_extend_trans; [| exact Hext3].
  eexists. cbn [logs]. rewrite <- app_assoc. reflexivity.
Qed.

Lemma search_places_returns (query : string) (location : option (Q * Q))
    (place_type : option string) (radius : Q) cb (w : World E) :
  exists places cb' w',
    search_places enrich query location place_type radius (cb, w)
      = (Ok places, (cb', w')) /\
    (forall lat lng,
       location = Some (lat, lng) -> outside_korea_bounds lat lng = true ->
       In (Log WARNING "Location coordinates outside Korea bounds: {lat}, {lng}"
               [VNum lat; VNum lng]) (logs w')).
Proof.
  unfold search_places.
  set (warn := match location with
               | Some (lat, lng) =>
                   if outside_korea_bounds lat lng
                   then on_world (log WARNING
                          "Location coordinates outside Korea bounds: {lat}, {lng}"
                          [VNum lat; VNum lng])
                   else ret tt
               | None => ret tt
               end).
  assert (Hwarn : exists w0,
             warn (cb, w) = (Ok tt, (cb, w0)) /\
             forall lat lng,
               location = Some (lat, lng) -> outside_korea_bounds lat lng = true ->
               forall w', logs_extend w0 w' ->
                 In (Log WARNING "Location coordinates outside Korea bounds: {lat}, {lng}"
                         [VNum lat; VNum lng]) (logs w')).
  { subst warn. destruct location as [[lat lng] |].
    - destruct (outside_korea_bounds lat lng) eqn:Hout.
      + eexists. split; [reflexivity |].
        intros lat' lng' Heq _ w' [l Hl]. inversion Heq; subst.
        rewrite Hl. simpl. apply in_or_app. left. apply in_or_app. right. left. reflexivity.
      + eexists. split; [reflexivity |].
        intros lat' lng' Heq Hout'. inversion Heq; subst. congruence.
    - eexists. split; [reflexivity |]. intros lat lng Heq. discriminate. }
  destruct Hwarn as (w0 & Hwarn & Hlogged).
  unfold bind at 1. rewrite Hwarn.
  unfold try_except, bind, on_world, time_time. cbn [fst snd].
  destruct (make_request_falls_back
              (search_params_of query location place_type radius) cb w0)
    as (places & cb1 & w1 & Hreq & Hext1).
  rewrite Hreq. cbn [fst snd].
  unfold answer_of.
  destruct (Py.truthy (VList (map VDict places))); cbn [negb].
  - unfold ret. eexists _, _, _. split; [reflexivity |].
    intros lat lng Heq Hout. eapply Hlogged; eassumption.
  - unfold bind.
    match goal with
    | |- context [_get_fallback_search_results ?q ?p ?w0] =>
        destruct (fallback_results_run q p w0) as (out & w2 & Hrun & Hext2);
        rewrite Hrun
    end.
    unfold ret.
    eexists _, _, _. split; [reflexivity |].
    intros lat lng Heq Hout. eapply Hlogged; try eassumption.
    eapply logs_extend_trans; eassumption.
Qed.

Lemma search_params_bias (query : string) (lat lng : Q)
    (place_type : option string) (radius : Q) :
  search_params_of query (Some (lat, lng)) place_type radius !! "aroundLatLng" =
    Some (VStr (Py.str (VNum lat) +:+ "," +:+ Py.str (VNum lng))).
Proof.
  unfold search_params_of.
  assert (Hbias : forall m : pydict,
             <["aroundPrecision" := VNum 100]>
               (<["aroundRadius" := VNum radius]>
                  (<["aroundLatLng" :=
                       VStr (Py.str (VNum lat) +:+ "," +:+ Py.str (VNum lng))]> m))
             !! "aroundLatLng" =
             Some (VStr (Py.str (VNum lat) +:+ "," +:+ Py.str (VNum lng)))).
  { intros m. do 2 (rewrite lookup_insert_ne by discriminate). apply lookup_insert_eq. }
  destruct place_type as [t |]; [| apply Hbias].
  destruct (Py.truthy (VStr t)); [| apply Hbias].
  rewrite lookup_insert_ne by discriminate. apply Hbias.
Qed.

End Facts.




End SearchFacts.

(** ** The orchestrator: the result of [get_recommendation] *)

Module ResultFacts.
Import LocalGuideSystem.

Section Facts.
Context `{PyRuntime} {E : Type}.
Variable self : Services E.

(** The dict the [try] block returns, when it returns. *)
Lemma recommend_shape user_query user_profile location (w w' : World E) (d : pydict) :
  recommend self user_query user_profile location w = (Ok d, w') ->
  exists response recommendations cultural_context neighborhood_insights
         authenticity_score personalization_applied,
    d = list_to_map
          [("response", response);
           ("recommendations", recommendations);
           ("cultural_context", cultural_context);
           ("neighborhood_insights", neighborhood_insights);
           ("authenticity_score", authenticity_score);
           ("personalization_applied", personalization_applied)].
Proof.
  unfold recommend, bind, lift_result, ret.
  repeat match goal with
         | |- context [match ?m ?s with _ => _ end] =>
             lazymatch m with
             | _analyze_user_intent _ _ => destruct (m s) as [[? | ?] ?]
             | _coordinate_recommendation_services _ _ _ _ _ => destruct (m s) as [[? | ?] ?]
             | _generate_cultural_response _ _ _ _ _ => destruct (m s) as [[? | ?] ?]
             end
         | |- context [match ?r with Ok _ => _ | Raise _ => _ end] =>
             destruct r as [? | ?]
         end;
    intros Heq; try discriminate Heq.
  inversion Heq; subst. eexists _, _, _, _, _, _. reflexivity.
Qed.

Lemma get_recommendation_cases user_query user_profile location (w : World E) :
  exists d w',
    get_recommendation self user_query user_profile location w = (Ok d, w') /\
    match recommend self user_query user_profile location w with
    | (Ok d0, _) => d = d0
    | (Raise _, _) => d = _handle_recommendation_fallback user_query user_profile
    end.
Proof.
  unfold get_recommendation, try_except.
  destruct (recommend self user_query user_profile location w) as [[d | e] w1].
  - eexists _, _. split; reflexivity.
  - unfold bind, log, ret. eexists _, _. split; reflexivity.
Qed.

End Facts.

(** C1.  For every query, profile and location, and whatever the
    collaborators do (return, raise, change the world),
    [get_recommendation] returns a result dict; it never raises. *)
Theorem get_recommendation_never_raises `{PyRuntime} {E : Type} (self : Services E)
    (user_query : string) (user_profile : option pydict)
    (location : option (Q * Q)) (w : World E) :
  exists (result : pydict) (w' : World E),
    get_recommendation self user_query user_profile location w = (Ok result, w').
Proof.
  destruct (get_recommendation_cases self user_query user_profile location w)
    as (d & w' & Hrun & _).
  exists d, w'. exact Hrun.
Qed.

(** C6, as the code has it.  The result always holds the keys
    [response], [recommendations], [cultural_context],
    [neighborhood_insights], [authenticity_score] and
    [personalization_applied].  The key [fallback_used] is set, to
    [True], on the orchestrator-level fallback path only; when the [try]
    block completes the key is absent, whether or not the response was
    composed by a fallback. *)
Theorem fallback_flag_on_fallback_path_only `{PyRuntime} {E : Type} (self : Services E)
    (user_query : string) (user_profile : option pydict)
    (location : option (Q * Q)) (w : World E) :
  exists (result : pydict) (w' : World E),
    get_recommendation self user_query user_profile location w = (Ok result, w') /\
    Forall (fun key => is_Some (result !! key))
           ["response"; "recommendations"; "cultural_context";
            "neighborhood_insights"; "authenticity_score";
            "personalization_applied"] /\
    result !! "fallback_used" =
      match recommend self user_query user_profile location w with
      | (Ok _, _) => None
      | (Raise _, _) => Some (VBool true)
      end.
Proof.
  destruct (get_recommendation_cases self user_query user_profile location w)
    as (d & w' & Hrun & Hcase).
  exists d, w'. split; [exact Hrun |].
  destruct (recommend self user_query user_profile location w) as [[d0 | e] w1] eqn:Hrec.
  - subst d0.
    destruct (recommend_shape _ _ _ _ _ _ _ Hrec) as (r1 & r2 & r3 & r4 & r5 & r6 & ->).
    split; [| reflexivity].
    repeat constructor; eexists; reflexivity.
  - subst d. split; [| reflexivity].
    repeat constructor; eexists; reflexivity.
Qed.

#[local] Existing Instance Deployment.example_runtime.

(** The case the specification names: empty query, no profile, no
    location, all four collaborators throwing on every call. *)
Example all_collaborators_down :
  exists result w',
    get_recommendation Deployment.all_down
      EmptyString None None (Deployment.start 0) = (Ok result, w') /\
    result !! "fallback_used" = None /\
    result !! "recommendations" = Some (VList []).
Proof. eexists _, _. split; [reflexivity | split; reflexivity]. Qed.

(** C6 as stated fails.  With the place-search adapter on its fallback
    data and the generative collaborators down, the [try] block
    completes, the response is composed by the fallbacks (both failures
    are in the log), and the result has no key [fallback_used]. *)
Lemma success_path_has_no_fallback_flag :
  exists result w',
    get_recommendation Deployment.search_only
      "Where should I eat in Hongdae?" None None (Deployment.start 0)
      = (Ok result, w') /\
    (exists r, In r (logs w') /\ log_template r = "ResponseGenerator failed: {e}") /\
    (exists r, In r (logs w') /\
               log_template r = "Gemini response generation failed: {e}") /\
    ~ exists b : bool, result !! "fallback_used" = Some (VBool b).
Proof.
  pose (run := get_recommendation Deployment.search_only
                 "Where should I eat in Hongdae?" None None (Deployment.start 0)).
  assert (Hobs :
    match run with
    | (Ok result, w') =>
        (result !! "fallback_used",
         existsb (fun r => String.eqb (log_template r) "ResponseGenerator failed: {e}")
                 (logs w'),
         existsb (fun r => String.eqb (log_template r)
                                      "Gemini response generation failed: {e}")
                 (logs w'))
    | (Raise _, _) => (Some VNone, false, false)
    end = (None, true, true)) by (vm_compute; reflexivity).
  fold run. destruct run as [[result | e] w']; [| discriminate Hobs].
  injection Hobs as Hflag Hgen Hgem.
  exists result, w'. split; [reflexivity |].
  split; [| split].
  - apply existsb_exists in Hgen. destruct Hgen as (r & Hin & Heq).
    exists r. split; [exact Hin | apply String.eqb_eq; exact Heq].
  - apply existsb_exists in Hgem. destruct Hgem as (r & Hin & Heq).
    exists r. split; [exact Hin | apply String.eqb_eq; exact Heq].
  - intros [b Hb]. rewrite Hflag in Hb. discriminate Hb.
Qed.

End ResultFacts.

(** ** The orchestrator: authenticity prioritization *)

Module AuthenticityFacts.
Import PyOps LocalGuideSystem.

Lemma bindr_Ok {A B} (r : result A) (k : A -> result B) (b : B) :
  bindr r k = Ok b -> exists a, r = Ok a /\ k a = Ok b.
Proof. destruct r as [a | e]; simpl; [eauto | discriminate]. Qed.

Lemma mapr_Forall2 {A B} (f : A -> result B) (l : list A) (l' : list B) :
  mapr f l = Ok l' -> Forall2 (fun x y => f x = Ok y) l l'.
Proof.
  revert l'. induction l as [| x l IH]; simpl; intros l' Hmap.
  - inversion Hmap. constructor.
  - apply bindr_Ok in Hmap. destruct Hmap as (y & Hy & Hmap).
    apply bindr_Ok in Hmap. destruct Hmap as (ys & Hys & Hmap).
    inversion Hmap; subst. constructor; [exact Hy | apply IH; exact Hys].
Qed.

Lemma mapr_total {A B} (f : A -> result B) (l : list A) :
  Forall (fun x => exists y, f x = Ok y) l -> exists l', mapr f l = Ok l'.
Proof.
  induction 1 as [| x l [y Hy] _ [l' Hl']]; simpl.
  - eexists; reflexivity.
  - rewrite Hy, Hl'. simpl. eexists; reflexivity.
Qed.

Section Sorting.
Context {A : Type} (lt : A -> A -> bool).

Lemma insert_desc_Forall (P : A -> Prop) x l :
  P x -> Forall P l -> Forall P (Py.insert_desc lt x l).
Proof.
  intros Hx Hl. induction Hl as [| y l Hy Hl IH]; simpl.
  - repeat constructor; exact Hx.
  - destruct (lt x y); repeat constructor; assumption.
Qed.

Lemma sort_desc_Forall (P : A -> Prop) l :
  Forall P l -> Forall P (Py.sort_desc lt l).
Proof.
  induction 1; simpl; [constructor | apply insert_desc_Forall; assumption].
Qed.

Lemma insert_desc_Permutation x l : Py.insert_desc lt x l ≡ₚ x :: l.
Proof.
  induction l as [| y l IH]; simpl; [reflexivity |].
  destruct (lt x y); [| reflexivity].
  rewrite IH. apply Permutation_swap.
Qed.

Lemma sort_desc_Permutation l : Py.sort_desc lt l ≡ₚ l.
Proof.
  induction l as [| x l IH]; simpl; [reflexivity |].
  rewrite insert_desc_Permutation, IH. reflexivity.
Qed.
End Sorting.

Section Facts.
Context `{PyRuntime}.

Lemma weights_fold_ge (text : string) (entries : list (string * Q)) (score : Q) :
  Forall (fun entry => 0 <= snd entry)%Q entries ->
  (score <=
   fold_left
     (fun score entry =>
        if Py.isin (fst entry) text then (score + snd entry * (1#10))%Q else score)
     entries score)%Q.
Proof.
  intros Hw. revert score.
  induction Hw as [| entry entries Hentry _ IH]; intros score; simpl.
  - apply Qle_refl.
  - eapply Qle_trans; [| apply IH].
    destruct (Py.isin (fst entry) text); [| apply Qle_refl].
    assert (0 <= snd entry * (1#10))%Q by (apply Qmult_le_0_compat; [exact Hentry | discriminate]).
    lra.
Qed.

Lemma authenticity_weights_nonneg :
  Forall (fun entry => 0 <= snd entry)%Q authenticity_weights.
Proof. repeat constructor; discriminate. Qed.

Lemma authenticity_score_range (recommendation : pydict) (s : Q) :
  _calculate_authenticity_score recommendation = Ok s -> (5#10 <= s <= 1)%Q.
Proof.
  unfold _calculate_authenticity_score. cbv zeta.
  match goal with
  | |- context [fold_left ?f authenticity_weights ?a] =>
      set (weighted := fold_left f authenticity_weights a);
      assert (Hweighted : (5#10 <= weighted)%Q)
        by (apply weights_fold_ge; apply authenticity_weights_nonneg);
      clearbody weighted
  end.
  intros Hs. apply bindr_Ok in Hs. destruct Hs as (known & _ & Hs).
  injection Hs as <-.
  split; [| apply ScoringFacts.min_le_cap].
  apply ScoringFacts.min_ge; [discriminate |].
  destruct known;
    destruct (Py.eq_str (Py.get recommendation "source" VNone) "local_knowledge"); lra.
Qed.

Lemma authenticity_score_total (recommendation : pydict) :
  Py.hashable (Py.get recommendation "neighborhood" VNone) = true ->
  exists s, _calculate_authenticity_score recommendation = Ok s.
Proof.
  intros Hhash. unfold _calculate_authenticity_score, in_keys.
  rewrite Hhash. simpl. eexists; reflexivity.
Qed.

Lemma assign_authenticity_scored (rec r : pydict) :
  assign_authenticity rec = Ok r ->
  scored r /\ forall k, k <> "authenticity_score" -> r !! k = rec !! k.
Proof.
  unfold assign_authenticity. intros Hr.
  apply bindr_Ok in Hr. destruct Hr as (s & Hs & Hr). inversion Hr; subst; clear Hr.
  split.
  - exists s. split; [apply lookup_insert_eq | eapply authenticity_score_range; exact Hs].
  - intros k Hk. apply lookup_insert_ne. congruence.
Qed.

Lemma add_insights_keeps_score (rec : pydict) :
  add_insights rec !! "authenticity_score" = rec !! "authenticity_score".
Proof.
  unfold add_insights.
  destruct (Py.assoc (neighborhood_of rec) neighborhood_insights); [| reflexivity].
  rewrite lookup_insert_ne by discriminate.
  match goal with |- context [if ?b then _ else _] => destruct b end;
    [rewrite lookup_insert_ne by discriminate |]; reflexivity.
Qed.

Lemma sum_bounds (lo : Q) (scores : list Q) (a : Q) :
  Forall (fun s => lo <= s <= 1)%Q scores ->
  (a + lo * inject_Z (Z.of_nat (length scores)) <= fold_left Qplus scores a /\
   fold_left Qplus scores a <= a + inject_Z (Z.of_nat (length scores)))%Q.
Proof.
  intros Hall. revert a.
  induction Hall as [| s scores [Hlo Hhi] _ IH]; intros a.
  - cbn [length fold_left]. change (inject_Z (Z.of_nat 0)) with 0%Q. split; lra.
  - destruct (IH (a + s)%Q) as [IHlo IHhi].
    change (fold_left Qplus (s :: scores) a) with (fold_left Qplus scores (a + s)%Q).
    change (length (s :: scores)) with (S (length scores)).
    rewrite Nat2Z.inj_succ. unfold Z.succ. rewrite inject_Z_plus.
    change (inject_Z 1) with 1%Q.
    split; lra.
Qed.

Lemma overall_score_range (recommendations : list pydict) :
  recommendations <> [] ->
  Forall scored recommendations ->
  exists m, _calculate_overall_authenticity_score recommendations = Ok m /\
            (5#10 <= m <= 1)%Q.
Proof.
  intros Hne Hall.
  unfold _calculate_overall_authenticity_score.
  destruct recommendations as [| r0 rest] eqn:Hrecs; [congruence |].
  rewrite <- Hrecs in *. clear Hne.
  assert (Hscores : exists scores,
             mapr (fun rec => as_num (Py.get rec "authenticity_score" (VNum 0)))
                  recommendations = Ok scores /\
             Forall (fun s => 5#10 <= s <= 1)%Q scores /\
             length scores = length recommendations).
  { clear Hrecs. induction Hall as [| r l (s & Hs & Hrange) _ (scores & Hmap & Hsc & Hlen)].
    - exists []. repeat split; constructor.
    - exists (s :: scores). simpl. unfold Py.get at 1. rewrite Hs. simpl.
      rewrite Hmap. simpl. repeat split; [constructor; assumption | congruence]. }
  destruct Hscores as (scores & Hmap & Hsc & Hlen).
  rewrite Hmap. simpl. eexists. split; [reflexivity |].
  destruct (sum_bounds (5#10) scores 0 Hsc) as [Hlo Hhi].
  rewrite Hlen in Hlo, Hhi.
  assert (Hpos : (0 < inject_Z (Z.of_nat (length recommendations)))%Q).
  { rewrite Hrecs. simpl length. rewrite Nat2Z.inj_succ.
    change 0%Q with (inject_Z 0). rewrite <- Zlt_Qlt. lia. }
  split.
  - apply Qle_shift_div_l; [exact Hpos | lra].
  - apply Qle_shift_div_r; [exact Hpos | lra].
Qed.

Lemma prioritize_scored (recommendations out : list pydict) :
  _prioritize_authentic_experiences recommendations = Ok out ->
  Forall scored out /\ length out = length recommendations.
Proof.
  unfold _prioritize_authentic_experiences. intros Hout.
  apply bindr_Ok in Hout. destruct Hout as (assigned & Hassigned & Hout).
  destruct (Py.pairwise key_comparable (map authenticity_key assigned)); [| discriminate].
  inversion Hout; subst; clear Hout.
  apply mapr_Forall2 in Hassigned.
  split.
  - apply sort_desc_Forall.
    induction Hassigned as [| rec r recs rs Hr _ IH]; constructor; [| exact IH].
    apply assign_authenticity_scored in Hr. tauto.
  - rewrite (Permutation_length (sort_desc_Permutation _ assigned)).
    symmetry. eapply Forall2_length. exact Hassigned.
Qed.

(** The step returns on every list whose records have a neighborhood
    that can be looked up and a numeric relevance. *)
Lemma prioritize_returns (recommendations : list pydict) :
  Forall (fun rec =>
            Py.hashable (Py.get rec "neighborhood" VNone) = true /\
            exists q, Py.num (Py.get rec "cultural_relevance" (VNum 0)) = Some q)
         recommendations ->
  exists out, _prioritize_authentic_experiences recommendations = Ok out.
Proof.
  intros Hall. unfold _prioritize_authentic_experiences.
  destruct (mapr_total assign_authenticity recommendations) as [assigned Hassigned].
  { eapply Forall_impl; [exact Hall |]. intros rec [Hhash _].
    destruct (authenticity_score_total rec Hhash) as [s Hs].
    unfold assign_authenticity. rewrite Hs. simpl. eexists; reflexivity. }
  rewrite Hassigned. simpl.
  assert (Hkeys : Forall (fun key => exists a b, Py.num (fst key) = Some a /\
                                                 Py.num (snd key) = Some b)
                         (map authenticity_key assigned)).
  { apply mapr_Forall2 in Hassigned. clear -Hall Hassigned.
    induction Hassigned as [| rec r recs rs Hr _ IH]; simpl; [constructor |].
    inversion Hall as [| ? ? [_ [q Hq]] Hall']; subst.
    constructor; [| apply IH; exact Hall'].
    apply assign_authenticity_scored in Hr. destruct Hr as [(s & Hs & _) Hkeep].
    unfold authenticity_key, Py.get. rewrite Hs.
    rewrite (Hkeep "cultural_relevance") by discriminate.
    exists s, q. split; [reflexivity | exact Hq]. }
  assert (Hpair : Py.pairwise key_comparable (map authenticity_key assigned) = true).
  { induction Hkeys as [| key keys (a & b & Ha & Hb) Hkeys IH]; simpl; [reflexivity |].
    rewrite IH, andb_true_r. apply forallb_forall. intros key' Hin.
    apply list_elem_of_In in Hin.
    rewrite Forall_forall in Hkeys. destruct (Hkeys _ Hin) as (a' & b' & Ha' & Hb').
    unfold key_comparable, Py.comparable.
    rewrite Ha, Ha', Hb, Hb'. rewrite !orb_true_r. reflexivity. }
  rewrite Hpair. eexists; reflexivity.
Qed.

End Facts.

(** C10.  When the prioritization step returns, it has handled every
    record of its input, and every record it returns carries an
    [authenticity_score] between 0.5 and 1.0; so, for a non-empty list,
    the overall score computed on the normal path (the mean over the
    enriched list) is at least 0.5, and at most 1.0. *)
Theorem prioritized_scores_at_least_half `{PyRuntime}
    (recommendations out : list pydict) :
  _prioritize_authentic_experiences recommendations = Ok out ->
  length out = length recommendations /\
  Forall
    (fun r => exists s : Q,
         r !! "authenticity_score" = Some (VNum s) /\ (5#10 <= s <= 1)%Q)
    out /\
  (out <> [] ->
   exists m : Q,
     _calculate_overall_authenticity_score (_add_neighborhood_insights out) = Ok m /\
     (5#10 <= m <= 1)%Q).
Proof.
  intros Hout. destruct (prioritize_scored _ _ Hout) as [Hscored Hlen].
  split; [exact Hlen | split; [exact Hscored |]].
  intros Hne. apply overall_score_range.
  - unfold _add_neighborhood_insights. destruct out; [congruence | discriminate].
  - unfold _add_neighborhood_insights. apply Forall_map.
    eapply Forall_impl; [exact Hscored |].
    intros r (s & Hs & Hrange). exists s. split; [| exact Hrange].
    simpl. rewrite add_insights_keeps_score. exact Hs.
Qed.

#[local] Existing Instance Deployment.example_runtime.

Lemma prioritized_scores_at_least_half_witness :
  exists out,
    _prioritize_authentic_experiences SearchService.fallback_places = Ok out /\
    length out = length SearchService.fallback_places /\
    Forall
      (fun r => exists s : Q,
           r !! "authenticity_score" = Some (VNum s) /\ (5#10 <= s <= 1)%Q)
      out /\
    (out <> [] ->
     exists m : Q,
       _calculate_overall_authenticity_score (_add_neighborhood_insights out) = Ok m /\
       (5#10 <= m <= 1)%Q).
Proof.
  destruct (prioritize_returns SearchService.fallback_places) as [out Hout].
  { repeat constructor; eexists; reflexivity. }
  exists out. split; [exact Hout |].
  apply (prioritized_scores_at_least_half SearchService.fallback_places out Hout).
Defined.

End AuthenticityFacts.

(** ** The orchestrator: the personalization filter *)

Module PersonalizationFacts.
Import PyOps LocalGuideSystem AuthenticityFacts.

Lemma lower_ascii_lowercase (c : ascii) :
  (97 <= N_of_ascii c <= 122)%N -> Py.lower_ascii c = c.
Proof.
  intros [Hlo Hhi]. unfold Py.lower_ascii.
  destruct (N.leb_spec 65 (N_of_ascii c)); simpl; [| reflexivity].
  destruct (N.leb_spec (N_of_ascii c) 90); [lia | reflexivity].
Qed.

Lemma prefix_lower (sub s : string) :
  String.prefix sub s = true ->
  String.prefix (Py.lower sub) (Py.lower s) = true.
Proof.
  revert s. induction sub as [| a sub IH]; intros s; destruct s as [| b s]; simpl;
    try reflexivity; try discriminate.
  destruct (Ascii.ascii_dec a b) as [-> | Hne]; [| discriminate].
  intros Hpre. destruct (Ascii.ascii_dec (Py.lower_ascii b) (Py.lower_ascii b));
    [apply IH; exact Hpre | congruence].
Qed.

(** A text that contains a word contains it, lowered, after [lower()]. *)
Lemma isin_lower (sub s : string) :
  Py.isin sub s = true -> Py.isin (Py.lower sub) (Py.lower s) = true.
Proof.
  induction s as [| c s IH]; simpl.
  - rewrite !orb_false_r. apply (prefix_lower sub EmptyString).
  - intros Hin. apply orb_true_iff in Hin. apply orb_true_iff.
    destruct Hin as [Hpre | Hin]; [left | right; apply IH; exact Hin].
    apply (prefix_lower sub (String c s)). exact Hpre.
Qed.

Section Facts.
Context `{PyRuntime}.

Lemma insert_score_same (r r' : pydict) (a b : pyval) :
  <["personalization_score" := a]> r = <["personalization_score" := b]> r' ->
  same_but_score r r'.
Proof.
  intros Heq k Hk.
  rewrite <- (lookup_insert_ne r "personalization_score" k a) by congruence.
  rewrite Heq. apply lookup_insert_ne. congruence.
Qed.

Lemma get_same (r r' : pydict) (k : string) (default : pyval) :
  same_but_score r r' -> k <> "personalization_score" ->
  Py.get r k default = Py.get r' k default.
Proof. intros Hsame Hk. unfold Py.get. rewrite (Hsame k Hk). reflexivity. Qed.

Lemma combined_text_same (r r' : pydict) :
  same_but_score r r' -> combined_text r = combined_text r'.
Proof.
  intros Hsame. unfold combined_text, text_field, cultural_tags_str.
  rewrite !(get_same r r' _ _ Hsame) by discriminate. reflexivity.
Qed.

Lemma is_restaurant_same (r r' : pydict) :
  same_but_score r r' -> is_restaurant r = is_restaurant r'.
Proof.
  intros Hsame. unfold is_restaurant.
  rewrite !(get_same r r' _ _ Hsame) by discriminate. reflexivity.
Qed.

Lemma violates_same (r r' : pydict) (restrictions : pyval) :
  same_but_score r r' ->
  _violates_food_restrictions r restrictions = _violates_food_restrictions r' restrictions.
Proof.
  intros Hsame. unfold _violates_food_restrictions.
  rewrite (combined_text_same r r' Hsame). reflexivity.
Qed.

Lemma violates_any_vegetarian (rec_text : string) (restrictions : list pyval) (b : bool) :
  Py.isin "pork" rec_text = true ->
  In (VStr "vegetarian") restrictions ->
  violates_any rec_text restrictions = Ok b ->
  b = true.
Proof.
  intros Hpork. induction restrictions as [| restriction rest IH];
    cbn [In violates_any]; [tauto |].
  intros [-> | Hin] Hrun.
  - cbn [method_lower bindr] in Hrun.
    change (Py.assoc (Py.lower "vegetarian") restriction_keywords)
      with (Some ["meat"; "beef"; "pork"; "chicken"; "fish"; "seafood"; "bbq"]) in Hrun.
    cbv beta iota in Hrun.
    assert (Hany : Py.any_in ["meat"; "beef"; "pork"; "chicken"; "fish"; "seafood"; "bbq"]
                             rec_text = true).
    { unfold Py.any_in. apply existsb_exists. exists "pork".
      split; [simpl; tauto | exact Hpork]. }
    rewrite Hany in Hrun. congruence.
  - apply bindr_Ok in Hrun. destruct Hrun as (r & _ & Hrun).
    destruct (Py.assoc r restriction_keywords) as [keywords |]; [| auto].
    destruct (Py.any_in keywords rec_text); [congruence | auto].
Qed.

(** The filter drops a restaurant whose text has "pork" when
    "vegetarian" is among the restrictions. *)
Lemma violates_pork (rec : pydict) (restrictions : list pyval) (b : bool) :
  Py.isin "pork" (combined_text rec) = true ->
  In (VStr "vegetarian") restrictions ->
  _violates_food_restrictions rec (VList restrictions) = Ok b ->
  b = true.
Proof.
  intros Hpork Hin. unfold _violates_food_restrictions.
  destruct restrictions as [| r0 rest] eqn:Hrs; [destruct Hin |].
  rewrite <- Hrs in *.
  replace (Py.truthy (VList restrictions)) with true by (rewrite Hrs; reflexivity).
  simpl. eapply violates_any_vegetarian; [| exact Hin].
  apply (isin_lower "pork"). exact Hpork.
Qed.

(** What the loop lets through. *)
Lemma filter_loop_kept recommendations user_interests visited_places food_restrictions
    cultural_preferences (out : list pydict) :
  filter_loop recommendations user_interests visited_places food_restrictions
              cultural_preferences = Ok out ->
  Forall
    (fun r =>
       exists rec score,
         In rec recommendations /\
         r = <["personalization_score" := VNum score]> rec /\
         (is_restaurant rec = Ok true ->
          _violates_food_restrictions rec food_restrictions = Ok false))
    out.
Proof.
  revert out. induction recommendations as [| rec rest IH]; intros out; simpl.
  - intros Heq. inversion Heq. constructor.
  - assert (Hrest : forall out',
               filter_loop rest user_interests visited_places food_restrictions
                           cultural_preferences = Ok out' ->
               Forall
                 (fun r =>
                    exists rec0 score,
                      (rec = rec0 \/ In rec0 rest) /\
                      r = <["personalization_score" := VNum score]> rec0 /\
                      (is_restaurant rec0 = Ok true ->
                       _violates_food_restrictions rec0 food_restrictions = Ok false))
                 out').
    { intros out' Hout'. eapply Forall_impl; [apply IH; exact Hout' |].
      intros r (rec0 & score & Hin & Hr & Hok). exists rec0, score. tauto. }
    intros Hrun.
    apply bindr_Ok in Hrun. destruct Hrun as (visited & _ & Hrun).
    destruct visited; [apply Hrest; exact Hrun |].
    apply bindr_Ok in Hrun. destruct Hrun as (restaurant & Hrestaurant & Hrun).
    apply bindr_Ok in Hrun. destruct Hrun as (violates & Hviolates & Hrun).
    destruct violates; [apply Hrest; exact Hrun |].
    apply bindr_Ok in Hrun. destruct Hrun as (score & _ & Hrun).
    apply bindr_Ok in Hrun. destruct Hrun as (filtered & Hfiltered & Hrun).
    injection Hrun as <-.
    constructor; [| apply Hrest; exact Hfiltered].
    exists rec, score. split; [left; reflexivity | split; [reflexivity |]].
    intros Hyes. rewrite Hyes in Hrestaurant. injection Hrestaurant as <-.
    exact Hviolates.
Qed.

End Facts.


#[local] Existing Instance Deployment.example_runtime.


(** The filter reads the name under the key [Name] only.  A record of
    the place-search adapter keeps its name under [name]; when "pork"
    occurs there and nowhere else, the combined text does not contain
    it and the record is kept. *)
Example name_of_a_place_is_not_read :
  Py.isin "pork" (Py.lower (combined_text Deployment.pork_in_name_only)) = false /\
  exists out,
    _apply_personalization_filtering [Deployment.pork_in_name_only]
                                     Deployment.vegetarian_context = Ok out /\
    map Deployment.rec_name out = [VStr "Pork Belly House"].
Proof.
  split; [vm_compute; reflexivity |].
  eexists. split; [reflexivity |]. vm_compute. reflexivity.
Qed.

End PersonalizationFacts.

(** ** The orchestrator: the merge step *)

Module MergeFacts.
Import PyOps LocalGuideSystem.

Section Facts.
Context `{PyRuntime} {E : Type}.
Variable self : Services E.

Lemma available_Some {S} (svc : option S) (is_available : S -> World E -> bool)
    (s : S) (w : World E) :
  svc = Some s -> is_available s w = true ->
  available svc is_available w = (Ok (Some s), w).
Proof. intros -> Hav. unfold available. rewrite Hav. reflexivity. Qed.

Lemma gather_Ok (all_recommendations : list pydict) (recs : M E (list pyval))
    (source kind : string) (keep : list pydict -> list pydict) (warning : string)
    (w w1 : World E) (rs : list pyval) (tagged : list pydict) :
  recs w = (Ok rs, w1) ->
  mapr (tag source kind) rs = Ok tagged ->
  gather all_recommendations recs source kind keep warning w =
    (Ok (all_recommendations ++ keep tagged)%list, w1).
Proof.
  intros Hrecs Htag. unfold gather, try_except, bind, lift_result, ret.
  rewrite Hrecs, Htag. reflexivity.
Qed.

End Facts.

(** C3, as the code has it.  When the three adapters answer, the merged
    list is the cultural records, then the first six place records,
    then the first four neighborhood records, each tagged with its
    source, one after the other: a plain concatenation.  Nothing is
    removed, so records that share a name all stay. *)
Theorem merge_is_concatenation `{PyRuntime} {E : Type} (self : Services E)
    (ce : CulturalDiscoveryEngine E) (ss : SearchService E)
    (user_query : string) (intent_analysis : pydict) (location : option (Q * Q))
    (w w1 w2 w3 : World E)
    (cultural_recs place_recs neighborhood_recs : list pyval)
    (cultural place neighborhood : list pydict) :
  cultural_engine self = Some ce ->
  ce_is_available ce w = true ->
  find_similar_korean_experiences ce user_query "all" 8 w = (Ok cultural_recs, w1) ->
  mapr (tag "cultural_discovery" "cultural_experience") cultural_recs = Ok cultural ->
  search_service self = Some ss ->
  ss_is_available ss w1 = true ->
  search_places ss user_query
    (Some (match location with Some l => l | None => (375665#10000, 1269780#10000)%Q end))
    None w1 = (Ok place_recs, w2) ->
  mapr (tag "search_service" "place") place_recs = Ok place ->
  Py.truthy (Py.get intent_analysis "neighborhood_focus" VNone) = true ->
  search_by_neighborhood ss (Py.get intent_analysis "neighborhood_focus" VNone) None w2
    = (Ok neighborhood_recs, w3) ->
  mapr (tag "neighborhood_search" "neighborhood_place") neighborhood_recs = Ok neighborhood ->
  _coordinate_recommendation_services self user_query intent_analysis ∅ location w =
    (Ok (cultural ++ Py.slice_to place 6 ++ Py.slice_to neighborhood 4)%list, w3).
Proof.
  intros Hce Hce_av Hcultural Hcultural_tag Hss Hss_av Hplace Hplace_tag
         Hfocus Hneighborhood Hneighborhood_tag.
  unfold _coordinate_recommendation_services.
  unfold bind at 1. rewrite (available_Some _ _ ce w Hce Hce_av).
  unfold bind at 1.
  rewrite (gather_Ok [] _ _ _ _ _ w w1 cultural_recs cultural Hcultural Hcultural_tag).
  unfold bind at 1. rewrite (available_Some _ _ ss w1 Hss Hss_av).
  unfold bind at 1.
  rewrite (gather_Ok _ _ _ _ _ _ w1 w2 place_recs place Hplace Hplace_tag).
  unfold bind at 1. rewrite Hss, Hfocus.
  rewrite (gather_Ok _ _ _ _ _ _ w2 w3 neighborhood_recs neighborhood
                     Hneighborhood Hneighborhood_tag).
  change (Py.truthy (VDict ∅)) with false. cbv iota. unfold ret.
  rewrite app_nil_l, <- app_assoc. reflexivity.
Qed.

#[local] Existing Instance Deployment.example_runtime.

Lemma merge_is_concatenation_witness :
  exists (ce : CulturalDiscoveryEngine unit) (ss : SearchService unit)
         (cultural place neighborhood : list pydict),
    let user_query := "Where should I eat in Hongdae?" in
    let intent_analysis := _fallback_intent_analysis user_query in
    let w := MkWorld 0 [] tt in
    cultural_engine Deployment.canned_services = Some ce /\
    ce_is_available ce w = true /\
    find_similar_korean_experiences ce user_query "all" 8 w
      = (Ok Deployment.canned_cultural, w) /\
    mapr (tag "cultural_discovery" "cultural_experience") Deployment.canned_cultural
      = Ok cultural /\
    search_service Deployment.canned_services = Some ss /\
    ss_is_available ss w = true /\
    search_places ss user_query (Some (375665#10000, 1269780#10000)%Q) None w
      = (Ok Deployment.canned_places, w) /\
    mapr (tag "search_service" "place") Deployment.canned_places = Ok place /\
    Py.truthy (Py.get intent_analysis "neighborhood_focus" VNone) = true /\
    search_by_neighborhood ss (Py.get intent_analysis "neighborhood_focus" VNone) None w
      = (Ok Deployment.canned_neighborhood, w) /\
    mapr (tag "neighborhood_search" "neighborhood_place") Deployment.canned_neighborhood
      = Ok neighborhood /\
    _coordinate_recommendation_services Deployment.canned_services user_query
      intent_analysis ∅ None w =
      (Ok (cultural ++ Py.slice_to place 6 ++ Py.slice_to neighborhood 4)%list, w).
Proof.
  eexists _, _, _, _, _. cbv zeta.
  do 11 (split; [reflexivity |]).
  eapply (merge_is_concatenation Deployment.canned_services); reflexivity.
Defined.

(** C3 as stated fails.  With the place-search adapter on its fallback
    data, the question "Where should I eat in Hongdae?" makes the
    orchestrator call it twice (place search and neighborhood search);
    both calls return the same fallback places, and the merged list
    holds "Myeongdong Street Food Market" and three other names twice. *)
Lemma merged_list_keeps_duplicate_names :
  exists merged w',
    _coordinate_recommendation_services Deployment.search_only
      "Where should I eat in Hongdae?"
      (_fallback_intent_analysis "Where should I eat in Hongdae?") ∅ None
      (Deployment.start 0) = (Ok merged, w') /\
    ~ NoDup (map Deployment.rec_name merged).
Proof.
  pose (run := _coordinate_recommendation_services Deployment.search_only
                 "Where should I eat in Hongdae?"
                 (_fallback_intent_analysis "Where should I eat in Hongdae?") ∅ None
                 (Deployment.start 0)).
  assert (Hobs :
    match run with
    | (Ok merged, _) => map Deployment.rec_name merged
    | (Raise _, _) => []
    end =
    [VStr "Myeongdong Street Food Market"; VStr "Authentic Korean BBQ House";
     VStr "Traditional Kimchi House"; VStr "Hongdae Playground";
     VStr "Gangnam Style District"; VStr "Myeongdong Street Food Market";
     VStr "Authentic Korean BBQ House"; VStr "Traditional Kimchi House";
     VStr "Hongdae Playground"]) by (vm_compute; reflexivity).
  fold run. destruct run as [[merged | e] w']; [| discriminate Hobs].
  exists merged, w'. split; [reflexivity |].
  rewrite Hobs. intros Hnodup.
  inversion Hnodup as [| name names Hfresh _]; subst.
  apply Hfresh. do 4 right. left.
Qed.

End MergeFacts.


(** ** The circuit breaker over its life, retries, and [_make_request] *)

Module ResilienceFacts.
Import Comp BaseService BreakerFacts.

Section Facts.
Context {E : Type}.

(** A call that returns, or that raises anything but the rejection of
    an open breaker, has run the function on the world it was given. *)
Lemma call_outcome {A} (func : M E A) cb w :
  call func (cb, w) = (Raise unavailable, (cb, w)) \/
  exists cb',
    call func (cb, w) = (fst (func w), (cb', snd (func w))).
Proof.
  unfold call, _should_attempt_reset, _on_success, _on_failure, try_except,
    bind, self, update, on_world, ret, raise, time_time.
  destruct cb as [th rt n last st]; simpl.
  assert (Hrun : forall st0,
    exists cb',
      match
        (let (r, w') := func w in (r, (MkCircuitBreaker th rt n last st0, w')))
      with
      | (Ok a, s') => (Ok a, (MkCircuitBreaker th rt 0 last CLOSED, snd s'))
      | (Raise e, s') =>
          (if (th <=? n + 1)%Z
           then (Raise e, (MkCircuitBreaker th rt (n + 1) (Some (clock (snd s'))) OPEN,
                           snd s'))
           else (Raise e, (MkCircuitBreaker th rt (n + 1) (Some (clock (snd s'))) st0,
                           snd s')))
      end = (fst (func w), (cb', snd (func w)))).
  { intros st0. destruct (func w) as [[a | e] w1]; simpl.
    - eexists; reflexivity.
    - destruct (th <=? n + 1)%Z; eexists; reflexivity. }
  destruct st; simpl.
  - right. destruct (Hrun CLOSED) as [cb' Hcb]. exists cb'. rewrite <- Hcb.
    destruct (func w) as [[a | e] w1]; simpl; [reflexivity |].
    destruct (th <=? n + 1)%Z; reflexivity.
  - destruct last as [t |]; simpl; [| left; reflexivity].
    destruct (Qeq_bool t 0); simpl; [left; reflexivity |].
    destruct (Qle_bool rt (clock w - t)); simpl; [| left; reflexivity].
    right. destruct (Hrun HALF_OPEN) as [cb' Hcb]. exists cb'. rewrite <- Hcb.
    destruct (func w) as [[a | e] w1]; simpl; [reflexivity |].
    destruct (th <=? n + 1)%Z; reflexivity.
  - right. destruct (Hrun HALF_OPEN) as [cb' Hcb]. exists cb'. rewrite <- Hcb.
    destruct (func w) as [[a | e] w1]; simpl; [reflexivity |].
    destruct (th <=? n + 1)%Z; reflexivity.
Qed.

Lemma inv_after_success cb :
  (0 < failure_threshold cb)%Z ->
  breaker_inv (set_state CLOSED (set_failure_count 0 cb)).
Proof.
  intros Hpos. unfold breaker_inv; simpl.
  split; [lia |]. split; [discriminate |].
  split; [discriminate | lia].
Qed.

Lemma inv_after_failure cb t :
  (0 <= failure_count cb)%Z ->
  state cb <> OPEN ->
  (state cb = HALF_OPEN -> (failure_threshold cb <= failure_count cb + 1)%Z) ->
  let cb1 := set_last_failure_time t (set_failure_count (failure_count cb + 1) cb) in
  breaker_inv (if (failure_threshold cb <=? failure_count cb + 1)%Z
               then set_state OPEN cb1 else cb1).
Proof.
  intros Hnn Hst Hhalf cb1.
  destruct (failure_threshold cb <=? failure_count cb + 1)%Z eqn:Hth.
  - apply Z.leb_le in Hth. unfold breaker_inv; simpl.
    split; [lia |]. split; [discriminate |]. split; [intros _; exact Hth | reflexivity].
  - apply Z.leb_gt in Hth. unfold breaker_inv; simpl.
    split; [lia |]. split; [intros Hh; apply Hhalf in Hh; lia |].
    split; [intros Ho; contradiction | lia].
Qed.

Lemma call_keeps_inv {A} (func : M E A) cb w :
  breaker_inv cb ->
  (0 < failure_threshold cb)%Z ->
  let cb' := fst (snd (call func (cb, w))) in
  breaker_inv cb' /\
  failure_threshold cb' = failure_threshold cb /\
  recovery_timeout cb' = recovery_timeout cb.
Proof.
  intros Hinv Hpos.
  assert (Hlet : forall cb0,
    state cb0 <> OPEN ->
    (0 <= failure_count cb0)%Z ->
    (0 < failure_threshold cb0)%Z ->
    (state cb0 = HALF_OPEN -> (failure_threshold cb0 <= failure_count cb0 + 1)%Z) ->
    let cb' := fst (snd (call func (cb0, w))) in
    breaker_inv cb' /\
    failure_threshold cb' = failure_threshold cb0 /\
    recovery_timeout cb' = recovery_timeout cb0).
  { intros cb0 Hst Hnn Hpos0 Hhalf. cbv zeta.
    rewrite call_invokes by exact Hst.
    destruct (func w) as [[r | e] w1]; cbn [fst snd].
    - split; [apply inv_after_success; exact Hpos0 | split; reflexivity].
    - cbv zeta. split; [apply inv_after_failure; assumption |].
      destruct (failure_threshold cb0 <=? failure_count cb0 + 1)%Z; split; reflexivity. }
  destruct Hinv as (Hnn & Hhalf & Hopen).
  destruct (state cb) eqn:Hst; [| | congruence].
  - apply Hlet; [congruence | exact Hnn | exact Hpos | intros; congruence].
  - (* open: rejected, or probed in HALF_OPEN *)
    assert (Hge : (failure_threshold cb <= failure_count cb)%Z) by (apply Hopen; reflexivity).
    destruct (last_failure_time cb) as [t |] eqn:Hlast.
    + destruct (Qeq_bool t 0) eqn:Hz.
      * cbv zeta.
        assert (Hcall : call func (cb, w) = (Raise unavailable, (cb, w))).
        { unfold call, _should_attempt_reset, try_except, bind, self, update,
            on_world, ret, raise, time_time.
          destruct cb as [th rt n last st]; simpl in *. subst st last. simpl.
          rewrite Hz. reflexivity. }
        rewrite Hcall. cbn [fst snd].
        split; [| split; reflexivity].
        unfold breaker_inv. rewrite Hst. repeat split; try lia; congruence.
      * destruct (Qle_bool (recovery_timeout cb) (clock w - t)) eqn:Hle.
        -- apply Qle_bool_iff in Hle.
           cbv zeta. rewrite (call_probes func cb w t Hst Hlast Hz Hle).
           destruct (Hlet (set_state HALF_OPEN cb)) as (Hi & Hth & Hrt);
             try (simpl; first [discriminate | lia | intros; lia]).
           exact (conj Hi (conj Hth Hrt)).
        -- cbv zeta.
           assert (Hearly : (clock w - t < recovery_timeout cb)%Q).
           { apply Qnot_le_lt. intros Hle'. apply Qle_bool_iff in Hle'. congruence. }
           rewrite (call_rejects func cb w t Hst Hlast Hearly). cbn [fst snd].
           split; [| split; reflexivity].
           unfold breaker_inv. rewrite Hst. repeat split; try lia; congruence.
    + cbv zeta.
      assert (Hcall : call func (cb, w) = (Raise unavailable, (cb, w))).
      { unfold call, _should_attempt_reset, try_except, bind, self, update,
          on_world, ret, raise, time_time.
        destruct cb as [th rt n last st]; simpl in *. subst st last. reflexivity. }
      rewrite Hcall. cbn [fst snd].
      split; [| split; reflexivity].
      unfold breaker_inv. rewrite Hst. repeat split; try lia; congruence.
Qed.

Lemma retry_attempts_again {A} (func : M E A) (fname : string) (max_retries : nat)
    (base_delay backoff_factor : Q) (attempt : nat) (rest : list nat)
    (last_exception : option exn) (w w1 : World E) (e : exn) :
  func w = (Raise e, w1) ->
  attempt <> max_retries ->
  retry_attempts fname func max_retries base_delay backoff_factor
                 (attempt :: rest) last_exception w =
  retry_attempts fname func max_retries base_delay backoff_factor rest (Some e)
    (MkWorld (clock w1 + base_delay * backoff_factor ^ Z.of_nat attempt)
       (logs w1 ++
        [Log WARNING
           "Attempt {attempt + 1} failed for {func.__name__}: {e}. Retrying in {delay}s..."
           [VNum (inject_Z (Z.of_nat attempt + 1)); VStr fname; VStr (exn_msg e);
            VNum (base_delay * backoff_factor ^ Z.of_nat attempt)]])
       (ext w1)).
Proof.
  intros Hfunc Hne. cbn [retry_attempts]. unfold try_except. rewrite Hfunc.
  apply Nat.eqb_neq in Hne. rewrite Hne. reflexivity.
Qed.

Lemma retry_attempts_last {A} (func : M E A) (fname : string) (max_retries : nat)
    (base_delay backoff_factor : Q) (rest : list nat)
    (last_exception : option exn) (w w1 : World E) (e : exn) :
  func w = (Raise e, w1) ->
  retry_attempts fname func max_retries base_delay backoff_factor
                 (max_retries :: rest) last_exception w =
  (Raise e,
   MkWorld (clock w1)
     (logs w1 ++
      [Log ERROR "Function {func.__name__} failed after {max_retries + 1} attempts: {e}"
         [VStr fname; VNum (inject_Z (Z.of_nat max_retries + 1)); VStr (exn_msg e)]])
     (ext w1)).
Proof.
  intros Hfunc. cbn [retry_attempts]. unfold try_except. rewrite Hfunc.
  rewrite Nat.eqb_refl. reflexivity.
Qed.

Lemma retry_attempts_exhaust {A} (func : M E A) (e : exn) (tick : E -> E)
    (fname : string) (max_retries : nat) (base_delay backoff_factor : Q) :
  (forall w0, func w0 = (Raise e, MkWorld (clock w0) (logs w0) (tick (ext w0)))) ->
  forall (n first : nat) (last_exception : option exn) (w : World E),
    (first + n)%nat = max_retries ->
    exists w',
      retry_attempts fname func max_retries base_delay backoff_factor
                     (seq first (S n)) last_exception w = (Raise e, w') /\
      (clock w' == clock w + backoff_total base_delay backoff_factor first n)%Q /\
      map log_level (logs w') =
        (map log_level (logs w) ++ repeat WARNING n ++ [ERROR])%list /\
      ext w' = Nat.iter (S n) tick (ext w).
Proof.
  intros Hfunc n. induction n as [| n IH]; intros first last_exception w Hsum.
  - assert (first = max_retries) as -> by lia.
    cbn [seq]. rewrite (retry_attempts_last _ _ _ _ _ _ _ _ _ _ (Hfunc w)).
    eexists. split; [reflexivity |]. cbn [clock logs ext backoff_total repeat].
    split; [ring |]. split; [| reflexivity].
    rewrite map_app. reflexivity.
  - change (seq first (S (S n))) with (first :: seq (S first) (S n)).
    rewrite (retry_attempts_again _ _ _ _ _ _ _ _ _ _ _ (Hfunc w)) by lia.
    cbn [clock logs ext].
    match goal with
    | |- context [retry_attempts _ _ _ _ _ _ ?le ?w0] =>
        destruct (IH (S first) le w0 ltac:(lia)) as (w' & Hrun & Hclock & Hlogs & Hext)
    end.
    exists w'. split; [exact Hrun |].
    cbn [clock logs ext] in Hclock, Hlogs, Hext.
    split; [| split].
    + rewrite Hclock. cbn [backoff_total]. ring.
    + rewrite Hlogs. rewrite map_app. cbn [map log_level repeat].
      rewrite <- app_assoc. reflexivity.
    + rewrite Hext. rewrite Nat.iter_swap. reflexivity.
Qed.

End Facts.

(** With a positive threshold, every call through the breaker, whatever
    the wrapped function does and whether the call is let through or
    rejected, keeps the invariant of the breaker: the counter is not
    negative, the state is CLOSED or OPEN, and it is OPEN exactly when
    the counter has reached the threshold.  The threshold and the
    timeout are never changed. *)
Theorem call_keeps_breaker_invariant {E A : Type} (func : M E A)
    (cb : CircuitBreaker) (w : World E) :
  breaker_inv cb ->
  (0 < failure_threshold cb)%Z ->
  breaker_inv (fst (snd (call func (cb, w)))) /\
  failure_threshold (fst (snd (call func (cb, w)))) = failure_threshold cb /\
  recovery_timeout (fst (snd (call func (cb, w)))) = recovery_timeout cb.
Proof. intros Hinv Hpos. exact (call_keeps_inv func cb w Hinv Hpos). Qed.

Lemma call_keeps_breaker_invariant_witness :
  let cb := MkCircuitBreaker 5 60 4 (Some 100%Q) CLOSED in
  let w : World unit := MkWorld 130 [] tt in
  let boom : M unit pyval := raise (Exn "Exception" "boom") in
  breaker_inv cb /\ (0 < failure_threshold cb)%Z /\
  (breaker_inv (fst (snd (call boom (cb, w)))) /\
   failure_threshold (fst (snd (call boom (cb, w)))) = failure_threshold cb /\
   recovery_timeout (fst (snd (call boom (cb, w)))) = recovery_timeout cb).
Proof.
  intros cb w boom.
  assert (Hinv : breaker_inv cb).
  { unfold breaker_inv, cb; simpl. split; [lia |]. split; [discriminate |].
    split; [discriminate | lia]. }
  assert (Hpos : (0 < failure_threshold cb)%Z) by (simpl; lia).
  split; [exact Hinv |]. split; [exact Hpos |].
  exact (call_keeps_breaker_invariant boom cb w Hinv Hpos).
Defined.

(** The probe of an open breaker.  Once [recovery_timeout] has elapsed
    since the last failure, the next call runs the wrapped function; if
    the function raises, its exception reaches the caller, the breaker
    is OPEN again with one more failure counted, and the timeout now
    runs from the time of this failure. *)
Theorem failed_probe_reopens_breaker {E A : Type} (func : M E A)
    (cb : CircuitBreaker) (w w' : World E) (e : exn) (t : Q) :
  breaker_inv cb ->
  state cb = OPEN ->
  last_failure_time cb = Some t ->
  Qeq_bool t 0 = false ->
  (recovery_timeout cb <= clock w - t)%Q ->
  func w = (Raise e, w') ->
  exists cb',
    call func (cb, w) = (Raise e, (cb', w')) /\
    state cb' = OPEN /\
    failure_count cb' = (failure_count cb + 1)%Z /\
    last_failure_time cb' = Some (clock w').
Proof.
  intros (Hnn & _ & Hopen) Hst Hlast Hnz Hlate Hfunc.
  assert (Hge : (failure_threshold cb <= failure_count cb)%Z) by (apply Hopen; exact Hst).
  rewrite (call_probes func cb w t Hst Hlast Hnz Hlate).
  rewrite call_invokes by (simpl; discriminate).
  rewrite Hfunc. cbv zeta.
  assert (Hth : (failure_threshold (set_state HALF_OPEN cb)
                 <=? failure_count (set_state HALF_OPEN cb) + 1)%Z = true)
    by (apply Z.leb_le; simpl; lia).
  rewrite Hth. eexists. split; [reflexivity |]. repeat split.
Qed.

Lemma failed_probe_reopens_breaker_witness :
  let cb := MkCircuitBreaker 5 60 5 (Some 100%Q) OPEN in
  let w : World unit := MkWorld 160 [] tt in
  let e := Exn "Exception" "boom" in
  breaker_inv cb /\ state cb = OPEN /\ last_failure_time cb = Some 100%Q /\
  Qeq_bool 100 0 = false /\ (recovery_timeout cb <= clock w - 100)%Q /\
  raise (A := pyval) e w = (Raise e, w) /\
  exists cb',
    call (raise (A := pyval) e) (cb, w) = (Raise e, (cb', w)) /\
    state cb' = OPEN /\
    failure_count cb' = (failure_count cb + 1)%Z /\
    last_failure_time cb' = Some (clock w).
Proof.
  intros cb w e.
  assert (Hinv : breaker_inv cb).
  { unfold breaker_inv, cb; simpl. split; [lia |]. split; [discriminate |].
    split; [lia | reflexivity]. }
  assert (Hlate : (recovery_timeout cb <= clock w - 100)%Q)
    by (unfold Qle; simpl; lia).
  split; [exact Hinv |]. do 3 (split; [reflexivity |]).
  split; [exact Hlate |]. split; [reflexivity |].
  exact (failed_probe_reopens_breaker (raise e) cb w w e 100 Hinv eq_refl eq_refl eq_refl
           Hlate eq_refl).
Defined.




End ResilienceFacts.


(** ** The place-search adapter without a client *)

Module FallbackSearchFacts.
Import Comp BaseService SearchService BreakerFacts SearchFacts.

Section Facts.
Context `{PyRuntime} {E : Type}.
Variable enrich : pyval -> M E (list pyval).

Lemma fallback_results_value (w : World E) :
  exists w',
    _get_fallback_search_results "korean places" None w
      = (Ok handled_fallback_places, w') /\
    clock w' = clock w /\ ext w' = ext w /\ logs_extend w w'.
Proof.
  unfold handled_fallback_places, _get_fallback_search_results, bind, log, ret.
  eexists. split; [reflexivity |]. cbn [clock logs ext].
  split; [reflexivity |]. split; [reflexivity |]. eexists. reflexivity.
Qed.

Lemma handled_fallback_truthy :
  Py.truthy (VList (map VDict handled_fallback_places)) = true.
Proof. vm_compute. reflexivity. Qed.

(** The request of a service whose client is [None]: three attempts,
    two sleeps of 0.1 s and 0.2 s. *)
Lemma api_request_run (search_params : pydict) (w : World E) :
  exists w1,
    _api_request search_params w = (Raise (Exn "ValueError" "Algolia client not available - using fallback"), w1) /\
    (clock w1 == clock w + (3#10))%Q /\ ext w1 = ext w /\ logs_extend w w1.
Proof.
  unfold _api_request, retry_with_backoff.
  change (seq 0 (2 + 1)) with [0; 1; 2]%nat.
  cbn [retry_attempts Nat.eqb].
  unfold try_except, raise, bind, log, time_sleep.
  cbn [logs clock ext].
  eexists. split; [reflexivity |]. cbn [logs clock ext].
  split; [| split; [reflexivity |]].
  - change ((1 # 10) * 2 ^ Z.of_nat 0)%Q with ((1 # 10) * 1)%Q.
    change ((1 # 10) * 2 ^ Z.of_nat 1)%Q with ((1 # 10) * 2)%Q.
    ring.
  - eexists. rewrite <- !app_assoc. reflexivity.
Qed.

(** From the call through the breaker to the answer of a search. *)
Lemma search_tail (search_params : pydict) (fallback : M E (list pydict))
    (done_template : string) (done_args : Q -> list pyval)
    (handler : exn -> MB E (list pyval))
    cb (w0 : World E) e cb1 w1 :
  call (_api_request search_params) (cb, w0) = (Raise e, (cb1, w1)) ->
  exists w',
    try_except
      (let* start_time := on_world time_time in
       let* data := _make_request service_name _handle_fallback
                                  (_api_request search_params) in
       on_world (answer_of enrich data fallback done_template done_args start_time))
      handler (cb, w0)
    = (Ok (map VDict handled_fallback_places), (cb1, w')) /\
    clock w' = clock w1 /\ ext w' = ext w1 /\ logs_extend w1 w'.
Proof.
  intros Hcall.
  unfold try_except at 1. unfold bind at 1. unfold on_world at 1, time_time at 1.
  cbn [fst snd]. unfold bind at 1.
  unfold _make_request, try_except. rewrite Hcall.
  unfold bind at 1. unfold on_world at 1, log at 1. cbn [fst snd clock logs ext].
  unfold on_world at 1. cbn [fst snd].
  unfold _handle_fallback, bind at 1, log at 1. cbn [clock logs ext].
  unfold bind at 1.
  match goal with
  | |- context [_get_fallback_search_results "korean places" None ?w2] =>
      destruct (fallback_results_value w2) as (w3 & Hrun & Hclock & Hext & Hlogs);
      rewrite Hrun
  end.
  unfold ret at 1. cbn [fst snd].
  unfold on_world, answer_of. rewrite handled_fallback_truthy. cbn [negb].
  unfold ret. cbn [fst snd].
  exists w3. split; [reflexivity |].
  cbn [clock ext] in Hclock, Hext.
  split; [exact Hclock |]. split; [exact Hext |].
  eapply logs_extend_trans; [| exact Hlogs].
  eexists. cbn [logs]. rewrite <- app_assoc. reflexivity.
Qed.

Lemma search_places_after_call (query : string) (location : option (Q * Q))
    (place_type : option string) (radius : Q) cb (w : World E) :
  exists w0,
    clock w0 = clock w /\ ext w0 = ext w /\ logs_extend w w0 /\
    forall e cb1 w1,
      call (_api_request (search_params_of query location place_type radius)) (cb, w0)
        = (Raise e, (cb1, w1)) ->
      exists w',
        search_places enrich query location place_type radius (cb, w)
          = (Ok (map VDict handled_fallback_places), (cb1, w')) /\
        clock w' = clock w1 /\ ext w' = ext w1 /\ logs_extend w1 w'.
Proof.
  unfold search_places.
  destruct location as [[lat lng] |]; [destruct (outside_korea_bounds lat lng) |].
  - exists (MkWorld (clock w)
              (logs w ++ [Log WARNING "Location coordinates outside Korea bounds: {lat}, {lng}"
                              [VNum lat; VNum lng]])
              (ext w)).
    split; [reflexivity |]. split; [reflexivity |].
    split; [eexists; reflexivity |].
    intros e cb1 w1 Hcall. unfold bind at 1. unfold on_world at 1, log at 1.
    cbn [fst snd]. eapply search_tail. exact Hcall.
  - exists w. split; [reflexivity |]. split; [reflexivity |].
    split; [apply logs_extend_refl |].
    intros e cb1 w1 Hcall. unfold bind at 1. unfold ret at 1.
    eapply search_tail. exact Hcall.
  - exists w. split; [reflexivity |]. split; [reflexivity |].
    split; [apply logs_extend_refl |].
    intros e cb1 w1 Hcall. unfold bind at 1. unfold ret at 1.
    eapply search_tail. exact Hcall.
Qed.

Lemma search_by_neighborhood_after_call (neighborhood : string)
    (place_type : option string) cb (w : World E) :
  exists w0 search_params,
    clock w0 = clock w /\ ext w0 = ext w /\ logs_extend w w0 /\
    forall e cb1 w1,
      call (_api_request search_params) (cb, w0) = (Raise e, (cb1, w1)) ->
      exists w',
        search_by_neighborhood enrich neighborhood place_type (cb, w)
          = (Ok (map VDict handled_fallback_places), (cb1, w')) /\
        clock w' = clock w1 /\ ext w' = ext w1 /\ logs_extend w1 w'.
Proof.
  unfold search_by_neighborhood.
  destruct (Py.str_elem (Py.strip (Py.lower neighborhood)) valid_neighborhoods).
  - exists w. eexists. split; [reflexivity |]. split; [reflexivity |].
    split; [apply logs_extend_refl |].
    intros e cb1 w1 Hcall. unfold bind at 1. unfold ret at 1.
    eapply search_tail. exact Hcall.
  - exists (MkWorld (clock w)
              (logs w ++ [Log WARNING "Unknown neighborhood: {neighborhood}"
                              [VStr neighborhood]])
              (ext w)).
    eexists. split; [reflexivity |]. split; [reflexivity |].
    split; [eexists; reflexivity |].
    intros e cb1 w1 Hcall. unfold bind at 1. unfold bind at 1.
    unfold on_world at 1, log at 1. cbn [fst snd]. unfold ret at 1.
    eapply search_tail. exact Hcall.
Qed.

(** A search through a breaker that is not open: three attempts, 0.3 s
    of sleep, one failure counted. *)
Lemma call_api_request_invoked (search_params : pydict) cb (w0 : World E) :
  state cb <> OPEN ->
  exists cb1 w1,
    call (_api_request search_params) (cb, w0) = (Raise (Exn "ValueError" "Algolia client not available - using fallback"), (cb1, w1)) /\
    (clock w1 == clock w0 + (3#10))%Q /\ ext w1 = ext w0 /\ logs_extend w0 w1 /\
    failure_count cb1 = (failure_count cb + 1)%Z /\
    failure_threshold cb1 = failure_threshold cb /\
    recovery_timeout cb1 = recovery_timeout cb /\
    last_failure_time cb1 = Some (clock w1) /\
    state cb1 = if (failure_threshold cb <=? failure_count cb + 1)%Z
                then OPEN else state cb.
Proof.
  intros Hst.
  destruct (api_request_run search_params w0) as (w1 & Hreq & Hclock & Hext & Hlogs).
  rewrite call_invokes by exact Hst. rewrite Hreq. cbv zeta.
  eexists _, _. split; [reflexivity |].
  split; [exact Hclock |]. split; [exact Hext |]. split; [exact Hlogs |].
  destruct (failure_threshold cb <=? failure_count cb + 1)%Z; repeat split.
Qed.

Lemma call_api_request_raises (search_params : pydict) cb (w0 : World E) :
  exists e cb1 w1,
    call (_api_request search_params) (cb, w0) = (Raise e, (cb1, w1)).
Proof.
  destruct (api_request_raises search_params w0) as (e & w1 & Hreq & _).
  destruct (call_of_failing (_api_request search_params) cb w0 e w1 Hreq)
    as (e' & cb' & w2 & Hcall & _).
  eexists _, _, _. exact Hcall.
Qed.

Lemma search_places_closed (query : string) (location : option (Q * Q))
    (place_type : option string) (radius : Q) cb (w : World E) :
  state cb <> OPEN ->
  exists cb' w',
    search_places enrich query location place_type radius (cb, w)
      = (Ok (map VDict handled_fallback_places), (cb', w')) /\
    (clock w' == clock w + (3#10))%Q /\
    failure_count cb' = (failure_count cb + 1)%Z /\
    failure_threshold cb' = failure_threshold cb /\
    recovery_timeout cb' = recovery_timeout cb /\
    last_failure_time cb' = Some (clock w') /\
    state cb' = if (failure_threshold cb <=? failure_count cb + 1)%Z
                then OPEN else state cb.
Proof.
  intros Hst.
  destruct (search_places_after_call query location place_type radius cb w)
    as (w0 & Hclock0 & _ & _ & Hafter).
  destruct (call_api_request_invoked
              (search_params_of query location place_type radius) cb w0 Hst)
    as (cb1 & w1 & Hcall & Hclock1 & _ & _ & Hcount & Hth & Hrt & Hlast & Hstate).
  destruct (Hafter _ _ _ Hcall) as (w' & Hrun & Hclock & _ & _).
  exists cb1, w'. split; [exact Hrun |].
  split; [rewrite Hclock, Hclock1, Hclock0; reflexivity |].
  split; [exact Hcount |]. split; [exact Hth |]. split; [exact Hrt |].
  split; [rewrite Hclock; exact Hlast | exact Hstate].
Qed.

Lemma searches_count (queries : list string) :
  forall cb (w : World E),
    state cb = CLOSED ->
    (failure_count cb + Z.of_nat (length queries) <= failure_threshold cb)%Z ->
    let s := fold_left
               (fun s query => snd (search_places enrich query None None 10000 s))
               queries (cb, w) in
    failure_count (fst s) = (failure_count cb + Z.of_nat (length queries))%Z /\
    failure_threshold (fst s) = failure_threshold cb /\
    recovery_timeout (fst s) = recovery_timeout cb /\
    (clock (snd s) == clock w + (3#10) * inject_Z (Z.of_nat (length queries)))%Q /\
    state (fst s) =
      (if (failure_threshold cb <=? failure_count cb + Z.of_nat (length queries))%Z
       then match queries with [] => CLOSED | _ => OPEN end else CLOSED) /\
    (queries <> [] -> last_failure_time (fst s) = Some (clock (snd s))).
Proof.
  induction queries as [| query queries IH]; intros cb w Hst Hle; cbv zeta.
  - cbn [fold_left fst snd length Z.of_nat].
    rewrite Z.add_0_r. split; [reflexivity |]. split; [reflexivity |].
    split; [reflexivity |].
    split; [unfold inject_Z; ring |].
    split; [| congruence].
    rewrite Hst. destruct (failure_threshold cb <=? failure_count cb)%Z; reflexivity.
  - cbn [fold_left].
    destruct (search_places_closed query None None 10000 cb w ltac:(congruence))
      as (cb1 & w1 & Hrun & Hclock & Hcount & Hth & Hrt & Hlast & Hstate).
    rewrite Hrun. cbn [snd].
    cbn [length] in Hle. rewrite Nat2Z.inj_succ in Hle.
    destruct queries as [| query' queries].
    + cbn [fold_left fst snd length]. change (Z.of_nat 1) with 1%Z.
      split; [exact Hcount |]. split; [exact Hth |]. split; [exact Hrt |].
      split; [rewrite Hclock; unfold inject_Z; ring |].
      split; [| intros _; exact Hlast].
      rewrite Hstate, Hst.
      destruct (failure_threshold cb <=? failure_count cb + 1)%Z; reflexivity.
    + assert (Hlt : (failure_threshold cb <=? failure_count cb + 1)%Z = false).
      { apply Z.leb_gt. cbn [length] in Hle. lia. }
      rewrite Hlt, Hst in Hstate.
      destruct (IH cb1 w1 Hstate ltac:(rewrite Hcount, Hth; lia))
        as (Hcount' & Hth' & Hrt' & Hclock' & Hstate' & Hlast').
      cbv zeta in Hcount', Hth', Hrt', Hclock', Hstate', Hlast'.
      split; [rewrite Hcount', Hcount; cbn [length]; lia |].
      split; [congruence |]. split; [congruence |].
      split.
      { rewrite Hclock', Hclock.
        set (n := length (query' :: queries)).
        change (length (query :: query' :: queries)) with (S n).
        rewrite (Nat2Z.inj_succ n).
        unfold Z.succ. rewrite inject_Z_plus. ring. }
      split; [| intros _; apply Hlast'; discriminate].
      rewrite Hstate'. rewrite Hth, Hcount.
      replace (failure_count cb + 1 + Z.of_nat (length (query' :: queries)))%Z
        with (failure_count cb + Z.of_nat (length (query :: query' :: queries)))%Z
        by (cbn [length]; lia).
      reflexivity.
Qed.

End Facts.

(** As the adapter has no client, [search_places] answers every request
    with the list its [_handle_fallback] builds, the five fallback
    places that match "korean places": the query, the location, the
    place type, the radius and the state of the breaker have no effect
    on the places returned. *)
Theorem search_places_answers_with_handled_fallback `{PyRuntime} {E : Type}
    (enrich : pyval -> M E (list pyval)) :
  exists places : list pyval,
    length places = 5%nat /\
    (forall (error : exn) (w : World E),
        fst (SearchService._handle_fallback error w) = Ok (VList places)) /\
    forall (query : string) (location : option (Q * Q)) (place_type : option string)
           (radius : Q) (cb : CircuitBreaker) (w : World E),
      fst (search_places enrich query location place_type radius (cb, w)) = Ok places.
Proof.
  exists (map VDict handled_fallback_places).
  split; [vm_compute; reflexivity |]. split.
  - intros error w. unfold SearchService._handle_fallback, bind at 1, log at 1.
    cbn [clock logs ext]. unfold bind.
    match goal with
    | |- context [_get_fallback_search_results "korean places" None ?w2] =>
        destruct (fallback_results_value w2) as (w3 & Hrun & _); rewrite Hrun
    end.
    reflexivity.
  - intros query location place_type radius cb w.
    destruct (search_places_after_call enrich query location place_type radius cb w)
      as (w0 & _ & _ & _ & Hafter).
    destruct (call_api_request_raises
                (search_params_of query location place_type radius) cb w0)
      as (e & cb1 & w1 & Hcall).
    destruct (Hafter _ _ _ Hcall) as (w' & Hrun & _).
    rewrite Hrun. reflexivity.
Qed.

(** [search_by_neighborhood] answers with the same list, for every
    neighborhood, known or not, and every place type: without a client
    the places of the neighborhood asked for are never looked up. *)
Theorem neighborhood_search_answers_with_handled_fallback {E : Type}
    (enrich : pyval -> M E (list pyval)) :
  exists places : list pyval,
    (forall (error : exn) (w : World E),
        fst (SearchService._handle_fallback error w) = Ok (VList places)) /\
    forall (neighborhood : string) (place_type : option string)
           (cb : CircuitBreaker) (w : World E),
      fst (search_by_neighborhood enrich neighborhood place_type (cb, w)) = Ok places.
Proof.
  exists (map VDict handled_fallback_places). split.
  - intros error w. unfold SearchService._handle_fallback, bind at 1, log at 1.
    cbn [clock logs ext]. unfold bind.
    match goal with
    | |- context [_get_fallback_search_results "korean places" None ?w2] =>
        destruct (fallback_results_value w2) as (w3 & Hrun & _); rewrite Hrun
    end.
    reflexivity.
  - intros neighborhood place_type cb w.
    destruct (search_by_neighborhood_after_call enrich neighborhood place_type cb w)
      as (w0 & search_params & _ & _ & _ & Hafter).
    destruct (call_api_request_raises search_params cb w0) as (e & cb1 & w1 & Hcall).
    destruct (Hafter _ _ _ Hcall) as (w' & Hrun & _).
    rewrite Hrun. reflexivity.
Qed.

(** What a search costs.  Through a breaker that is not OPEN, every
    call of [search_places] spends 0.3 seconds asleep between its three
    attempts (0.1 s, then 0.2 s) and counts one failure on the
    breaker. *)
Theorem search_costs_backoff_and_a_failure `{PyRuntime} {E : Type}
    (enrich : pyval -> M E (list pyval))
    (query : string) (location : option (Q * Q)) (place_type : option string)
    (radius : Q) (cb : CircuitBreaker) (w : World E) :
  state cb <> OPEN ->
  exists places cb' w',
    search_places enrich query location place_type radius (cb, w)
      = (Ok places, (cb', w')) /\
    (clock w' == clock w + (3#10))%Q /\
    failure_count cb' = (failure_count cb + 1)%Z.
Proof.
  intros Hst.
  destruct (search_places_after_call enrich query location place_type radius cb w)
    as (w0 & Hclock0 & _ & _ & Hafter).
  destruct (call_api_request_invoked
              (search_params_of query location place_type radius) cb w0 Hst)
    as (cb2 & w2 & Hcall2 & Hclock2 & _ & _ & Hcount & _).
  destruct (call_api_request_raises
              (search_params_of query location place_type radius) cb w0)
    as (e & cb1 & w1 & Hcall).
  destruct (Hafter _ _ _ Hcall) as (w' & Hrun & Hclock & _).
  exists (map VDict handled_fallback_places), cb1, w'.
  split; [exact Hrun |].
  rewrite Hcall2 in Hcall. inversion Hcall; subst.
  split; [rewrite Hclock, Hclock2, Hclock0; reflexivity | exact Hcount].
Qed.

(** A search through a breaker that is OPEN and still inside its
    recovery window is answered at once: it spends no time asleep and
    leaves the breaker exactly as it was. *)
Theorem search_through_open_breaker_is_free `{PyRuntime} {E : Type}
    (enrich : pyval -> M E (list pyval))
    (query : string) (location : option (Q * Q)) (place_type : option string)
    (radius : Q) (cb : CircuitBreaker) (w : World E) (t : Q) :
  state cb = OPEN -> last_failure_time cb = Some t ->
  (clock w - t < recovery_timeout cb)%Q ->
  exists places w',
    search_places enrich query location place_type radius (cb, w)
      = (Ok places, (cb, w')) /\
    clock w' = clock w.
Proof.
  intros Hst Hlast Hearly.
  destruct (search_places_after_call enrich query location place_type radius cb w)
    as (w0 & Hclock0 & _ & _ & Hafter).
  destruct (call_api_request_raises
              (search_params_of query location place_type radius) cb w0)
    as (e & cb1 & w1 & Hcall).
  destruct (Hafter _ _ _ Hcall) as (w' & Hrun & Hclock & _).
  rewrite (call_rejects _ cb w0 t Hst Hlast) in Hcall
    by (rewrite Hclock0; exact Hearly).
  inversion Hcall; subst.
  exists (map VDict handled_fallback_places), w'.
  split; [exact Hrun | congruence].
Qed.

(** Five searches, whatever is asked, open the breaker of a newly
    built adapter: each of them counts as a failure.  They take 1.5
    seconds of back-off sleep together. *)
Theorem five_searches_open_the_breaker `{PyRuntime} {E : Type}
    (enrich : pyval -> M E (list pyval)) (queries : list string) (w : World E) :
  length queries = 5%nat ->
  let s := fold_left
             (fun s query => snd (search_places enrich query None None 10000 s))
             queries (CircuitBreaker_default, w) in
  state (fst s) = OPEN /\
  failure_count (fst s) = 5%Z /\
  is_available (fst s) = false /\
  (clock (snd s) == clock w + (15#10))%Q.
Proof.
  intros Hlen.
  destruct (searches_count enrich queries CircuitBreaker_default w eq_refl)
    as (Hcount & _ & _ & Hclock & Hstate & _).
  { rewrite Hlen. simpl. lia. }
  cbv zeta in Hcount, Hclock, Hstate |- *.
  set (s := fold_left _ queries _) in *. clearbody s.
  rewrite Hlen in Hcount, Hclock, Hstate.
  destruct queries as [| q qs]; [discriminate Hlen |].
  split; [exact Hstate |]. split; [exact Hcount |].
  split; [unfold is_available; rewrite Hstate; reflexivity |].
  rewrite Hclock. reflexivity.
Qed.

#[local] Existing Instance Deployment.example_runtime.

Lemma search_costs_backoff_and_a_failure_witness :
  state CircuitBreaker_default <> OPEN /\
  exists places cb' w',
    search_places Deployment.no_live_hits "bbq" None None 10000
      (CircuitBreaker_default, Deployment.start 0) = (Ok places, (cb', w')) /\
    (clock w' == clock (Deployment.start 0) + (3#10))%Q /\
    failure_count cb' = (failure_count CircuitBreaker_default + 1)%Z.
Proof.
  split; [discriminate |].
  apply (search_costs_backoff_and_a_failure Deployment.no_live_hits "bbq" None None
           10000 CircuitBreaker_default (Deployment.start 0)).
  discriminate.
Defined.

Lemma search_through_open_breaker_is_free_witness :
  let cb := MkCircuitBreaker 5 60 5 (Some 100%Q) OPEN in
  state cb = OPEN /\ last_failure_time cb = Some 100%Q /\
  (clock (Deployment.start 130) - 100 < recovery_timeout cb)%Q /\
  exists places w',
    search_places Deployment.no_live_hits "bbq" None None 10000
      (cb, Deployment.start 130) = (Ok places, (cb, w')) /\
    clock w' = clock (Deployment.start 130).
Proof.
  intros cb. split; [reflexivity |]. split; [reflexivity |].
  assert (Hearly : (clock (Deployment.start 130) - 100 < recovery_timeout cb)%Q)
    by reflexivity.
  split; [exact Hearly |].
  exact (search_through_open_breaker_is_free Deployment.no_live_hits "bbq" None None
           10000 cb (Deployment.start 130) 100 eq_refl eq_refl Hearly).
Defined.

Lemma five_searches_open_the_breaker_witness :
  let queries := ["bbq"; "tea"; "palace"; "market"; "club"] in
  let s := fold_left
             (fun s query =>
                snd (search_places Deployment.no_live_hits query None None 10000 s))
             queries (CircuitBreaker_default, Deployment.start 0) in
  length queries = 5%nat /\
  state (fst s) = OPEN /\
  failure_count (fst s) = 5%Z /\
  is_available (fst s) = false /\
  (clock (snd s) == clock (Deployment.start 0) + (15#10))%Q.
Proof.
  intros queries s. split; [reflexivity |].
  exact (five_searches_open_the_breaker Deployment.no_live_hits queries
           (Deployment.start 0) eq_refl).
Defined.

End FallbackSearchFacts.


(** ** The orchestrator: intent analysis and personalization context *)

Module IntentFacts.
Import Comp PyOps LocalGuideSystem.

Lemma omap_keys {B} (p : B -> bool) (l : list (string * B)) :
  omap (fun entry => if p (snd entry) then Some (fst entry) else None) l =
  map fst (filter (fun entry => p (snd entry) = true) l).
Proof.
  induction l as [| entry l IH]; [reflexivity |].
  cbn [omap list_omap]. rewrite filter_cons.
  destruct (decide (p (snd entry) = true)) as [Hp | Hp].
  - rewrite Hp. cbn. f_equal. exact IH.
  - destruct (p (snd entry)); [congruence | exact IH].
Qed.

Lemma theme_names_distinct : NoDup (map fst theme_keywords).
Proof. apply (@bool_decide_unpack (NoDup (map fst theme_keywords)) _). vm_compute. exact I. Qed.

Lemma detected_themes_matching (query : string) :
  let matching :=
    map fst (filter (fun entry => Py.any_in (snd entry) (Py.lower query) = true)
                    theme_keywords) in
  _detect_cultural_themes query =
    match matching with [] => ["general_culture"] | _ => matching end.
Proof.
  cbv zeta. unfold _detect_cultural_themes.
  rewrite (omap_keys (fun keywords => Py.any_in keywords (Py.lower query))).
  reflexivity.
Qed.

Lemma neighborhood_names :
  map fst neighborhood_insights =
  ["hongdae"; "myeongdong"; "itaewon"; "gangnam"; "jongno"; "insadong"].
Proof. reflexivity. Qed.

Lemma known_neighborhood (n : string) :
  In n (map fst neighborhood_insights) ->
  exists insights, Py.assoc n neighborhood_insights = Some insights.
Proof.
  rewrite neighborhood_names. cbn [In].
  intros [<- | [<- | [<- | [<- | [<- | [<- | []]]]]]]; eexists; reflexivity.
Qed.

Lemma alias_targets_known :
  Forall (fun entry => In (snd entry) (map fst neighborhood_insights))
         neighborhood_aliases.
Proof.
  rewrite neighborhood_names. unfold neighborhood_aliases.
  repeat (apply List.Forall_cons; [cbn [snd In]; auto 10 |]). apply List.Forall_nil.
Qed.

Section Facts.
Context `{PyRuntime} {E : Type}.
Variable self : Services E.

Lemma enhance_intent_lookup (intent_data : pyval) (user_query : string) (d : pydict) :
  enhance_intent intent_data user_query = Ok d ->
  d !! "cultural_themes" = Some (VList (map VStr (_detect_cultural_themes user_query))) /\
  d !! "neighborhood_focus" =
    Some (from_option VStr VNone (_detect_neighborhood_focus user_query)).
Proof.
  unfold enhance_intent. destruct intent_data; try discriminate.
  intros Heq. injection Heq as <-. split.
  - rewrite lookup_insert_ne by discriminate. apply lookup_insert_eq.
  - apply lookup_insert_eq.
Qed.

Lemma fallback_intent_lookup (user_query : string) :
  _fallback_intent_analysis user_query !! "cultural_themes" =
    Some (VList (map VStr (_detect_cultural_themes user_query))) /\
  _fallback_intent_analysis user_query !! "neighborhood_focus" =
    Some (from_option VStr VNone (_detect_neighborhood_focus user_query)).
Proof. unfold _fallback_intent_analysis. split; reflexivity. Qed.

Lemma attempt_enhanced (provider : M E pyval) (user_query warning : string)
    (w : World E) :
  exists r w',
    attempt (let* intent_data := provider in
             lift_result (enhance_intent intent_data user_query)) warning w = (Ok r, w') /\
    match r with
    | Some d =>
        d !! "cultural_themes" =
          Some (VList (map VStr (_detect_cultural_themes user_query))) /\
        d !! "neighborhood_focus" =
          Some (from_option VStr VNone (_detect_neighborhood_focus user_query))
    | None => True
    end.
Proof.
  unfold attempt, try_except, bind, lift_result, ret.
  destruct (provider w) as [[intent_data | e] w1].
  - destruct (enhance_intent intent_data user_query) as [d | e] eqn:Hd.
    + eexists _, _. split; [reflexivity |]. apply enhance_intent_lookup in Hd. exact Hd.
    + unfold log. eexists _, _. split; [reflexivity | exact I].
  - unfold log. eexists _, _. split; [reflexivity | exact I].
Qed.

Lemma analyze_user_intent_run (user_query : string) (w : World E) :
  exists d w',
    _analyze_user_intent self user_query w = (Ok d, w') /\
    d !! "cultural_themes" = Some (VList (map VStr (_detect_cultural_themes user_query))) /\
    d !! "neighborhood_focus" =
      Some (from_option VStr VNone (_detect_neighborhood_focus user_query)).
Proof.
  unfold _analyze_user_intent.
  unfold bind at 1, available at 1.
  assert (Hsecond : forall w1,
    exists d w',
      (let* gs := available (gemini_service self) gs_is_available in
       let* second :=
         match gs with
         | Some gs =>
             attempt
               (let* intent_data := extract_entity_with_context gs user_query in
                lift_result (enhance_intent intent_data user_query))
               "Gemini intent analysis failed: {e}"
         | None => ret None
         end in
       match second with
       | Some intent_data => ret intent_data
       | None => ret (_fallback_intent_analysis user_query)
       end) w1 = (Ok d, w') /\
      d !! "cultural_themes" =
        Some (VList (map VStr (_detect_cultural_themes user_query))) /\
      d !! "neighborhood_focus" =
        Some (from_option VStr VNone (_detect_neighborhood_focus user_query))).
  { intros w1. unfold bind at 1, available at 1.
    destruct (match gemini_service self with
              | Some s => if gs_is_available s w1 then Some s else None
              | None => None
              end) as [gs |].
    - unfold bind at 1.
      destruct (attempt_enhanced (extract_entity_with_context gs user_query) user_query
                  "Gemini intent analysis failed: {e}" w1) as (r & w2 & Hrun & Hr).
      rewrite Hrun. destruct r as [d |].
      + eexists _, _. split; [reflexivity | exact Hr].
      + eexists _, _. split; [reflexivity | apply fallback_intent_lookup].
    - unfold bind at 1, ret at 1.
      eexists _, _. split; [reflexivity | apply fallback_intent_lookup]. }
  destruct (match response_generator self with
            | Some s => if rg_is_available s w then Some s else None
            | None => None
            end) as [rg |].
  - unfold bind at 1.
    destruct (attempt_enhanced
                (extract_entity_with_context (rg_gemini_service rg) user_query) user_query
                "ResponseGenerator intent analysis failed: {e}" w) as (r & w2 & Hrun & Hr).
    rewrite Hrun. destruct r as [d |].
    + eexists _, _. split; [reflexivity | exact Hr].
    + apply Hsecond.
  - unfold bind at 1, ret at 1. apply Hsecond.
Qed.

Lemma personalization_context_empty (user_profile : option pydict) (context : pydict) :
  _get_personalization_context user_profile = Ok context ->
  Py.truthy (VDict context) = true ->
  exists profile, user_profile = Some profile /\ profile <> ∅.
Proof.
  unfold _get_personalization_context.
  destruct user_profile as [profile |].
  - destruct (Py.truthy (VDict profile)) eqn:Htruthy; cbn [negb].
    + intros _ _. exists profile. split; [reflexivity |].
      intros ->. discriminate Htruthy.
    + intros Heq. injection Heq as <-. discriminate.
  - intros Heq. injection Heq as <-. discriminate.
Qed.

Lemma recommend_personalization user_query user_profile location (w w' : World E)
    (d : pydict) :
  recommend self user_query user_profile location w = (Ok d, w') ->
  exists context,
    _get_personalization_context user_profile = Ok context /\
    d !! "personalization_applied" = Some (VBool (Py.truthy (VDict context))).
Proof.
  unfold recommend, bind, lift_result, ret.
  destruct (_analyze_user_intent self user_query w) as [[intent | ?] w1]; [| discriminate].
  destruct (_get_personalization_context user_profile) as [context | ?]; [| discriminate].
  repeat match goal with
         | |- context [match ?m ?s with _ => _ end] =>
             lazymatch m with
             | _coordinate_recommendation_services _ _ _ _ _ => destruct (m s) as [[? | ?] ?]
             | _generate_cultural_response _ _ _ _ _ => destruct (m s) as [[? | ?] ?]
             end
         | |- context [match ?r with Ok _ => _ | Raise _ => _ end] =>
             destruct r as [? | ?]
         end;
    intros Heq; try discriminate Heq.
  inversion Heq; subst. exists context. split; reflexivity.
Qed.

End Facts.

(** The themes detected in a query are never an empty list and never
    list a theme twice.  A theme of the table is reported exactly when
    one of its keywords occurs in the lowered query, in the order of the
    table; when no keyword of any theme occurs, the answer is the single
    theme [general_culture]. *)
Theorem detected_themes_follow_the_table (query : string) :
  let matching :=
    filter (fun entry => Py.any_in (snd entry) (Py.lower query) = true) theme_keywords in
  _detect_cultural_themes query <> [] /\
  NoDup (_detect_cultural_themes query) /\
  (matching = [] -> _detect_cultural_themes query = ["general_culture"]) /\
  (matching <> [] -> _detect_cultural_themes query = map fst matching).
Proof.
  cbv zeta. rewrite detected_themes_matching. cbv zeta.
  set (matching := filter _ theme_keywords).
  assert (Hnodup : NoDup (map fst matching)).
  { eapply sublist_NoDup; [exact theme_names_distinct |].
    apply (fmap_sublist fst). apply sublist_filter. }
  clearbody matching. destruct matching as [| entry rest]; cbn [map].
  - split; [discriminate |]. split; [| split; [reflexivity | congruence]].
    apply NoDup_singleton.
  - split; [discriminate |]. split; [exact Hnodup |].
    split; [discriminate | reflexivity].
Qed.

(** A neighborhood focus detected in a query is always one of the six
    neighborhoods of the insights table, and it is detected because its
    name, or an alias that stands for it, occurs in the lowered
    query. *)
Theorem detected_neighborhood_is_known (query neighborhood : string) :
  _detect_neighborhood_focus query = Some neighborhood ->
  (exists insights, Py.assoc neighborhood neighborhood_insights = Some insights) /\
  (Py.isin neighborhood (Py.lower query) = true \/
   exists alias,
     In (alias, neighborhood) neighborhood_aliases /\
     Py.isin alias (Py.lower query) = true).
Proof.
  unfold _detect_neighborhood_focus.
  destruct (find (fun n => Py.isin n (Py.lower query)) (map fst neighborhood_insights))
    as [n |] eqn:Hdirect.
  - intros Heq. injection Heq as <-.
    apply find_some in Hdirect. destruct Hdirect as [Hin Hisin].
    split; [apply known_neighborhood; exact Hin | left; exact Hisin].
  - destruct (find (fun entry => Py.isin (fst entry) (Py.lower query)) neighborhood_aliases)
      as [[alias target] |] eqn:Halias; [| discriminate].
    intros Heq. injection Heq as <-.
    apply find_some in Halias. destruct Halias as [Hin Hisin].
    split.
    + apply known_neighborhood.
      pose proof alias_targets_known as Hall. rewrite List.Forall_forall in Hall.
      apply (Hall (alias, target) Hin).
    + right. exists alias. split; assumption.
Qed.

Lemma detected_neighborhood_is_known_witness :
  _detect_neighborhood_focus "Quiet tea houses near the PALACE" = Some "jongno" /\
  (exists insights, Py.assoc "jongno" neighborhood_insights = Some insights) /\
  (Py.isin "jongno" (Py.lower "Quiet tea houses near the PALACE") = true \/
   exists alias,
     In (alias, "jongno") neighborhood_aliases /\
     Py.isin alias (Py.lower "Quiet tea houses near the PALACE") = true).
Proof.
  split; [reflexivity |].
  apply (detected_neighborhood_is_known "Quiet tea houses near the PALACE" "jongno").
  reflexivity.
Defined.

(** [_analyze_user_intent] never raises, whatever the generative
    collaborators do, and whichever of them answers, the themes and the
    neighborhood focus of its result are the ones detected locally from
    the query: a provider cannot set them. *)
Theorem intent_analysis_detects_locally `{PyRuntime} {E : Type} (self : Services E)
    (user_query : string) (w : World E) :
  exists (intent : pydict) (w' : World E),
    _analyze_user_intent self user_query w = (Ok intent, w') /\
    intent !! "cultural_themes" =
      Some (VList (map VStr (_detect_cultural_themes user_query))) /\
    intent !! "neighborhood_focus" =
      Some (from_option VStr VNone (_detect_neighborhood_focus user_query)).
Proof. apply analyze_user_intent_run. Qed.

(** [personalization_applied] is a boolean in every result of
    [get_recommendation], and it is [True] only when a profile was
    given and is not empty: without a profile, or with the empty one,
    no result claims to be personalized. *)
Theorem personalization_needs_a_profile `{PyRuntime} {E : Type} (self : Services E)
    (user_query : string) (user_profile : option pydict)
    (location : option (Q * Q)) (w : World E) :
  exists (result : pydict) (w' : World E) (applied : bool),
    get_recommendation self user_query user_profile location w = (Ok result, w') /\
    result !! "personalization_applied" = Some (VBool applied) /\
    (applied = true -> exists profile, user_profile = Some profile /\ profile <> ∅).
Proof.
  destruct (ResultFacts.get_recommendation_cases self user_query user_profile location w)
    as (d & w' & Hrun & Hcase).
  destruct (recommend self user_query user_profile location w) as [[d0 | e] w1] eqn:Hrec.
  - subst d0.
    destruct (recommend_personalization self _ _ _ _ _ _ Hrec) as (context & Hctx & Hflag).
    exists d, w', (Py.truthy (VDict context)).
    split; [exact Hrun |]. split; [exact Hflag |].
    apply personalization_context_empty. exact Hctx.
  - subst d. exists (_handle_recommendation_fallback user_query user_profile), w', false.
    split; [exact Hrun |]. split; [reflexivity | discriminate].
Qed.

End IntentFacts.


(** ** Ranking: the personalization filter and the authenticity sort *)

Module RankingFacts.
Import Comp PyOps LocalGuideSystem AuthenticityFacts PersonalizationFacts.

(** The descending insertion sort orders its result by any relation
    that agrees with the comparison it is given. *)
Section Ordered.
Context {A : Type} (lt : A -> A -> bool) (P : A -> Prop) (R : A -> A -> Prop).
Hypothesis R_trans : forall x y z, R x y -> R y z -> R x z.
Hypothesis lt_R : forall x y, P x -> P y -> if lt x y then R y x else R x y.

Lemma insert_desc_ordered x l :
  P x -> Forall P l -> ForallOrdPairs R l ->
  ForallOrdPairs R (Py.insert_desc lt x l).
Proof.
  intros Hx Hl Hord. induction Hord as [| y l Hy Hord IH]; cbn [Py.insert_desc].
  - constructor; constructor.
  - inversion Hl as [| ? ? HPy Hl']; subst.
    pose proof (lt_R x y Hx HPy) as Hxy.
    destruct (lt x y).
    + constructor; [| apply IH; exact Hl'].
      apply insert_desc_Forall; assumption.
    + constructor; [| constructor; assumption].
      constructor; [exact Hxy |].
      eapply Forall_impl; [exact Hy |]. intros z Hz. exact (R_trans _ _ _ Hxy Hz).
Qed.

Lemma sort_desc_ordered l :
  Forall P l -> ForallOrdPairs R (Py.sort_desc lt l).
Proof.
  induction l as [| x l IH]; intros Hl; cbn [Py.sort_desc]; [constructor |].
  inversion Hl; subst.
  apply insert_desc_ordered;
    [assumption | apply sort_desc_Forall; assumption | apply IH; assumption].
Qed.

End Ordered.

Lemma score_order_trans (k : string) (x y z : pydict) :
  (exists a b : Q, x !! k = Some (VNum a) /\ y !! k = Some (VNum b) /\ (b <= a)%Q) ->
  (exists a b : Q, y !! k = Some (VNum a) /\ z !! k = Some (VNum b) /\ (b <= a)%Q) ->
  exists a b : Q, x !! k = Some (VNum a) /\ z !! k = Some (VNum b) /\ (b <= a)%Q.
Proof.
  intros (a & b & Hx & Hy & Hab) (b' & c & Hy' & Hz & Hbc).
  rewrite Hy in Hy'. injection Hy' as <-.
  exists a, c. split; [exact Hx |]. split; [exact Hz |].
  eapply Qle_trans; eassumption.
Qed.

Lemma ltb_order (a b : Q) : if Py.ltb a b then (a <= b)%Q else (b <= a)%Q.
Proof.
  unfold Py.ltb. destruct (Qle_bool b a) eqn:Hle; cbn [negb].
  - apply Qle_bool_iff. exact Hle.
  - apply Qlt_le_weak. apply Qnot_le_lt. intros Hc.
    apply Qle_bool_iff in Hc. congruence.
Qed.

Lemma scalar_eqb_str_l (p : string) (z : pyval) :
  Py.scalar_eqb (VStr p) z = true -> z = VStr p.
Proof.
  destruct z; cbn [Py.scalar_eqb Py.num]; try discriminate.
  intros Heq. apply String.eqb_eq in Heq. congruence.
Qed.

Lemma scalar_eqb_str_r (p : string) (z : pyval) :
  Py.scalar_eqb z (VStr p) = true -> z = VStr p.
Proof.
  destruct z; cbn [Py.scalar_eqb Py.num]; try discriminate.
  intros Heq. apply String.eqb_eq in Heq. congruence.
Qed.

(** A string that is in a list is in the set made of the list. *)
Lemma elem_dedup_str (p : string) (l : list pyval) :
  In (VStr p) l -> Py.elem (VStr p) (Py.dedup l) = true.
Proof.
  unfold Py.elem. induction l as [| y l IH]; intros Hin; [destruct Hin |].
  cbn [Py.dedup existsb].
  destruct (Py.scalar_eqb (VStr p) y) eqn:Hy; [reflexivity |].
  cbn [orb]. destruct Hin as [Heq | Hin].
  - subst y. cbn [Py.scalar_eqb] in Hy. rewrite String.eqb_refl in Hy. discriminate.
  - apply existsb_exists. exists (VStr p). split.
    + apply list_elem_of_In. apply list_elem_of_filter. split.
      * destruct (Py.scalar_eqb y (VStr p)) eqn:Hy'; [| reflexivity].
        apply scalar_eqb_str_r in Hy'. subst y.
        cbn [Py.scalar_eqb] in Hy. rewrite String.eqb_refl in Hy. discriminate.
      * apply IH in Hin. apply existsb_exists in Hin.
        destruct Hin as (z & Hz & Hpz). apply scalar_eqb_str_l in Hpz. subst z.
        apply list_elem_of_In. exact Hz.
    + cbn [Py.scalar_eqb]. apply String.eqb_refl.
Qed.

Section Facts.
Context `{PyRuntime}.

(** What the loop of the filter keeps: a sub-list of its input, in
    order, each record with its score set, none of them visited. *)
Lemma filter_loop_shape recommendations user_interests visited_places food_restrictions
    cultural_preferences (out : list pydict) :
  filter_loop recommendations user_interests visited_places food_restrictions
              cultural_preferences = Ok out ->
  exists kept,
    kept `sublist_of` recommendations /\
    Forall2 (fun rec r => exists score : Q,
               r = <["personalization_score" := VNum score]> rec) kept out /\
    Forall (fun rec =>
              in_set (Py.get rec "Name" (Py.get rec "name" (VStr EmptyString)))
                     visited_places = Ok false) kept.
Proof.
  revert out. induction recommendations as [| rec rest IH]; intros out; simpl.
  - intros Heq. inversion Heq. exists []. split; [constructor | split; constructor].
  - intros Hrun.
    assert (Hskip : forall out',
               filter_loop rest user_interests visited_places food_restrictions
                           cultural_preferences = Ok out' ->
               exists kept,
                 kept `sublist_of` (rec :: rest) /\
                 Forall2 (fun rec r => exists score : Q,
                            r = <["personalization_score" := VNum score]> rec)
                         kept out' /\
                 Forall (fun rec =>
                           in_set (Py.get rec "Name"
                                     (Py.get rec "name" (VStr EmptyString)))
                                  visited_places = Ok false) kept).
    { intros out' Hout'. destruct (IH _ Hout') as (kept & Hsub & Hall & Hvis).
      exists kept. split; [apply sublist_cons; exact Hsub | tauto]. }
    apply bindr_Ok in Hrun. destruct Hrun as (visited & Hvisited & Hrun).
    destruct visited; [apply Hskip; exact Hrun |].
    apply bindr_Ok in Hrun. destruct Hrun as (restaurant & _ & Hrun).
    apply bindr_Ok in Hrun. destruct Hrun as (violates & _ & Hrun).
    destruct violates; [apply Hskip; exact Hrun |].
    apply bindr_Ok in Hrun. destruct Hrun as (score & _ & Hrun).
    apply bindr_Ok in Hrun. destruct Hrun as (filtered & Hfiltered & Hrun).
    injection Hrun as <-.
    destruct (IH _ Hfiltered) as (kept & Hsub & Hall & Hvis).
    exists (rec :: kept). split; [apply sublist_skip; exact Hsub |].
    split; constructor; try assumption. exists score. reflexivity.
Qed.

(** The steps of [_apply_personalization_filtering], when it returns. *)
Lemma apply_filtering_steps (recommendations : list pydict)
    (personalization_context : pydict) (out : list pydict) :
  _apply_personalization_filtering recommendations personalization_context = Ok out ->
  exists user_interests visited_places cultural_preferences filtered,
    set_of (Py.get personalization_context "visited_places" (VList []))
      = Ok visited_places /\
    filter_loop recommendations user_interests visited_places
      (Py.get personalization_context "food_restrictions" (VList []))
      cultural_preferences = Ok filtered /\
    out = Py.sort_desc
            (fun x y => Py.lt_val (personalization_key x) (personalization_key y))
            filtered.
Proof.
  unfold _apply_personalization_filtering. intros Hrun.
  apply bindr_Ok in Hrun. destruct Hrun as (user_interests & _ & Hrun).
  apply bindr_Ok in Hrun. destruct Hrun as (visited_places & Hvisited & Hrun).
  apply bindr_Ok in Hrun. destruct Hrun as (cultural_preferences & _ & Hrun).
  apply bindr_Ok in Hrun. destruct Hrun as (filtered & Hfiltered & Hrun).
  injection Hrun as <-.
  exists user_interests, visited_places, cultural_preferences, filtered.
  split; [exact Hvisited |]. split; [exact Hfiltered | reflexivity].
Qed.

Lemma personalization_lt_order (x y : pydict) :
  (exists s : Q, x !! "personalization_score" = Some (VNum s)) ->
  (exists s : Q, y !! "personalization_score" = Some (VNum s)) ->
  if Py.lt_val (personalization_key x) (personalization_key y)
  then exists a b : Q, y !! "personalization_score" = Some (VNum a) /\
                       x !! "personalization_score" = Some (VNum b) /\ (b <= a)%Q
  else exists a b : Q, x !! "personalization_score" = Some (VNum a) /\
                       y !! "personalization_score" = Some (VNum b) /\ (b <= a)%Q.
Proof.
  intros [a Ha] [b Hb]. unfold personalization_key, Py.get. rewrite Ha, Hb.
  cbn [Py.lt_val Py.num]. pose proof (ltb_order a b) as Hord.
  destruct (Py.ltb a b).
  - exists b, a. auto.
  - exists a, b. auto.
Qed.

Lemma authenticity_lt_order (x y : pydict) :
  (exists s : Q, x !! "authenticity_score" = Some (VNum s)) ->
  (exists s : Q, y !! "authenticity_score" = Some (VNum s)) ->
  if key_lt (authenticity_key x) (authenticity_key y)
  then exists a b : Q, y !! "authenticity_score" = Some (VNum a) /\
                       x !! "authenticity_score" = Some (VNum b) /\ (b <= a)%Q
  else exists a b : Q, x !! "authenticity_score" = Some (VNum a) /\
                       y !! "authenticity_score" = Some (VNum b) /\ (b <= a)%Q.
Proof.
  intros [a Ha] [b Hb]. unfold key_lt, authenticity_key. cbn [fst snd].
  unfold Py.get at 1 2 7 8. rewrite Ha, Hb.
  cbn [Py.scalar_eqb Py.num Py.lt_val].
  destruct (Qeq_bool a b) eqn:Heq.
  - apply Qeq_bool_iff in Heq.
    destruct (if Py.scalar_eqb _ _ then false else _).
    + exists b, a. split; [reflexivity |]. split; [reflexivity |].
      rewrite Heq. apply Qle_refl.
    + exists a, b. split; [reflexivity |]. split; [reflexivity |].
      rewrite Heq. apply Qle_refl.
  - pose proof (ltb_order a b) as Hord. destruct (Py.ltb a b).
    + exists b, a. auto.
    + exists a, b. auto.
Qed.

(** The steps of [_prioritize_authentic_experiences], when it returns. *)
Lemma prioritize_steps (recommendations out : list pydict) :
  _prioritize_authentic_experiences recommendations = Ok out ->
  exists assigned,
    Forall2 (fun rec r => exists score : Q,
               r = <["authenticity_score" := VNum score]> rec)
            recommendations assigned /\
    out = Py.sort_desc
            (fun x y => key_lt (authenticity_key x) (authenticity_key y)) assigned.
Proof.
  unfold _prioritize_authentic_experiences. intros Hout.
  apply bindr_Ok in Hout. destruct Hout as (assigned & Hassigned & Hout).
  destruct (Py.pairwise key_comparable (map authenticity_key assigned)); [| discriminate].
  injection Hout as <-. exists assigned. split; [| reflexivity].
  apply mapr_Forall2 in Hassigned.
  eapply Forall2_impl; [exact Hassigned |].
  intros rec r Hr. unfold assign_authenticity in Hr.
  apply bindr_Ok in Hr. destruct Hr as (score & _ & Hr).
  injection Hr as <-. exists score. reflexivity.
Qed.

End Facts.

(** [_apply_personalization_filtering] returns its records ordered by
    [personalization_score], highest first: every returned record
    carries a numeric score, and of two returned records the earlier
    one never has the lower score. *)
Theorem personalized_results_sorted_by_score `{PyRuntime}
    (recommendations : list pydict) (personalization_context : pydict)
    (out : list pydict) :
  _apply_personalization_filtering recommendations personalization_context = Ok out ->
  ForallOrdPairs
    (fun r r' => exists a b : Q,
       r !! "personalization_score" = Some (VNum a) /\
       r' !! "personalization_score" = Some (VNum b) /\ (b <= a)%Q)
    out.
Proof.
  intros Hrun. apply apply_filtering_steps in Hrun.
  destruct Hrun as (user_interests & visited_places & cultural_preferences & filtered
                    & _ & Hloop & ->).
  apply filter_loop_shape in Hloop. destruct Hloop as (kept & _ & Hall & _).
  apply (sort_desc_ordered _
           (fun r => exists s : Q, r !! "personalization_score" = Some (VNum s))).
  - apply score_order_trans.
  - apply personalization_lt_order.
  - eapply Forall2_Forall_r; [exact Hall |].
    apply Forall_forall. intros rec _ r [score ->].
    exists score. apply lookup_insert_eq.
Qed.

(** The filter only removes.  What [_apply_personalization_filtering]
    returns is, up to the order of the sort, a sub-list of the
    recommendations it was given, each with the key
    [personalization_score] set and nothing else changed: no record is
    invented, repeated or altered. *)
Theorem personalization_only_removes `{PyRuntime}
    (recommendations : list pydict) (personalization_context : pydict)
    (out : list pydict) :
  _apply_personalization_filtering recommendations personalization_context = Ok out ->
  exists kept filtered,
    kept `sublist_of` recommendations /\
    Forall2 (fun rec r => exists score : Q,
               r = <["personalization_score" := VNum score]> rec) kept filtered /\
    out ≡ₚ filtered.
Proof.
  intros Hrun. apply apply_filtering_steps in Hrun.
  destruct Hrun as (user_interests & visited_places & cultural_preferences & filtered
                    & _ & Hloop & ->).
  apply filter_loop_shape in Hloop. destruct Hloop as (kept & Hsub & Hall & _).
  exists kept, filtered. split; [exact Hsub |]. split; [exact Hall |].
  apply sort_desc_Permutation.
Qed.

(** A place the user has visited is never recommended again: when the
    context lists visited places, no record returned by
    [_apply_personalization_filtering] is named after one of them. *)
Theorem visited_places_are_filtered_out `{PyRuntime}
    (recommendations : list pydict) (personalization_context : pydict)
    (places : list pyval) (out : list pydict) (place : string) :
  personalization_context !! "visited_places" = Some (VList places) ->
  In (VStr place) places ->
  _apply_personalization_filtering recommendations personalization_context = Ok out ->
  Forall (fun r => Py.get r "Name" (Py.get r "name" (VStr EmptyString)) <> VStr place)
         out.
Proof.
  intros Hplaces Hin Hrun. apply apply_filtering_steps in Hrun.
  destruct Hrun as (user_interests & visited_places & cultural_preferences & filtered
                    & Hvisited & Hloop & ->).
  unfold Py.get at 1 in Hvisited. rewrite Hplaces in Hvisited.
  unfold set_of in Hvisited. cbn [iter bindr] in Hvisited.
  destruct (forallb Py.hashable places); [| discriminate].
  injection Hvisited as <-.
  apply filter_loop_shape in Hloop. destruct Hloop as (kept & _ & Hall & Hvis).
  apply sort_desc_Forall.
  induction Hall as [| rec r kept' filtered' [score ->] _ IH]; [constructor |].
  inversion Hvis as [| ? ? Hrec Hvis']; subst.
  constructor; [| apply IH; exact Hvis'].
  unfold Py.get. rewrite !lookup_insert_ne by discriminate.
  fold (Py.get rec "name" (VStr EmptyString)).
  fold (Py.get rec "Name" (Py.get rec "name" (VStr EmptyString))).
  intros Hname. rewrite Hname in Hrec. unfold in_set in Hrec.
  cbn [Py.hashable] in Hrec. rewrite (elem_dedup_str place places Hin) in Hrec.
  discriminate.
Qed.

(** With no visited places and no food restrictions in the context,
    the filter drops nothing: it returns every recommendation it was
    given, scored and reordered. *)
Theorem nothing_to_exclude_keeps_every_record `{PyRuntime}
    (recommendations : list pydict) (personalization_context : pydict)
    (out : list pydict) :
  personalization_context !! "visited_places" = None ->
  personalization_context !! "food_restrictions" = None ->
  _apply_personalization_filtering recommendations personalization_context = Ok out ->
  exists filtered,
    Forall2 (fun rec r => exists score : Q,
               r = <["personalization_score" := VNum score]> rec)
            recommendations filtered /\
    out ≡ₚ filtered.
Proof.
  intros Hvisited Hfood Hrun. apply apply_filtering_steps in Hrun.
  destruct Hrun as (user_interests & visited_places & cultural_preferences & filtered
                    & Hset & Hloop & ->).
  unfold Py.get in Hset, Hloop. rewrite Hvisited in Hset. rewrite Hfood in Hloop.
  injection Hset as <-.
  exists filtered. split; [| apply sort_desc_Permutation].
  revert filtered Hloop.
  induction recommendations as [| rec rest IH]; intros filtered; simpl.
  - intros Heq. inversion Heq. constructor.
  - intros Hrun.
    apply bindr_Ok in Hrun. destruct Hrun as (visited & Hv & Hrun).
    assert (visited = false) as ->.
    { unfold in_set in Hv. destruct (Py.hashable _); [| discriminate].
      injection Hv as <-. reflexivity. }
    apply bindr_Ok in Hrun. destruct Hrun as (restaurant & _ & Hrun).
    apply bindr_Ok in Hrun. destruct Hrun as (violates & Hviolates & Hrun).
    assert (violates = false) as ->.
    { destruct restaurant; [| congruence].
      unfold _violates_food_restrictions in Hviolates.
      change (Py.truthy (VList [])) with false in Hviolates.
      cbn [negb] in Hviolates. congruence. }
    apply bindr_Ok in Hrun. destruct Hrun as (score & _ & Hrun).
    apply bindr_Ok in Hrun. destruct Hrun as (rest' & Hrest & Hrun).
    injection Hrun as <-.
    constructor; [exists score; reflexivity | apply IH; exact Hrest].
Qed.

(** [_prioritize_authentic_experiences] returns its records ordered by
    [authenticity_score], highest first: every returned record carries
    a numeric score, and of two returned records the earlier one never
    has the lower score. *)
Theorem prioritized_results_sorted_by_authenticity `{PyRuntime}
    (recommendations out : list pydict) :
  _prioritize_authentic_experiences recommendations = Ok out ->
  ForallOrdPairs
    (fun r r' => exists a b : Q,
       r !! "authenticity_score" = Some (VNum a) /\
       r' !! "authenticity_score" = Some (VNum b) /\ (b <= a)%Q)
    out.
Proof.
  intros Hrun. apply prioritize_steps in Hrun. destruct Hrun as (assigned & Hall & ->).
  apply (sort_desc_ordered _
           (fun r => exists s : Q, r !! "authenticity_score" = Some (VNum s))).
  - apply score_order_trans.
  - apply authenticity_lt_order.
  - eapply Forall2_Forall_r; [exact Hall |].
    apply Forall_forall. intros rec _ r [score ->].
    exists score. apply lookup_insert_eq.
Qed.

(** Prioritising loses nothing: what
    [_prioritize_authentic_experiences] returns is a reordering of the
    recommendations it was given, each with the key
    [authenticity_score] set and nothing else changed. *)
Theorem prioritization_keeps_every_record `{PyRuntime}
    (recommendations out : list pydict) :
  _prioritize_authentic_experiences recommendations = Ok out ->
  exists assigned,
    Forall2 (fun rec r => exists score : Q,
               r = <["authenticity_score" := VNum score]> rec)
            recommendations assigned /\
    out ≡ₚ assigned.
Proof.
  intros Hrun. apply prioritize_steps in Hrun. destruct Hrun as (assigned & Hall & ->).
  exists assigned. split; [exact Hall | apply sort_desc_Permutation].
Qed.

#[local] Existing Instance Deployment.example_runtime.

Lemma personalized_results_sorted_by_score_witness :
  exists out,
    _apply_personalization_filtering [Deployment.pork_house; Deployment.tofu_house]
                                     Deployment.vegetarian_context = Ok out /\
    ForallOrdPairs
      (fun r r' => exists a b : Q,
         r !! "personalization_score" = Some (VNum a) /\
         r' !! "personalization_score" = Some (VNum b) /\ (b <= a)%Q)
      out.
Proof.
  eexists. split; [reflexivity |].
  eapply (personalized_results_sorted_by_score
            [Deployment.pork_house; Deployment.tofu_house]
            Deployment.vegetarian_context).
  reflexivity.
Defined.

Lemma personalization_only_removes_witness :
  exists out,
    _apply_personalization_filtering [Deployment.pork_house; Deployment.tofu_house]
                                     Deployment.vegetarian_context = Ok out /\
    exists kept filtered,
      kept `sublist_of` [Deployment.pork_house; Deployment.tofu_house] /\
      Forall2 (fun rec r => exists score : Q,
                 r = <["personalization_score" := VNum score]> rec) kept filtered /\
      out ≡ₚ filtered.
Proof.
  eexists. split; [reflexivity |].
  eapply (personalization_only_removes
            [Deployment.pork_house; Deployment.tofu_house]
            Deployment.vegetarian_context).
  reflexivity.
Defined.

Lemma visited_places_are_filtered_out_witness :
  Deployment.visited_context !! "visited_places"
    = Some (VList [VStr "Sundubu Corner"]) /\
  In (VStr "Sundubu Corner") [VStr "Sundubu Corner"] /\
  exists out,
    _apply_personalization_filtering
      [Deployment.tofu_house; Deployment.pork_in_name_only]
      Deployment.visited_context = Ok out /\
    Forall (fun r => Py.get r "Name" (Py.get r "name" (VStr EmptyString))
                     <> VStr "Sundubu Corner")
           out.
Proof.
  assert (H1 : Deployment.visited_context !! "visited_places"
               = Some (VList [VStr "Sundubu Corner"])) by reflexivity.
  assert (H2 : In (VStr "Sundubu Corner") [VStr "Sundubu Corner"])
    by (left; reflexivity).
  split; [exact H1 |]. split; [exact H2 |].
  eexists. split; [reflexivity |].
  eapply (visited_places_are_filtered_out
            [Deployment.tofu_house; Deployment.pork_in_name_only]
            Deployment.visited_context [VStr "Sundubu Corner"] _ "Sundubu Corner"
            H1 H2).
  reflexivity.
Defined.

Lemma nothing_to_exclude_keeps_every_record_witness :
  (∅ : pydict) !! "visited_places" = None /\
  (∅ : pydict) !! "food_restrictions" = None /\
  exists out,
    _apply_personalization_filtering [Deployment.pork_house; Deployment.tofu_house] ∅
      = Ok out /\
    exists filtered,
      Forall2 (fun rec r => exists score : Q,
                 r = <["personalization_score" := VNum score]> rec)
              [Deployment.pork_house; Deployment.tofu_house] filtered /\
      out ≡ₚ filtered.
Proof.
  assert (H1 : (∅ : pydict) !! "visited_places" = None) by apply lookup_empty.
  assert (H2 : (∅ : pydict) !! "food_restrictions" = None) by apply lookup_empty.
  split; [exact H1 |]. split; [exact H2 |].
  eexists. split; [reflexivity |].
  eapply (nothing_to_exclude_keeps_every_record
            [Deployment.pork_house; Deployment.tofu_house] ∅ _ H1 H2).
  reflexivity.
Defined.

Lemma prioritized_results_sorted_by_authenticity_witness :
  exists out,
    _prioritize_authentic_experiences SearchService.fallback_places = Ok out /\
    ForallOrdPairs
      (fun r r' => exists a b : Q,
         r !! "authenticity_score" = Some (VNum a) /\
         r' !! "authenticity_score" = Some (VNum b) /\ (b <= a)%Q)
      out.
Proof.
  destruct (prioritize_returns SearchService.fallback_places) as [out Hout].
  { repeat constructor; eexists; reflexivity. }
  exists out. split; [exact Hout |].
  exact (prioritized_results_sorted_by_authenticity SearchService.fallback_places out Hout).
Defined.

Lemma prioritization_keeps_every_record_witness :
  exists out,
    _prioritize_authentic_experiences SearchService.fallback_places = Ok out /\
    exists assigned,
      Forall2 (fun rec r => exists score : Q,
                 r = <["authenticity_score" := VNum score]> rec)
              SearchService.fallback_places assigned /\
      out ≡ₚ assigned.
Proof.
  destruct (prioritize_returns SearchService.fallback_places) as [out Hout].
  { repeat constructor; eexists; reflexivity. }
  exists out. split; [exact Hout |].
  exact (prioritization_keeps_every_record SearchService.fallback_places out Hout).
Defined.

End RankingFacts.


(** ** Merging the adapters, and the neighborhood insights *)

Module CoordinationFacts.
Import Comp PyOps LocalGuideSystem.

Lemma slice_to_Forall {A} (P : A -> Prop) (l : list A) (n : Z) :
  Forall P l -> Forall P (Py.slice_to l n).
Proof.
  intros Hl. unfold Py.slice_to. destruct (n <? 0)%Z; apply Forall_take; exact Hl.
Qed.

Lemma slice_to_length {A} (l : list A) (n : nat) :
  (length (Py.slice_to l (Z.of_nat n)) <= n)%nat.
Proof.
  unfold Py.slice_to. destruct (Z.of_nat n <? 0)%Z eqn:Hneg; [lia |].
  rewrite length_take, Nat2Z.id. lia.
Qed.

Section Facts.
Context `{PyRuntime} {E : Type}.

Lemma tag_tagged (source kind : string) (rs : list pyval) (tagged : list pydict) :
  mapr (tag source kind) rs = Ok tagged ->
  Forall (fun r => r !! "source" = Some (VStr source) /\
                   r !! "recommendation_type" = Some (VStr kind)) tagged.
Proof.
  intros Htag. apply AuthenticityFacts.mapr_Forall2 in Htag.
  induction Htag as [| rec r rs' tagged' Hr _ IH]; constructor; [| exact IH].
  unfold tag in Hr. destruct rec; try discriminate Hr. injection Hr as <-.
  split; [rewrite lookup_insert_ne by discriminate |]; apply lookup_insert_eq.
Qed.

(** A block of the merge never raises: it extends the list by records
    it has tagged, or by nothing. *)
Lemma gather_total (all_recommendations : list pydict) (recs : M E (list pyval))
    (source kind : string) (keep : list pydict -> list pydict) (warning : string)
    (w : World E) :
  exists added w',
    gather all_recommendations recs source kind keep warning w
      = (Ok (all_recommendations ++ added)%list, w') /\
    (added = [] \/
     exists tagged,
       added = keep tagged /\
       Forall (fun r => r !! "source" = Some (VStr source) /\
                        r !! "recommendation_type" = Some (VStr kind)) tagged).
Proof.
  unfold gather, try_except, bind, lift_result, ret, log.
  destruct (recs w) as [[rs | e] w1]; cbv beta iota.
  - destruct (mapr (tag source kind) rs) as [tagged | e] eqn:Htag.
    + exists (keep tagged), w1. split; [reflexivity |]. right.
      exists tagged. split; [reflexivity |]. exact (tag_tagged _ _ _ _ Htag).
    + eexists [], _. rewrite app_nil_r. split; [reflexivity |]. left. reflexivity.
  - eexists [], _. rewrite app_nil_r. split; [reflexivity |]. left. reflexivity.
Qed.

Lemma stage_total {S : Type} (svc : option S) (all_recommendations : list pydict)
    (recs : S -> M E (list pyval)) (source kind : string)
    (keep : list pydict -> list pydict) (warning : string) (w : World E) :
  exists added w',
    match svc with
    | Some s => gather all_recommendations (recs s) source kind keep warning
    | None => ret all_recommendations
    end w = (Ok (all_recommendations ++ added)%list, w') /\
    (added = [] \/
     exists tagged,
       added = keep tagged /\
       Forall (fun r => r !! "source" = Some (VStr source) /\
                        r !! "recommendation_type" = Some (VStr kind)) tagged).
Proof.
  destruct svc as [s |]; [apply gather_total |].
  exists [], w. rewrite app_nil_r. split; [reflexivity |]. left. reflexivity.
Qed.

Lemma added_tagged (source kind : string) (n : nat) (added : list pydict) :
  (added = [] \/
   exists tagged,
     added = Py.slice_to tagged (Z.of_nat n) /\
     Forall (fun r => r !! "source" = Some (VStr source) /\
                      r !! "recommendation_type" = Some (VStr kind)) tagged) ->
  Forall (fun r => r !! "source" = Some (VStr source) /\
                   r !! "recommendation_type" = Some (VStr kind)) added /\
  (length added <= n)%nat.
Proof.
  intros [-> | (tagged & -> & Htagged)].
  - split; [constructor | cbn; lia].
  - split; [apply slice_to_Forall; exact Htagged | apply slice_to_length].
Qed.

End Facts.


End CoordinationFacts.

Module InsightFacts.
Import PyOps LocalGuideSystem.

Section Facts.
Context `{PyRuntime}.

Lemma add_insights_keys (rec : pydict) :
  (forall k, k <> "cultural_context" -> k <> "neighborhood_insights" ->
             add_insights rec !! k = rec !! k) /\
  (Py.assoc (neighborhood_of rec) neighborhood_insights = None ->
   add_insights rec = rec) /\
  (is_Some (Py.assoc (neighborhood_of rec) neighborhood_insights) ->
   exists d, add_insights rec !! "neighborhood_insights" = Some (VDict d)).
Proof.
  unfold add_insights.
  destruct (Py.assoc (neighborhood_of rec) neighborhood_insights) as [insights |].
  - split; [| split; [discriminate |]].
    + intros k Hcontext Hinsights.
      rewrite lookup_insert_ne by congruence.
      destruct (Py.truthy (Py.get insights "character" (VStr EmptyString)));
        [rewrite lookup_insert_ne by congruence |]; reflexivity.
    + intros _. eexists. apply lookup_insert_eq.
  - split; [reflexivity |]. split; [reflexivity |]. intros [x Hx]. discriminate Hx.
Qed.

(** The dictionary built by the loop of
    [_extract_relevant_neighborhood_insights], from any start. *)
Lemma extract_loop_lookup (recommendations : list pydict) (found : pydict)
    (n : string) (v : pyval) :
  fold_left
    (fun (found : pydict) rec =>
       let neighborhood := neighborhood_of rec in
       match Py.assoc neighborhood neighborhood_insights, found !! neighborhood with
       | Some insights, None => <[neighborhood := VDict insights]> found
       | _, _ => found
       end)
    recommendations found !! n = Some v <->
  found !! n = Some v \/
  (found !! n = None /\
   exists insights,
     Py.assoc n neighborhood_insights = Some insights /\ v = VDict insights /\
     Exists (fun rec => neighborhood_of rec = n) recommendations).
Proof.
  revert found. induction recommendations as [| rec rest IH]; intros found.
  - cbn [fold_left]. split; [intros Hv; left; exact Hv |].
    intros [Hv | (_ & insights & _ & _ & Hex)]; [exact Hv | inversion Hex].
  - cbn [fold_left]. rewrite IH. cbv zeta.
    destruct (Py.assoc (neighborhood_of rec) neighborhood_insights)
      as [insights |] eqn:Hknown.
    + destruct (found !! neighborhood_of rec) as [old |] eqn:Hold.
      * split.
        -- intros [Hv | (Hnone & ins & Hins & Hv & Hex)]; [left; exact Hv |].
           right. split; [exact Hnone |]. exists ins.
           split; [exact Hins |]. split; [exact Hv |]. right. exact Hex.
        -- intros [Hv | (Hnone & ins & Hins & Hv & Hex)]; [left; exact Hv |].
           right. split; [exact Hnone |]. exists ins.
           split; [exact Hins |]. split; [exact Hv |].
           inversion Hex as [? ? Hhere | ? ? Hlater]; subst; [| exact Hlater].
           congruence.
      * destruct (decide (neighborhood_of rec = n)) as [Heq | Hne].
        -- subst n. rewrite lookup_insert_eq. split.
           ++ intros [Hv | [Hnone _]]; [| discriminate Hnone].
              right. split; [exact Hold |]. exists insights.
              split; [exact Hknown |]. split; [congruence |]. left. reflexivity.
           ++ intros [Hv | (_ & ins & Hins & Hv & _)]; [congruence |].
              left. congruence.
        -- rewrite lookup_insert_ne by exact Hne. split.
           ++ intros [Hv | (Hnone & ins & Hins & Hv & Hex)]; [left; exact Hv |].
              right. split; [exact Hnone |]. exists ins.
              split; [exact Hins |]. split; [exact Hv |]. right. exact Hex.
           ++ intros [Hv | (Hnone & ins & Hins & Hv & Hex)]; [left; exact Hv |].
              right. split; [exact Hnone |]. exists ins.
              split; [exact Hins |]. split; [exact Hv |].
              inversion Hex as [? ? Hhere | ? ? Hlater]; subst; [| exact Hlater].
              congruence.
    + split.
      * intros [Hv | (Hnone & ins & Hins & Hv & Hex)]; [left; exact Hv |].
        right. split; [exact Hnone |]. exists ins.
        split; [exact Hins |]. split; [exact Hv |]. right. exact Hex.
      * intros [Hv | (Hnone & ins & Hins & Hv & Hex)]; [left; exact Hv |].
        right. split; [exact Hnone |]. exists ins.
        split; [exact Hins |]. split; [exact Hv |].
        inversion Hex as [? ? Hhere | ? ? Hlater]; subst; [| exact Hlater].
        congruence.
Qed.

End Facts.

(** [_add_neighborhood_insights] keeps the list as long as it was and
    in its order, and changes no key of a record other than
    [cultural_context] and [neighborhood_insights].  A record whose
    neighborhood, lowered, is not in the insights table is returned as
    it was; a record whose neighborhood is in the table carries a
    dictionary under [neighborhood_insights]. *)
Theorem neighborhood_insights_touch_two_keys `{PyRuntime}
    (recommendations : list pydict) :
  Forall2
    (fun rec r =>
       (forall k, k <> "cultural_context" -> k <> "neighborhood_insights" ->
                  r !! k = rec !! k) /\
       (Py.assoc (neighborhood_of rec) neighborhood_insights = None -> r = rec) /\
       (is_Some (Py.assoc (neighborhood_of rec) neighborhood_insights) ->
        exists d, r !! "neighborhood_insights" = Some (VDict d)))
    recommendations (_add_neighborhood_insights recommendations).
Proof.
  unfold _add_neighborhood_insights.
  induction recommendations as [| rec rest IH]; cbn [map]; constructor;
    [apply add_insights_keys | exact IH].
Qed.

(** The insights returned with a result are those of the neighborhoods
    of its recommendations, and no others: a neighborhood is a key of
    [_extract_relevant_neighborhood_insights] exactly when it is in the
    insights table and is the lowered neighborhood of one of the
    recommendations, and its value is then its entry of the table. *)
Theorem relevant_insights_are_the_known_neighborhoods `{PyRuntime}
    (recommendations : list pydict) (n : string) (v : pyval) :
  _extract_relevant_neighborhood_insights recommendations !! n = Some v <->
  exists insights,
    Py.assoc n neighborhood_insights = Some insights /\ v = VDict insights /\
    Exists (fun rec => neighborhood_of rec = n) recommendations.
Proof.
  unfold _extract_relevant_neighborhood_insights. rewrite extract_loop_lookup.
  rewrite lookup_empty. split.
  - intros [Hv | [_ Hex]]; [discriminate Hv | exact Hex].
  - intros Hex. right. split; [reflexivity | exact Hex].
Qed.

End InsightFacts.


(** ** Queries: Korean context and place types *)

Module QueryFacts.
Import CulturalDiscoveryEngine SearchService.

Lemma append_cons (c : ascii) (s t : string) : String c s +:+ t = String c (s +:+ t).
Proof. reflexivity. Qed.

Lemma append_empty_r (s : string) : s +:+ EmptyString = s.
Proof.
  induction s as [| c s IH]; [reflexivity |]. rewrite append_cons, IH. reflexivity.
Qed.

Lemma append_assoc (a b c : string) : (a +:+ b) +:+ c = a +:+ (b +:+ c).
Proof.
  induction a as [| x a IH]; [reflexivity |]. rewrite !append_cons, IH. reflexivity.
Qed.

Lemma lower_app (a b : string) : Py.lower (a +:+ b) = Py.lower a +:+ Py.lower b.
Proof.
  induction a as [| c a IH]; [reflexivity |].
  rewrite append_cons. cbn [Py.lower]. rewrite append_cons, IH. reflexivity.
Qed.

Lemma isin_app_r (sub a b : string) :
  Py.isin sub b = true -> Py.isin sub (a +:+ b) = true.
Proof.
  intros Hb. induction a as [| c a IH]; [exact Hb |].
  change (String c a +:+ b) with (String c (a +:+ b)).
  cbn [Py.isin]. rewrite IH. apply orb_true_r.
Qed.

Lemma any_in_app_r (keywords : list string) (a b : string) :
  Py.any_in keywords b = true -> Py.any_in keywords (a +:+ b) = true.
Proof.
  unfold Py.any_in. intros Hb. apply existsb_exists in Hb.
  destruct Hb as (k & Hin & Hk). apply existsb_exists.
  exists k. split; [exact Hin | apply isin_app_r; exact Hk].
Qed.

Lemma enhance_cases (query : string) :
  (Py.any_in korean_cultural_keywords (Py.lower query) = true /\
   _enhance_query_with_korean_context query = query) \/
  exists suffix,
    _enhance_query_with_korean_context query = query +:+ suffix /\
    Py.any_in korean_cultural_keywords (Py.lower suffix) = true.
Proof.
  unfold _enhance_query_with_korean_context. cbv zeta.
  destruct (Py.any_in korean_cultural_keywords (Py.lower query)); cbn [negb];
    [left; split; reflexivity |].
  right.
  repeat match goal with
         | |- context [if ?b then _ else _] => destruct b
         end;
    eexists; (split; [reflexivity | vm_compute; reflexivity]).
Qed.

(** Strings: lowering and stripping commute and are idempotent. *)
Lemma lower_ascii_idem (c : ascii) :
  Py.lower_ascii (Py.lower_ascii c) = Py.lower_ascii c.
Proof. destruct c as [[] [] [] [] [] [] [] []]; reflexivity. Qed.

Lemma is_space_lower (c : ascii) : Py.is_space (Py.lower_ascii c) = Py.is_space c.
Proof. destruct c as [[] [] [] [] [] [] [] []]; reflexivity. Qed.

Lemma lower_idem (s : string) : Py.lower (Py.lower s) = Py.lower s.
Proof.
  induction s as [| c s IH]; cbn [Py.lower]; [reflexivity |].
  rewrite lower_ascii_idem, IH. reflexivity.
Qed.

Lemma lower_lstrip (s : string) : Py.lower (Py.lstrip s) = Py.lstrip (Py.lower s).
Proof.
  induction s as [| c s IH]; [reflexivity |].
  cbn [Py.lower]. cbn [Py.lstrip]. rewrite is_space_lower.
  destruct (Py.is_space c); [exact IH | reflexivity].
Qed.

Lemma lower_rev_onto (s acc : string) :
  Py.lower (Py.rev_onto s acc) = Py.rev_onto (Py.lower s) (Py.lower acc).
Proof.
  revert acc. induction s as [| c s IH]; intros acc; cbn [Py.rev_onto Py.lower];
    [reflexivity |].
  rewrite IH. reflexivity.
Qed.

Lemma lower_strip (s : string) : Py.lower (Py.strip s) = Py.strip (Py.lower s).
Proof.
  unfold Py.strip. cbv zeta.
  rewrite lower_rev_onto, lower_lstrip, lower_rev_onto, lower_lstrip. reflexivity.
Qed.

Lemma rev_onto_append (s acc : string) :
  Py.rev_onto s acc = Py.rev_onto s EmptyString +:+ acc.
Proof.
  revert acc. induction s as [| c s IH]; intros acc; cbn [Py.rev_onto]; [reflexivity |].
  rewrite (IH (String c acc)), (IH (String c EmptyString)), append_assoc. reflexivity.
Qed.

Lemma rev_onto_rev_onto (s a b : string) :
  Py.rev_onto (Py.rev_onto s a) b = Py.rev_onto a (s +:+ b).
Proof.
  revert a b. induction s as [| c s IH]; intros a b; cbn [Py.rev_onto];
    [reflexivity |].
  rewrite IH. reflexivity.
Qed.

Lemma rev_involutive (s : string) :
  Py.rev_onto (Py.rev_onto s EmptyString) EmptyString = s.
Proof. rewrite rev_onto_rev_onto. cbn [Py.rev_onto]. apply append_empty_r. Qed.

Lemma rev_onto_of_append (x y acc : string) :
  Py.rev_onto (x +:+ y) acc = Py.rev_onto y (Py.rev_onto x acc).
Proof.
  revert acc. induction x as [| c x IH]; intros acc; [reflexivity |].
  rewrite append_cons. cbn [Py.rev_onto]. apply IH.
Qed.

Lemma lstrip_idem (s : string) : Py.lstrip (Py.lstrip s) = Py.lstrip s.
Proof.
  induction s as [| c s IH]; [reflexivity |].
  cbn [Py.lstrip]. destruct (Py.is_space c) eqn:Hc; [exact IH |].
  cbn [Py.lstrip]. rewrite Hc. reflexivity.
Qed.

Lemma length_lstrip (s : string) : (String.length (Py.lstrip s) <= String.length s)%nat.
Proof.
  induction s as [| c s IH]; cbn [Py.lstrip String.length]; [lia |].
  destruct (Py.is_space c); cbn [String.length]; lia.
Qed.

Lemma lstrip_fixed_head (c : ascii) (s : string) :
  Py.lstrip (String c s) = String c s -> Py.is_space c = false.
Proof.
  cbn [Py.lstrip]. destruct (Py.is_space c); [| reflexivity].
  intros Heq. pose proof (length_lstrip s) as Hlen. rewrite Heq in Hlen.
  cbn [String.length] in Hlen. lia.
Qed.

Lemma lstrip_decomposes (s : string) : exists p, s = p +:+ Py.lstrip s.
Proof.
  induction s as [| c s [p Hp]]; [exists EmptyString; reflexivity |].
  cbn [Py.lstrip]. destruct (Py.is_space c).
  - exists (String c p). rewrite append_cons, <- Hp. reflexivity.
  - exists EmptyString. reflexivity.
Qed.

(** What is left of a stripped string, reversed and stripped again,
    begins with no space. *)
Lemma lstrip_rev_clean (a : string) :
  Py.lstrip a = a ->
  Py.lstrip (Py.rev_onto (Py.lstrip (Py.rev_onto a EmptyString)) EmptyString)
  = Py.rev_onto (Py.lstrip (Py.rev_onto a EmptyString)) EmptyString.
Proof.
  intros Ha.
  destruct (lstrip_decomposes (Py.rev_onto a EmptyString)) as [p Hp].
  set (b := Py.lstrip (Py.rev_onto a EmptyString)) in *.
  assert (Hrev : a = Py.rev_onto b EmptyString +:+ Py.rev_onto p EmptyString).
  { rewrite <- (rev_involutive a), Hp, rev_onto_of_append.
    apply rev_onto_append. }
  destruct (Py.rev_onto b EmptyString) as [| c t]; [reflexivity |].
  rewrite append_cons in Hrev. rewrite Hrev in Ha.
  apply lstrip_fixed_head in Ha. cbn [Py.lstrip]. rewrite Ha. reflexivity.
Qed.

Lemma strip_idem (s : string) : Py.strip (Py.strip s) = Py.strip s.
Proof.
  unfold Py.strip. cbv zeta.
  rewrite (lstrip_rev_clean (Py.lstrip s) (lstrip_idem s)).
  rewrite rev_involutive, lstrip_idem. reflexivity.
Qed.

Lemma normalized_is_fixed (place_type : string) :
  Py.strip (Py.lower (Py.strip (Py.lower place_type))) = Py.strip (Py.lower place_type).
Proof. rewrite lower_strip, lower_idem, strip_idem. reflexivity. Qed.

(** [_enhance_query_with_korean_context] never drops a word of the
    query: it returns the query itself or the query with a suffix.
    What it returns always has Korean context (one of the cultural
    keywords occurs in it, lowered), so enhancing is idempotent. *)
Theorem enhanced_query_has_korean_context (query : string) :
  let enhanced := _enhance_query_with_korean_context query in
  (exists suffix, enhanced = query +:+ suffix) /\
  Py.any_in korean_cultural_keywords (Py.lower enhanced) = true /\
  _enhance_query_with_korean_context enhanced = enhanced.
Proof.
  cbv zeta.
  assert (Hfixed : forall q,
             Py.any_in korean_cultural_keywords (Py.lower q) = true ->
             _enhance_query_with_korean_context q = q).
  { intros q Hq. unfold _enhance_query_with_korean_context. cbv zeta.
    rewrite Hq. reflexivity. }
  destruct (enhance_cases query) as [[Hk Heq] | (suffix & Heq & Hk)]; rewrite Heq.
  - split; [exists EmptyString; symmetry; apply append_empty_r |].
    split; [exact Hk | exact Heq].
  - assert (Hany : Py.any_in korean_cultural_keywords (Py.lower (query +:+ suffix))
                   = true).
    { rewrite lower_app. apply any_in_app_r. exact Hk. }
    split; [exists suffix; reflexivity |].
    split; [exact Hany | apply Hfixed; exact Hany].
Qed.

(** Normalising a place type is idempotent, and it ignores the case of
    the letters and the white space around the type: the type and the
    type lowered and stripped normalise to the same category. *)
Theorem normalize_place_type_idempotent (place_type : string) :
  _normalize_place_type (_normalize_place_type place_type)
    = _normalize_place_type place_type /\
  _normalize_place_type (Py.strip (Py.lower place_type))
    = _normalize_place_type place_type.
Proof.
  pose proof (normalized_is_fixed place_type) as Hn.
  assert (Hsame : _normalize_place_type (Py.strip (Py.lower place_type))
                  = _normalize_place_type place_type).
  { unfold _normalize_place_type. cbv zeta. rewrite Hn. reflexivity. }
  split; [| exact Hsame].
  unfold _normalize_place_type at 2 3. cbv zeta.
  set (n := Py.strip (Py.lower place_type)) in *.
  match goal with
  | |- context [Py.assoc n ?m] => destruct (Py.assoc n m) as [t |] eqn:Ha
  end.
  - assert (Ht : In t ["restaurant"; "attraction"; "hotel"; "transport"]).
    { revert Ha. cbn [Py.assoc].
      repeat (destruct (String.eqb n _); [intros [= <-]; cbn [In]; auto 10 |]).
      discriminate. }
    destruct Ht as [<- | [<- | [<- | [<- | []]]]]; vm_compute; reflexivity.
  - unfold _normalize_place_type. cbv zeta. rewrite Hn, Ha. reflexivity.
Qed.

End QueryFacts.


(** ** The status of the system *)

Module StatusFacts.
Import LocalGuideSystem.

(** A dict literal, looked up. *)
Lemma lookup_list_to_map_assoc {A : Type} (items : list (string * A)) (k : string) :
  (list_to_map items : gmap string A) !! k = Py.assoc k items.
Proof.
  induction items as [| [k' v] items IH]; [apply lookup_empty |].
  change (list_to_map ((k', v) :: items) : gmap string A)
    with (<[k' := v]> (list_to_map items : gmap string A)).
  cbn [Py.assoc]. destruct (String.eqb_spec k k') as [-> | Hne].
  - apply lookup_insert_eq.
  - rewrite lookup_insert_ne by congruence. exact IH.
Qed.

Lemma status_entry_available (name : string) (service : option pydict) :
  Py.truthy (Py.get (status_entry name service) "available" (VBool false))
  = match service with
    | Some status => Py.truthy (Py.get status "available" (VBool false))
    | None => false
    end.
Proof.
  destruct service as [status |]; [reflexivity |].
  unfold status_entry, Py.get. rewrite lookup_list_to_map_assoc. reflexivity.
Qed.

(** The health of the system follows the number of coordinated
    services that are present and report themselves available: the
    health is that number out of five, the state is [healthy] from
    three services on, [degraded] with one or two, [unavailable] with
    none, and the system is available as soon as one service is. *)
Theorem system_health_follows_available_services
    (cultural_engine search_service map_service response_generator
       gemini_service : option pydict) :
  let up := fun service : option pydict =>
              match service with
              | Some status => Py.truthy (Py.get status "available" (VBool false))
              | None => false
              end in
  let n := length (List.filter up [cultural_engine; search_service; map_service;
                                   response_generator; gemini_service]) in
  let status := get_status cultural_engine search_service map_service
                           response_generator gemini_service in
  status !! "system_health" = Some (VNum (inject_Z (Z.of_nat n) / 5)) /\
  status !! "state" =
    Some (VStr (if (3 <=? n)%nat then "healthy"
                else if (1 <=? n)%nat then "degraded" else "unavailable")) /\
  status !! "available" = Some (VBool (1 <=? n)%nat).
Proof.
  cbv zeta. unfold get_status. cbv zeta.
  rewrite !lookup_list_to_map_assoc.
  cbn [map fst snd List.filter]. rewrite !status_entry_available.
  generalize (match cultural_engine with
              | Some status => Py.truthy (Py.get status "available" (VBool false))
              | None => false
              end).
  generalize (match search_service with
              | Some status => Py.truthy (Py.get status "available" (VBool false))
              | None => false
              end).
  generalize (match map_service with
              | Some status => Py.truthy (Py.get status "available" (VBool false))
              | None => false
              end).
  generalize (match response_generator with
              | Some status => Py.truthy (Py.get status "available" (VBool false))
              | None => false
              end).
  generalize (match gemini_service with
              | Some status => Py.truthy (Py.get status "available" (VBool false))
              | None => false
              end).
  intros [] [] [] [] []; (split; [reflexivity | split; reflexivity]).
Qed.

End StatusFacts.


(** ** Complete results and nearby amenities *)

Module AmenityFacts.
Import Comp PyOps BaseService SearchService BreakerFacts SearchFacts.
Import FallbackSearchFacts StatusFacts.

Lemma assoc_is_Some_iff {A : Type} (items : list (string * A)) (k : string) :
  is_Some (Py.assoc k items) <-> In k (map fst items).
Proof.
  induction items as [| [k' v] items IH]; cbn [Py.assoc map fst In].
  - split; [intros [x Hx]; discriminate Hx | intros []].
  - destruct (String.eqb_spec k k') as [-> | Hne].
    + split; [intros _; left; reflexivity | intros _; eexists; reflexivity].
    + rewrite IH. split; [intros Hin; right; exact Hin |].
      intros [Heq | Hin]; [congruence | exact Hin].
Qed.

Lemma assoc_map_keys {A : Type} (f : string -> A) (keys : list string) (k : string) :
  Py.assoc k (map (fun key => (key, f key)) keys)
  = if Py.str_elem k keys then Some (f k) else None.
Proof.
  unfold Py.str_elem.
  induction keys as [| key keys IH]; cbn [map Py.assoc existsb]; [reflexivity |].
  destruct (String.eqb_spec k key) as [-> | Hne]; [reflexivity |].
  cbn [orb]. exact IH.
Qed.

Lemma str_elem_In (k : string) (keys : list string) :
  Py.str_elem k keys = true <-> In k keys.
Proof.
  unfold Py.str_elem. rewrite existsb_exists. split.
  - intros (x & Hin & Heq). apply String.eqb_eq in Heq. subst x. exact Hin.
  - intros Hin. exists k. split; [exact Hin | apply String.eqb_refl].
Qed.

(** A dict with known keys is the dict literal of its own values. *)
Lemma list_to_map_of_lookups (c : pydict) (keys : list string) :
  (forall k, is_Some (c !! k) <-> In k keys) ->
  (list_to_map (map (fun key => (key, Py.get c key VNone)) keys) : pydict) = c.
Proof.
  intros Hkeys. apply map_eq. intros k.
  rewrite lookup_list_to_map_assoc, assoc_map_keys.
  destruct (Py.str_elem k keys) eqn:Hk.
  - apply str_elem_In, Hkeys in Hk. destruct Hk as [v Hv].
    unfold Py.get. rewrite Hv. reflexivity.
  - destruct (c !! k) as [v |] eqn:Hv; [| reflexivity].
    assert (Hin : In k keys) by (apply Hkeys; exists v; exact Hv).
    apply str_elem_In in Hin. congruence.
Qed.

Lemma get_default_irrelevant (c : pydict) (k : string) (d d' : pyval) :
  is_Some (c !! k) -> Py.get c k d = Py.get c k d'.
Proof. intros [v Hv]. unfold Py.get. rewrite Hv. reflexivity. Qed.

Lemma slice_to_map {A B : Type} (f : A -> B) (l : list A) (n : Z) :
  Py.slice_to (map f l) n = map f (Py.slice_to l n).
Proof.
  unfold Py.slice_to. rewrite length_map.
  destruct (n <? 0)%Z; apply firstn_map.
Qed.

Section Facts.
Context `{PyRuntime} `{PyFloat} {E : Type}.
Variable enrich : pyval -> M E (list pyval).

Lemma seoul_center_valid :
  exists d, seoul_center = VDict d /\ is_Some (d !! "lat") /\ is_Some (d !! "lng").
Proof.
  eexists. split; [reflexivity |].
  rewrite !lookup_list_to_map_assoc. split; eexists; reflexivity.
Qed.

(** The shape of a completed place: the dict literal with a valid
    location and a numeric rating written over it. *)
Lemma ensure_shape (place : pydict) :
  exists (loc : pyval) (r : Q),
    _ensure_result_completeness place
      = <["rating" := VNum r]>
          (<["location" := loc]> (list_to_map (complete_place_items place))) /\
    exists d, loc = VDict d /\ is_Some (d !! "lat") /\ is_Some (d !! "lng").
Proof.
  unfold _ensure_result_completeness. cbv zeta.
  set (cp := list_to_map (complete_place_items place) : pydict).
  destruct (Py.get cp "location" VNone) as [| b | q | s | l | d] eqn:Hloc;
    try (eexists seoul_center, _; split; [reflexivity | exact seoul_center_valid]).
  destruct (d !! "lat") as [lat |] eqn:Hlat;
    [| eexists seoul_center, _; split; [reflexivity | exact seoul_center_valid]].
  destruct (d !! "lng") as [lng |] eqn:Hlng;
    [| eexists seoul_center, _; split; [reflexivity | exact seoul_center_valid]].
  exists (VDict d),
    (match float_of (Py.get cp "rating" VNone) with Ok rating => rating | Raise _ => 0%Q end).
  split.
  - rewrite (insert_id cp "location" (VDict d)); [reflexivity |].
    unfold Py.get in Hloc. destruct (cp !! "location"); [congruence | discriminate].
  - exists d. split; [reflexivity |]. rewrite Hlat, Hlng. split; eexists; reflexivity.
Qed.

Lemma ensure_keys (place : pydict) (k : string) :
  is_Some (_ensure_result_completeness place !! k) <->
  In k ["id"; "name"; "category"; "location"; "rating"; "price_level";
        "cultural_context"; "neighborhood"; "description"; "opening_hours";
        "contact"; "cultural_tags"; "amenities"; "search_score";
        "cultural_relevance"].
Proof.
  destruct (ensure_shape place) as (loc & r & -> & _).
  destruct (decide (k = "rating")) as [-> | Hrating].
  { rewrite lookup_insert_eq.
    split; [intros _; do 4 right; left; reflexivity | intros _; eexists; reflexivity]. }
  rewrite lookup_insert_ne by congruence.
  destruct (decide (k = "location")) as [-> | Hlocation].
  { rewrite lookup_insert_eq.
    split; [intros _; do 3 right; left; reflexivity | intros _; eexists; reflexivity]. }
  rewrite lookup_insert_ne by congruence.
  rewrite lookup_list_to_map_assoc, assoc_is_Some_iff. reflexivity.
Qed.

Lemma mapr_complete (places : list pydict) :
  mapr complete_result (map VDict places)
  = Ok (map _ensure_result_completeness places).
Proof.
  induction places as [| place places IH]; [reflexivity |].
  cbn [map mapr]. rewrite IH. reflexivity.
Qed.

Lemma search_places_run (query : string) (location : option (Q * Q))
    (place_type : option string) (radius : Q) (s : CircuitBreaker * World E) :
  exists s',
    search_places enrich query location place_type radius s
      = (Ok (map VDict handled_fallback_places), s').
Proof.
  destruct s as [cb w].
  destruct (search_places_after_call enrich query location place_type radius cb w)
    as (w0 & _ & _ & _ & Hafter).
  destruct (call_api_request_raises
              (search_params_of query location place_type radius) cb w0)
    as (e & cb1 & w1 & Hcall).
  destruct (Hafter _ _ _ Hcall) as (w' & Hrun & _).
  eexists. exact Hrun.
Qed.

Lemma amenities_loop_run (amenity_types : list string) (location : Q * Q)
    (radius : Q) (nearby_amenities : pydict) (s : CircuitBreaker * World E) :
  exists s',
    amenities_loop enrich amenity_types location radius nearby_amenities s
    = (Ok (fold_left
             (fun (found : pydict) amenity_type =>
                <[amenity_type :=
                    VList (map VDict
                             (map _ensure_result_completeness
                                  (Py.slice_to handled_fallback_places 5)))]> found)
             amenity_types nearby_amenities), s').
Proof.
  revert nearby_amenities s.
  induction amenity_types as [| amenity_type rest IH]; intros nearby_amenities s;
    cbn [amenities_loop fold_left]; [eexists; reflexivity |].
  unfold bind at 1.
  destruct (search_places_run EmptyString (Some location) (Some amenity_type) radius s)
    as [s1 ->].
  unfold bind at 1, lift_result at 1.
  rewrite slice_to_map, mapr_complete. apply IH.
Qed.

End Facts.


(** Completing a place is idempotent: a completed place is returned
    as it is. *)
Theorem completing_a_place_is_idempotent `{PyRuntime} `{PyFloat} (place : pydict) :
  _ensure_result_completeness (_ensure_result_completeness place)
  = _ensure_result_completeness place.
Proof.
  pose proof (ensure_keys place) as Hkeys.
  assert (Hvalues : exists (r : Q) (d : pydict),
             _ensure_result_completeness place !! "rating" = Some (VNum r) /\
             _ensure_result_completeness place !! "location" = Some (VDict d) /\
             is_Some (d !! "lat") /\ is_Some (d !! "lng")).
  { destruct (ensure_shape place) as (loc & r & -> & d & -> & Hlat & Hlng).
    exists r, d. split; [apply lookup_insert_eq |].
    rewrite lookup_insert_ne by discriminate. rewrite lookup_insert_eq.
    split; [reflexivity | split; assumption]. }
  destruct Hvalues as (r & d & Hr & Hd & [lat Hlat] & [lng Hlng]).
  generalize dependent (_ensure_result_completeness place). intros c Hkeys Hr Hd.
  assert (Hitems : (list_to_map (complete_place_items c) : pydict) = c).
  { rewrite <- (list_to_map_of_lookups c _ Hkeys) at 2.
    unfold complete_place_items. cbn [map].
    rewrite (get_default_irrelevant c "id" _ VNone)
      by (apply Hkeys; cbn [In]; auto 20).
    rewrite (get_default_irrelevant c "name" _ VNone)
      by (apply Hkeys; cbn [In]; auto 20).
    rewrite (get_default_irrelevant c "category" _ VNone)
      by (apply Hkeys; cbn [In]; auto 20).
    rewrite (get_default_irrelevant c "location" _ VNone)
      by (apply Hkeys; cbn [In]; auto 20).
    rewrite (get_default_irrelevant c "rating" _ VNone)
      by (apply Hkeys; cbn [In]; auto 20).
    rewrite (get_default_irrelevant c "price_level" _ VNone)
      by (apply Hkeys; cbn [In]; auto 20).
    rewrite (get_default_irrelevant c "cultural_context" _ VNone)
      by (apply Hkeys; cbn [In]; auto 20).
    rewrite (get_default_irrelevant c "neighborhood" _ VNone)
      by (apply Hkeys; cbn [In]; auto 20).
    rewrite (get_default_irrelevant c "description" _ VNone)
      by (apply Hkeys; cbn [In]; auto 20).
    rewrite (get_default_irrelevant c "opening_hours" _ VNone)
      by (apply Hkeys; cbn [In]; auto 20).
    rewrite (get_default_irrelevant c "contact" _ VNone)
      by (apply Hkeys; cbn [In]; auto 20).
    rewrite (get_default_irrelevant c "cultural_tags" _ VNone)
      by (apply Hkeys; cbn [In]; auto 20).
    rewrite (get_default_irrelevant c "amenities" _ VNone)
      by (apply Hkeys; cbn [In]; auto 20).
    rewrite (get_default_irrelevant c "search_score" _ VNone)
      by (apply Hkeys; cbn [In]; auto 20).
    rewrite (get_default_irrelevant c "cultural_relevance" _ VNone)
      by (apply Hkeys; cbn [In]; auto 20).
    reflexivity. }
  unfold _ensure_result_completeness. cbv zeta. rewrite Hitems.
  assert (Hloc : Py.get c "location" VNone = VDict d)
    by (unfold Py.get; rewrite Hd; reflexivity).
  assert (Hrating : Py.get c "rating" VNone = VNum r)
    by (unfold Py.get; rewrite Hr; reflexivity).
  rewrite Hloc, Hlat, Hlng. cbv iota. rewrite Hrating. cbn [float_of].
  apply insert_id. exact Hr.
Qed.

(** [get_nearby_amenities] never raises, and it answers every location
    and radius with the same dict: under each of the four amenity
    types, and under no other key, the completed fallback places of
    the adapter.  The type asked for does not change the places
    listed. *)
Theorem nearby_amenities_list_the_fallback_places `{PyRuntime} `{PyFloat} {E : Type}
    (enrich : pyval -> M E (list pyval)) (location : Q * Q) (radius : Q)
    (cb : CircuitBreaker) (w : World E) :
  exists (nearby_amenities : pydict) (s' : CircuitBreaker * World E),
    get_nearby_amenities enrich location radius (cb, w) = (Ok nearby_amenities, s') /\
    forall amenity_type,
      nearby_amenities !! amenity_type =
        if Py.str_elem amenity_type ["restaurant"; "hotel"; "transport"; "attraction"]
        then Some (VList (map VDict
                            (map _ensure_result_completeness
                                 (Py.slice_to handled_fallback_places 5))))
        else None.
Proof.
  unfold get_nearby_amenities. cbv zeta.
  unfold bind at 1, on_world at 1, time_time at 1. cbn [fst snd].
  unfold bind at 1.
  destruct (amenities_loop_run enrich ["restaurant"; "hotel"; "transport"; "attraction"]
                               location radius ∅ (cb, w)) as [s1 ->].
  unfold bind, on_world, time_time, log, ret. cbn [fst snd clock logs ext].
  eexists _, _. split; [reflexivity |].
  intros amenity_type. cbn [fold_left]. unfold Py.str_elem. cbn [existsb].
  destruct (String.eqb_spec amenity_type "attraction") as [-> | Hattraction];
    [rewrite lookup_insert_eq; reflexivity |].
  rewrite lookup_insert_ne by congruence.
  destruct (String.eqb_spec amenity_type "transport") as [-> | Htransport];
    [rewrite lookup_insert_eq; reflexivity |].
  rewrite lookup_insert_ne by congruence.
  destruct (String.eqb_spec amenity_type "hotel") as [-> | Hhotel];
    [rewrite lookup_insert_eq; reflexivity |].
  rewrite lookup_insert_ne by congruence.
  destruct (String.eqb_spec amenity_type "restaurant") as [-> | Hrestaurant];
    [rewrite lookup_insert_eq; reflexivity |].
  rewrite lookup_insert_ne by congruence.
  apply lookup_empty.
Qed.

End AmenityFacts.


(** ** Restrictions the table does not know, and the fallback search *)

Module EdgeFacts.
Import Comp PyOps LocalGuideSystem.

Section Facts.
Context `{PyRuntime}.

Lemma violates_any_unknown (rec_text : string) (restrictions : list pyval) :
  Forall (fun restriction =>
            exists s, restriction = VStr s /\
                      Py.assoc (Py.lower s) restriction_keywords = None)
         restrictions ->
  violates_any rec_text restrictions = Ok false.
Proof.
  induction 1 as [| restriction rest (s & -> & Hs) _ IH]; [reflexivity |].
  cbn [violates_any method_lower bindr]. rewrite Hs. exact IH.
Qed.

End Facts.

(** A food restriction that is not one of the five the table knows
    (vegetarian, vegan, no_spicy, halal, gluten_free, in any case of
    letters) excludes nothing: when every restriction is of that kind,
    no recommendation violates them, whatever it says. *)
Theorem unknown_restrictions_exclude_nothing `{PyRuntime}
    (recommendation : pydict) (restrictions : list pyval) :
  Forall (fun restriction =>
            exists s, restriction = VStr s /\
                      Py.assoc (Py.lower s) restriction_keywords = None)
         restrictions ->
  _violates_food_restrictions recommendation (VList restrictions) = Ok false.
Proof.
  intros Hunknown. unfold _violates_food_restrictions.
  destruct (negb (Py.truthy (VList restrictions))); [reflexivity |].
  cbn [iter bindr]. apply violates_any_unknown. exact Hunknown.
Qed.

(** The fallback search never raises and invents nothing: it returns
    places of the built-in list, in the order of that list, and, when
    a place type is given, only places whose category is the
    normalised type. *)
Theorem fallback_search_returns_built_in_places `{PyRuntime} {E : Type}
    (query : string) (place_type : option string) (w : World E) :
  exists (places : list pydict) (w' : World E),
    SearchService._get_fallback_search_results query place_type w = (Ok places, w') /\
    places `sublist_of` SearchService.fallback_places /\
    forall t, place_type = Some t -> t <> EmptyString ->
              Forall (fun place =>
                        SearchService.str_field place "category"
                        = SearchService._normalize_place_type t) places.
Proof.
  unfold SearchService._get_fallback_search_results. cbv zeta.
  unfold bind, log, ret. cbn [clock logs ext].
  eexists _, _. split; [reflexivity |].
  assert (Htyped :
            match place_type with
            | Some t =>
                if Py.truthy (VStr t)
                then filter (fun p => SearchService.str_field p "category"
                                      = SearchService._normalize_place_type t)
                            SearchService.fallback_places
                else SearchService.fallback_places
            | None => SearchService.fallback_places
            end `sublist_of` SearchService.fallback_places).
  { destruct place_type as [t |]; [| reflexivity].
    destruct (Py.truthy (VStr t)); [apply sublist_filter | reflexivity]. }
  split.
  - destruct (Py.truthy (VStr query)); [| exact Htyped].
    etransitivity; [apply sublist_filter | exact Htyped].
  - intros t -> Ht.
    assert (Htruthy : Py.truthy (VStr t) = true).
    { unfold Py.truthy. destruct t; [congruence | reflexivity]. }
    rewrite Htruthy. apply Forall_forall. intros place Hin.
    destruct (Py.truthy (VStr query)).
    + apply list_elem_of_filter in Hin. destruct Hin as [_ Hin].
      apply list_elem_of_filter in Hin. destruct Hin as [Hcat _]. exact Hcat.
    + apply list_elem_of_filter in Hin. destruct Hin as [Hcat _]. exact Hcat.
Qed.

#[local] Existing Instance Deployment.example_runtime.

Lemma unknown_restrictions_exclude_nothing_witness :
  Forall (fun restriction =>
            exists s, restriction = VStr s /\
                      Py.assoc (Py.lower s) restriction_keywords = None)
         [VStr "Kosher"; VStr "no pork"] /\
  _violates_food_restrictions Deployment.pork_house
                              (VList [VStr "Kosher"; VStr "no pork"]) = Ok false.
Proof.
  assert (Hunknown :
            Forall (fun restriction =>
                      exists s, restriction = VStr s /\
                                Py.assoc (Py.lower s) restriction_keywords = None)
                   [VStr "Kosher"; VStr "no pork"]).
  { constructor; [eexists; split; [reflexivity | vm_compute; reflexivity] |].
    constructor; [eexists; split; [reflexivity | vm_compute; reflexivity] |].
    constructor. }
  split; [exact Hunknown |].
  exact (unknown_restrictions_exclude_nothing Deployment.pork_house
           [VStr "Kosher"; VStr "no pork"] Hunknown).
Defined.

End EdgeFacts.
